(** * Deployment resolution scripts of the SAP AI Core LLM proxy

    A shallow embedding of the decision logic of the repository's helper
    scripts ([find_opus_deployment.py], [list_deployments.py],
    [list_configurations.py], [test_deployment.py] and
    [test_claude_code_integration.py]) together with the properties the
    specification states about them.

    Modelling conventions.
    - A value read from a JSON document ([json.load], [response.json()])
      is a [json] tree.  Python's [None] is [JNull]; JSON numbers are
      integers (floating point numbers are outside the model); a Python
      [dict] is an association list read with first-match lookup.
    - A Python [str] is the [string] of its UTF-8 bytes.  [str.upper] is
      the case mapping of Unicode.  [str.lower] occurs in the name tests
      only, where it is the mapping of the letters [A-Z]: the tokens
      looked for are ASCII, and the only characters outside ASCII whose
      lower case has an ASCII letter are U+0130 (an i followed by a
      combining dot) and U+212A (a k), which cannot be part of a token:
      the tests give what they give in Python on every name.
    - Exceptions and [sys.exit] are outcomes of a computation, [print] and
      the HTTP calls are events of its trace.
    - The HTTP transport ([requests]), [base64] and the text Python prints
      for a list or a dict are collaborators outside the repository: they
      are the fields of a [World]. *)

From Stdlib Require Import String Ascii List ZArith Bool Lia DecimalString.
Import ListNotations.
Open Scope list_scope.
Open Scope string_scope.

(** ** Python values *)

Module Py.

#[local] Unset Elimination Schemes.

Inductive json : Type :=
| JNull
| JBool (b : bool)
| JNum (n : Z)
| JStr (s : string)
| JArr (items : list json)
| JObj (fields : list (string * json)).

#[local] Set Elimination Schemes.

(** *** Strings *)

Definition is_upper (c : ascii) : bool :=
  let n := nat_of_ascii c in (65 <=? n)%nat && (n <=? 90)%nat.

Definition is_lower (c : ascii) : bool :=
  let n := nat_of_ascii c in (97 <=? n)%nat && (n <=? 122)%nat.

Definition lower_char (c : ascii) : ascii :=
  if is_upper c then ascii_of_nat (nat_of_ascii c + 32) else c.

Definition upper_char (c : ascii) : ascii :=
  if is_lower c then ascii_of_nat (nat_of_ascii c - 32) else c.

(** [s.lower()] *)
Fixpoint lower (s : string) : string :=
  match s with
  | EmptyString => EmptyString
  | String c r => String (lower_char c) (lower r)
  end.

(** The characters outside ASCII that [str.upper] changes, each with its
    upper case text, both in UTF-8: the case mapping of Unicode 14.0, as
    in CPython 3.11. *)
Definition upper_table : list (string * string) :=
  [
   ("µ", "Μ"); ("ß", "SS"); ("à", "À"); ("á", "Á"); ("â", "Â"); ("ã", "Ã");
   ("ä", "Ä"); ("å", "Å"); ("æ", "Æ"); ("ç", "Ç"); ("è", "È"); ("é", "É");
   ("ê", "Ê"); ("ë", "Ë"); ("ì", "Ì"); ("í", "Í"); ("î", "Î"); ("ï", "Ï");
   ("ð", "Ð"); ("ñ", "Ñ"); ("ò", "Ò"); ("ó", "Ó"); ("ô", "Ô"); ("õ", "Õ");
   ("ö", "Ö"); ("ø", "Ø"); ("ù", "Ù"); ("ú", "Ú"); ("û", "Û"); ("ü", "Ü");
   ("ý", "Ý"); ("þ", "Þ"); ("ÿ", "Ÿ"); ("ā", "Ā"); ("ă", "Ă"); ("ą", "Ą");
   ("ć", "Ć"); ("ĉ", "Ĉ"); ("ċ", "Ċ"); ("č", "Č"); ("ď", "Ď"); ("đ", "Đ");
   ("ē", "Ē"); ("ĕ", "Ĕ"); ("ė", "Ė"); ("ę", "Ę"); ("ě", "Ě"); ("ĝ", "Ĝ");
   ("ğ", "Ğ"); ("ġ", "Ġ"); ("ģ", "Ģ"); ("ĥ", "Ĥ"); ("ħ", "Ħ"); ("ĩ", "Ĩ");
   ("ī", "Ī"); ("ĭ", "Ĭ"); ("į", "Į"); ("ı", "I"); ("ĳ", "Ĳ"); ("ĵ", "Ĵ");
   ("ķ", "Ķ"); ("ĺ", "Ĺ"); ("ļ", "Ļ"); ("ľ", "Ľ"); ("ŀ", "Ŀ"); ("ł", "Ł");
   ("ń", "Ń"); ("ņ", "Ņ"); ("ň", "Ň"); ("ŉ", "ʼN"); ("ŋ", "Ŋ"); ("ō", "Ō");
   ("ŏ", "Ŏ"); ("ő", "Ő"); ("œ", "Œ"); ("ŕ", "Ŕ"); ("ŗ", "Ŗ"); ("ř", "Ř");
   ("ś", "Ś"); ("ŝ", "Ŝ"); ("ş", "Ş"); ("š", "Š"); ("ţ", "Ţ"); ("ť", "Ť");
   ("ŧ", "Ŧ"); ("ũ", "Ũ"); ("ū", "Ū"); ("ŭ", "Ŭ"); ("ů", "Ů"); ("ű", "Ű");
   ("ų", "Ų"); ("ŵ", "Ŵ"); ("ŷ", "Ŷ"); ("ź", "Ź"); ("ż", "Ż"); ("ž", "Ž");
   ("ſ", "S"); ("ƀ", "Ƀ"); ("ƃ", "Ƃ"); ("ƅ", "Ƅ"); ("ƈ", "Ƈ"); ("ƌ", "Ƌ");
   ("ƒ", "Ƒ"); ("ƕ", "Ƕ"); ("ƙ", "Ƙ"); ("ƚ", "Ƚ"); ("ƞ", "Ƞ"); ("ơ", "Ơ");
   ("ƣ", "Ƣ"); ("ƥ", "Ƥ"); ("ƨ", "Ƨ"); ("ƭ", "Ƭ"); ("ư", "Ư"); ("ƴ", "Ƴ");
   ("ƶ", "Ƶ"); ("ƹ", "Ƹ"); ("ƽ", "Ƽ"); ("ƿ", "Ƿ"); ("ǅ", "Ǆ"); ("ǆ", "Ǆ");
   ("ǈ", "Ǉ"); ("ǉ", "Ǉ"); ("ǋ", "Ǌ"); ("ǌ", "Ǌ"); ("ǎ", "Ǎ"); ("ǐ", "Ǐ");
   ("ǒ", "Ǒ"); ("ǔ", "Ǔ"); ("ǖ", "Ǖ"); ("ǘ", "Ǘ"); ("ǚ", "Ǚ"); ("ǜ", "Ǜ");
   ("ǝ", "Ǝ"); ("ǟ", "Ǟ"); ("ǡ", "Ǡ"); ("ǣ", "Ǣ"); ("ǥ", "Ǥ"); ("ǧ", "Ǧ");
   ("ǩ", "Ǩ"); ("ǫ", "Ǫ"); ("ǭ", "Ǭ"); ("ǯ", "Ǯ"); ("ǰ", "J̌"); ("ǲ", "Ǳ");
   ("ǳ", "Ǳ"); ("ǵ", "Ǵ"); ("ǹ", "Ǹ"); ("ǻ", "Ǻ"); ("ǽ", "Ǽ"); ("ǿ", "Ǿ");
   ("ȁ", "Ȁ"); ("ȃ", "Ȃ"); ("ȅ", "Ȅ"); ("ȇ", "Ȇ"); ("ȉ", "Ȉ"); ("ȋ", "Ȋ");
   ("ȍ", "Ȍ"); ("ȏ", "Ȏ"); ("ȑ", "Ȑ"); ("ȓ", "Ȓ"); ("ȕ", "Ȕ"); ("ȗ", "Ȗ");
   ("ș", "Ș"); ("ț", "Ț"); ("ȝ", "Ȝ"); ("ȟ", "Ȟ"); ("ȣ", "Ȣ"); ("ȥ", "Ȥ");
   ("ȧ", "Ȧ"); ("ȩ", "Ȩ"); ("ȫ", "Ȫ"); ("ȭ", "Ȭ"); ("ȯ", "Ȯ"); ("ȱ", "Ȱ");
   ("ȳ", "Ȳ"); ("ȼ", "Ȼ"); ("ȿ", "Ȿ"); ("ɀ", "Ɀ"); ("ɂ", "Ɂ"); ("ɇ", "Ɇ");
   ("ɉ", "Ɉ"); ("ɋ", "Ɋ"); ("ɍ", "Ɍ"); ("ɏ", "Ɏ"); ("ɐ", "Ɐ"); ("ɑ", "Ɑ");
   ("ɒ", "Ɒ"); ("ɓ", "Ɓ"); ("ɔ", "Ɔ"); ("ɖ", "Ɖ"); ("ɗ", "Ɗ"); ("ə", "Ə");
   ("ɛ", "Ɛ"); ("ɜ", "Ɜ"); ("ɠ", "Ɠ"); ("ɡ", "Ɡ"); ("ɣ", "Ɣ"); ("ɥ", "Ɥ");
   ("ɦ", "Ɦ"); ("ɨ", "Ɨ"); ("ɩ", "Ɩ"); ("ɪ", "Ɪ"); ("ɫ", "Ɫ"); ("ɬ", "Ɬ");
   ("ɯ", "Ɯ"); ("ɱ", "Ɱ"); ("ɲ", "Ɲ"); ("ɵ", "Ɵ"); ("ɽ", "Ɽ"); ("ʀ", "Ʀ");
   ("ʂ", "Ʂ"); ("ʃ", "Ʃ"); ("ʇ", "Ʇ"); ("ʈ", "Ʈ"); ("ʉ", "Ʉ"); ("ʊ", "Ʊ");
   ("ʋ", "Ʋ"); ("ʌ", "Ʌ"); ("ʒ", "Ʒ"); ("ʝ", "Ʝ"); ("ʞ", "Ʞ"); ("ͅ", "Ι");
   ("ͱ", "Ͱ"); ("ͳ", "Ͳ"); ("ͷ", "Ͷ"); ("ͻ", "Ͻ"); ("ͼ", "Ͼ"); ("ͽ", "Ͽ");
   ("ΐ", "Ϊ́"); ("ά", "Ά"); ("έ", "Έ"); ("ή", "Ή"); ("ί", "Ί"); ("ΰ", "Ϋ́");
   ("α", "Α"); ("β", "Β"); ("γ", "Γ"); ("δ", "Δ"); ("ε", "Ε"); ("ζ", "Ζ");
   ("η", "Η"); ("θ", "Θ"); ("ι", "Ι"); ("κ", "Κ"); ("λ", "Λ"); ("μ", "Μ");
   ("ν", "Ν"); ("ξ", "Ξ"); ("ο", "Ο"); ("π", "Π"); ("ρ", "Ρ"); ("ς", "Σ");
   ("σ", "Σ"); ("τ", "Τ"); ("υ", "Υ"); ("φ", "Φ"); ("χ", "Χ"); ("ψ", "Ψ");
   ("ω", "Ω"); ("ϊ", "Ϊ"); ("ϋ", "Ϋ"); ("ό", "Ό"); ("ύ", "Ύ"); ("ώ", "Ώ");
   ("ϐ", "Β"); ("ϑ", "Θ"); ("ϕ", "Φ"); ("ϖ", "Π"); ("ϗ", "Ϗ"); ("ϙ", "Ϙ");
   ("ϛ", "Ϛ"); ("ϝ", "Ϝ"); ("ϟ", "Ϟ"); ("ϡ", "Ϡ"); ("ϣ", "Ϣ"); ("ϥ", "Ϥ");
   ("ϧ", "Ϧ"); ("ϩ", "Ϩ"); ("ϫ", "Ϫ"); ("ϭ", "Ϭ"); ("ϯ", "Ϯ"); ("ϰ", "Κ");
   ("ϱ", "Ρ"); ("ϲ", "Ϲ"); ("ϳ", "Ϳ"); ("ϵ", "Ε"); ("ϸ", "Ϸ"); ("ϻ", "Ϻ");
   ("а", "А"); ("б", "Б"); ("в", "В"); ("г", "Г"); ("д", "Д"); ("е", "Е");
   ("ж", "Ж"); ("з", "З"); ("и", "И"); ("й", "Й"); ("к", "К"); ("л", "Л");
   ("м", "М"); ("н", "Н"); ("о", "О"); ("п", "П"); ("р", "Р"); ("с", "С");
   ("т", "Т"); ("у", "У"); ("ф", "Ф"); ("х", "Х"); ("ц", "Ц"); ("ч", "Ч");
   ("ш", "Ш"); ("щ", "Щ"); ("ъ", "Ъ"); ("ы", "Ы"); ("ь", "Ь"); ("э", "Э");
   ("ю", "Ю"); ("я", "Я"); ("ѐ", "Ѐ"); ("ё", "Ё"); ("ђ", "Ђ"); ("ѓ", "Ѓ");
   ("є", "Є"); ("ѕ", "Ѕ"); ("і", "І"); ("ї", "Ї"); ("ј", "Ј"); ("љ", "Љ");
   ("њ", "Њ"); ("ћ", "Ћ"); ("ќ", "Ќ"); ("ѝ", "Ѝ"); ("ў", "Ў"); ("џ", "Џ");
   ("ѡ", "Ѡ"); ("ѣ", "Ѣ"); ("ѥ", "Ѥ"); ("ѧ", "Ѧ"); ("ѩ", "Ѩ"); ("ѫ", "Ѫ");
   ("ѭ", "Ѭ"); ("ѯ", "Ѯ"); ("ѱ", "Ѱ"); ("ѳ", "Ѳ"); ("ѵ", "Ѵ"); ("ѷ", "Ѷ");
   ("ѹ", "Ѹ"); ("ѻ", "Ѻ"); ("ѽ", "Ѽ"); ("ѿ", "Ѿ"); ("ҁ", "Ҁ"); ("ҋ", "Ҋ");
   ("ҍ", "Ҍ"); ("ҏ", "Ҏ"); ("ґ", "Ґ"); ("ғ", "Ғ"); ("ҕ", "Ҕ"); ("җ", "Җ");
   ("ҙ", "Ҙ"); ("қ", "Қ"); ("ҝ", "Ҝ"); ("ҟ", "Ҟ"); ("ҡ", "Ҡ"); ("ң", "Ң");
   ("ҥ", "Ҥ"); ("ҧ", "Ҧ"); ("ҩ", "Ҩ"); ("ҫ", "Ҫ"); ("ҭ", "Ҭ"); ("ү", "Ү");
   ("ұ", "Ұ"); ("ҳ", "Ҳ"); ("ҵ", "Ҵ"); ("ҷ", "Ҷ"); ("ҹ", "Ҹ"); ("һ", "Һ");
   ("ҽ", "Ҽ"); ("ҿ", "Ҿ"); ("ӂ", "Ӂ"); ("ӄ", "Ӄ"); ("ӆ", "Ӆ"); ("ӈ", "Ӈ");
   ("ӊ", "Ӊ"); ("ӌ", "Ӌ"); ("ӎ", "Ӎ"); ("ӏ", "Ӏ"); ("ӑ", "Ӑ"); ("ӓ", "Ӓ");
   ("ӕ", "Ӕ"); ("ӗ", "Ӗ"); ("ә", "Ә"); ("ӛ", "Ӛ"); ("ӝ", "Ӝ"); ("ӟ", "Ӟ");
   ("ӡ", "Ӡ"); ("ӣ", "Ӣ"); ("ӥ", "Ӥ"); ("ӧ", "Ӧ"); ("ө", "Ө"); ("ӫ", "Ӫ");
   ("ӭ", "Ӭ"); ("ӯ", "Ӯ"); ("ӱ", "Ӱ"); ("ӳ", "Ӳ"); ("ӵ", "Ӵ"); ("ӷ", "Ӷ");
   ("ӹ", "Ӹ"); ("ӻ", "Ӻ"); ("ӽ", "Ӽ"); ("ӿ", "Ӿ"); ("ԁ", "Ԁ"); ("ԃ", "Ԃ");
   ("ԅ", "Ԅ"); ("ԇ", "Ԇ"); ("ԉ", "Ԉ"); ("ԋ", "Ԋ"); ("ԍ", "Ԍ"); ("ԏ", "Ԏ");
   ("ԑ", "Ԑ"); ("ԓ", "Ԓ"); ("ԕ", "Ԕ"); ("ԗ", "Ԗ"); ("ԙ", "Ԙ"); ("ԛ", "Ԛ");
   ("ԝ", "Ԝ"); ("ԟ", "Ԟ"); ("ԡ", "Ԡ"); ("ԣ", "Ԣ"); ("ԥ", "Ԥ"); ("ԧ", "Ԧ");
   ("ԩ", "Ԩ"); ("ԫ", "Ԫ"); ("ԭ", "Ԭ"); ("ԯ", "Ԯ"); ("ա", "Ա"); ("բ", "Բ");
   ("գ", "Գ"); ("դ", "Դ"); ("ե", "Ե"); ("զ", "Զ"); ("է", "Է"); ("ը", "Ը");
   ("թ", "Թ"); ("ժ", "Ժ"); ("ի", "Ի"); ("լ", "Լ"); ("խ", "Խ"); ("ծ", "Ծ");
   ("կ", "Կ"); ("հ", "Հ"); ("ձ", "Ձ"); ("ղ", "Ղ"); ("ճ", "Ճ"); ("մ", "Մ");
   ("յ", "Յ"); ("ն", "Ն"); ("շ", "Շ"); ("ո", "Ո"); ("չ", "Չ"); ("պ", "Պ");
   ("ջ", "Ջ"); ("ռ", "Ռ"); ("ս", "Ս"); ("վ", "Վ"); ("տ", "Տ"); ("ր", "Ր");
   ("ց", "Ց"); ("ւ", "Ւ"); ("փ", "Փ"); ("ք", "Ք"); ("օ", "Օ"); ("ֆ", "Ֆ");
   ("և", "ԵՒ"); ("ა", "Ა"); ("ბ", "Ბ"); ("გ", "Გ"); ("დ", "Დ"); ("ე", "Ე");
   ("ვ", "Ვ"); ("ზ", "Ზ"); ("თ", "Თ"); ("ი", "Ი"); ("კ", "Კ"); ("ლ", "Ლ");
   ("მ", "Მ"); ("ნ", "Ნ"); ("ო", "Ო"); ("პ", "Პ"); ("ჟ", "Ჟ"); ("რ", "Რ");
   ("ს", "Ს"); ("ტ", "Ტ"); ("უ", "Უ"); ("ფ", "Ფ"); ("ქ", "Ქ"); ("ღ", "Ღ");
   ("ყ", "Ყ"); ("შ", "Შ"); ("ჩ", "Ჩ"); ("ც", "Ც"); ("ძ", "Ძ"); ("წ", "Წ");
   ("ჭ", "Ჭ"); ("ხ", "Ხ"); ("ჯ", "Ჯ"); ("ჰ", "Ჰ"); ("ჱ", "Ჱ"); ("ჲ", "Ჲ");
   ("ჳ", "Ჳ"); ("ჴ", "Ჴ"); ("ჵ", "Ჵ"); ("ჶ", "Ჶ"); ("ჷ", "Ჷ"); ("ჸ", "Ჸ");
   ("ჹ", "Ჹ"); ("ჺ", "Ჺ"); ("ჽ", "Ჽ"); ("ჾ", "Ჾ"); ("ჿ", "Ჿ"); ("ᏸ", "Ᏸ");
   ("ᏹ", "Ᏹ"); ("ᏺ", "Ᏺ"); ("ᏻ", "Ᏻ"); ("ᏼ", "Ᏼ"); ("ᏽ", "Ᏽ"); ("ᲀ", "В");
   ("ᲁ", "Д"); ("ᲂ", "О"); ("ᲃ", "С"); ("ᲄ", "Т"); ("ᲅ", "Т"); ("ᲆ", "Ъ");
   ("ᲇ", "Ѣ"); ("ᲈ", "Ꙋ"); ("ᵹ", "Ᵹ"); ("ᵽ", "Ᵽ"); ("ᶎ", "Ᶎ"); ("ḁ", "Ḁ");
   ("ḃ", "Ḃ"); ("ḅ", "Ḅ"); ("ḇ", "Ḇ"); ("ḉ", "Ḉ"); ("ḋ", "Ḋ"); ("ḍ", "Ḍ");
   ("ḏ", "Ḏ"); ("ḑ", "Ḑ"); ("ḓ", "Ḓ"); ("ḕ", "Ḕ"); ("ḗ", "Ḗ"); ("ḙ", "Ḙ");
   ("ḛ", "Ḛ"); ("ḝ", "Ḝ"); ("ḟ", "Ḟ"); ("ḡ", "Ḡ"); ("ḣ", "Ḣ"); ("ḥ", "Ḥ");
   ("ḧ", "Ḧ"); ("ḩ", "Ḩ"); ("ḫ", "Ḫ"); ("ḭ", "Ḭ"); ("ḯ", "Ḯ"); ("ḱ", "Ḱ");
   ("ḳ", "Ḳ"); ("ḵ", "Ḵ"); ("ḷ", "Ḷ"); ("ḹ", "Ḹ"); ("ḻ", "Ḻ"); ("ḽ", "Ḽ");
   ("ḿ", "Ḿ"); ("ṁ", "Ṁ"); ("ṃ", "Ṃ"); ("ṅ", "Ṅ"); ("ṇ", "Ṇ"); ("ṉ", "Ṉ");
   ("ṋ", "Ṋ"); ("ṍ", "Ṍ"); ("ṏ", "Ṏ"); ("ṑ", "Ṑ"); ("ṓ", "Ṓ"); ("ṕ", "Ṕ");
   ("ṗ", "Ṗ"); ("ṙ", "Ṙ"); ("ṛ", "Ṛ"); ("ṝ", "Ṝ"); ("ṟ", "Ṟ"); ("ṡ", "Ṡ");
   ("ṣ", "Ṣ"); ("ṥ", "Ṥ"); ("ṧ", "Ṧ"); ("ṩ", "Ṩ"); ("ṫ", "Ṫ"); ("ṭ", "Ṭ");
   ("ṯ", "Ṯ"); ("ṱ", "Ṱ"); ("ṳ", "Ṳ"); ("ṵ", "Ṵ"); ("ṷ", "Ṷ"); ("ṹ", "Ṹ");
   ("ṻ", "Ṻ"); ("ṽ", "Ṽ"); ("ṿ", "Ṿ"); ("ẁ", "Ẁ"); ("ẃ", "Ẃ"); ("ẅ", "Ẅ");
   ("ẇ", "Ẇ"); ("ẉ", "Ẉ"); ("ẋ", "Ẋ"); ("ẍ", "Ẍ"); ("ẏ", "Ẏ"); ("ẑ", "Ẑ");
   ("ẓ", "Ẓ"); ("ẕ", "Ẕ"); ("ẖ", "H̱"); ("ẗ", "T̈"); ("ẘ", "W̊"); ("ẙ", "Y̊");
   ("ẚ", "Aʾ"); ("ẛ", "Ṡ"); ("ạ", "Ạ"); ("ả", "Ả"); ("ấ", "Ấ"); ("ầ", "Ầ");
   ("ẩ", "Ẩ"); ("ẫ", "Ẫ"); ("ậ", "Ậ"); ("ắ", "Ắ"); ("ằ", "Ằ"); ("ẳ", "Ẳ");
   ("ẵ", "Ẵ"); ("ặ", "Ặ"); ("ẹ", "Ẹ"); ("ẻ", "Ẻ"); ("ẽ", "Ẽ"); ("ế", "Ế");
   ("ề", "Ề"); ("ể", "Ể"); ("ễ", "Ễ"); ("ệ", "Ệ"); ("ỉ", "Ỉ"); ("ị", "Ị");
   ("ọ", "Ọ"); ("ỏ", "Ỏ"); ("ố", "Ố"); ("ồ", "Ồ"); ("ổ", "Ổ"); ("ỗ", "Ỗ");
   ("ộ", "Ộ"); ("ớ", "Ớ"); ("ờ", "Ờ"); ("ở", "Ở"); ("ỡ", "Ỡ"); ("ợ", "Ợ");
   ("ụ", "Ụ"); ("ủ", "Ủ"); ("ứ", "Ứ"); ("ừ", "Ừ"); ("ử", "Ử"); ("ữ", "Ữ");
   ("ự", "Ự"); ("ỳ", "Ỳ"); ("ỵ", "Ỵ"); ("ỷ", "Ỷ"); ("ỹ", "Ỹ"); ("ỻ", "Ỻ");
   ("ỽ", "Ỽ"); ("ỿ", "Ỿ"); ("ἀ", "Ἀ"); ("ἁ", "Ἁ"); ("ἂ", "Ἂ"); ("ἃ", "Ἃ");
   ("ἄ", "Ἄ"); ("ἅ", "Ἅ"); ("ἆ", "Ἆ"); ("ἇ", "Ἇ"); ("ἐ", "Ἐ"); ("ἑ", "Ἑ");
   ("ἒ", "Ἒ"); ("ἓ", "Ἓ"); ("ἔ", "Ἔ"); ("ἕ", "Ἕ"); ("ἠ", "Ἠ"); ("ἡ", "Ἡ");
   ("ἢ", "Ἢ"); ("ἣ", "Ἣ"); ("ἤ", "Ἤ"); ("ἥ", "Ἥ"); ("ἦ", "Ἦ"); ("ἧ", "Ἧ");
   ("ἰ", "Ἰ"); ("ἱ", "Ἱ"); ("ἲ", "Ἲ"); ("ἳ", "Ἳ"); ("ἴ", "Ἴ"); ("ἵ", "Ἵ");
   ("ἶ", "Ἶ"); ("ἷ", "Ἷ"); ("ὀ", "Ὀ"); ("ὁ", "Ὁ"); ("ὂ", "Ὂ"); ("ὃ", "Ὃ");
   ("ὄ", "Ὄ"); ("ὅ", "Ὅ"); ("ὐ", "Υ̓"); ("ὑ", "Ὑ"); ("ὒ", "Υ̓̀"); ("ὓ", "Ὓ");
   ("ὔ", "Υ̓́"); ("ὕ", "Ὕ"); ("ὖ", "Υ̓͂"); ("ὗ", "Ὗ"); ("ὠ", "Ὠ"); ("ὡ", "Ὡ");
   ("ὢ", "Ὢ"); ("ὣ", "Ὣ"); ("ὤ", "Ὤ"); ("ὥ", "Ὥ"); ("ὦ", "Ὦ"); ("ὧ", "Ὧ");
   ("ὰ", "Ὰ"); ("ά", "Ά"); ("ὲ", "Ὲ"); ("έ", "Έ"); ("ὴ", "Ὴ"); ("ή", "Ή");
   ("ὶ", "Ὶ"); ("ί", "Ί"); ("ὸ", "Ὸ"); ("ό", "Ό"); ("ὺ", "Ὺ"); ("ύ", "Ύ");
   ("ὼ", "Ὼ"); ("ώ", "Ώ"); ("ᾀ", "ἈΙ"); ("ᾁ", "ἉΙ"); ("ᾂ", "ἊΙ"); ("ᾃ", "ἋΙ");
   ("ᾄ", "ἌΙ"); ("ᾅ", "ἍΙ"); ("ᾆ", "ἎΙ"); ("ᾇ", "ἏΙ"); ("ᾈ", "ἈΙ");
   ("ᾉ", "ἉΙ"); ("ᾊ", "ἊΙ"); ("ᾋ", "ἋΙ"); ("ᾌ", "ἌΙ"); ("ᾍ", "ἍΙ");
   ("ᾎ", "ἎΙ"); ("ᾏ", "ἏΙ"); ("ᾐ", "ἨΙ"); ("ᾑ", "ἩΙ"); ("ᾒ", "ἪΙ");
   ("ᾓ", "ἫΙ"); ("ᾔ", "ἬΙ"); ("ᾕ", "ἭΙ"); ("ᾖ", "ἮΙ"); ("ᾗ", "ἯΙ");
   ("ᾘ", "ἨΙ"); ("ᾙ", "ἩΙ"); ("ᾚ", "ἪΙ"); ("ᾛ", "ἫΙ"); ("ᾜ", "ἬΙ");
   ("ᾝ", "ἭΙ"); ("ᾞ", "ἮΙ"); ("ᾟ", "ἯΙ"); ("ᾠ", "ὨΙ"); ("ᾡ", "ὩΙ");
   ("ᾢ", "ὪΙ"); ("ᾣ", "ὫΙ"); ("ᾤ", "ὬΙ"); ("ᾥ", "ὭΙ"); ("ᾦ", "ὮΙ");
   ("ᾧ", "ὯΙ"); ("ᾨ", "ὨΙ"); ("ᾩ", "ὩΙ"); ("ᾪ", "ὪΙ"); ("ᾫ", "ὫΙ");
   ("ᾬ", "ὬΙ"); ("ᾭ", "ὭΙ"); ("ᾮ", "ὮΙ"); ("ᾯ", "ὯΙ"); ("ᾰ", "Ᾰ"); ("ᾱ", "Ᾱ");
   ("ᾲ", "ᾺΙ"); ("ᾳ", "ΑΙ"); ("ᾴ", "ΆΙ"); ("ᾶ", "Α͂"); ("ᾷ", "Α͂Ι");
   ("ᾼ", "ΑΙ"); ("ι", "Ι"); ("ῂ", "ῊΙ"); ("ῃ", "ΗΙ"); ("ῄ", "ΉΙ");
   ("ῆ", "Η͂"); ("ῇ", "Η͂Ι"); ("ῌ", "ΗΙ"); ("ῐ", "Ῐ"); ("ῑ", "Ῑ");
   ("ῒ", "Ϊ̀"); ("ΐ", "Ϊ́"); ("ῖ", "Ι͂"); ("ῗ", "Ϊ͂"); ("ῠ", "Ῠ");
   ("ῡ", "Ῡ"); ("ῢ", "Ϋ̀"); ("ΰ", "Ϋ́"); ("ῤ", "Ρ̓"); ("ῥ", "Ῥ");
   ("ῦ", "Υ͂"); ("ῧ", "Ϋ͂"); ("ῲ", "ῺΙ"); ("ῳ", "ΩΙ"); ("ῴ", "ΏΙ");
   ("ῶ", "Ω͂"); ("ῷ", "Ω͂Ι"); ("ῼ", "ΩΙ"); ("ⅎ", "Ⅎ"); ("ⅰ", "Ⅰ"); ("ⅱ", "Ⅱ");
   ("ⅲ", "Ⅲ"); ("ⅳ", "Ⅳ"); ("ⅴ", "Ⅴ"); ("ⅵ", "Ⅵ"); ("ⅶ", "Ⅶ"); ("ⅷ", "Ⅷ");
   ("ⅸ", "Ⅸ"); ("ⅹ", "Ⅹ"); ("ⅺ", "Ⅺ"); ("ⅻ", "Ⅻ"); ("ⅼ", "Ⅼ"); ("ⅽ", "Ⅽ");
   ("ⅾ", "Ⅾ"); ("ⅿ", "Ⅿ"); ("ↄ", "Ↄ"); ("ⓐ", "Ⓐ"); ("ⓑ", "Ⓑ"); ("ⓒ", "Ⓒ");
   ("ⓓ", "Ⓓ"); ("ⓔ", "Ⓔ"); ("ⓕ", "Ⓕ"); ("ⓖ", "Ⓖ"); ("ⓗ", "Ⓗ"); ("ⓘ", "Ⓘ");
   ("ⓙ", "Ⓙ"); ("ⓚ", "Ⓚ"); ("ⓛ", "Ⓛ"); ("ⓜ", "Ⓜ"); ("ⓝ", "Ⓝ"); ("ⓞ", "Ⓞ");
   ("ⓟ", "Ⓟ"); ("ⓠ", "Ⓠ"); ("ⓡ", "Ⓡ"); ("ⓢ", "Ⓢ"); ("ⓣ", "Ⓣ"); ("ⓤ", "Ⓤ");
   ("ⓥ", "Ⓥ"); ("ⓦ", "Ⓦ"); ("ⓧ", "Ⓧ"); ("ⓨ", "Ⓨ"); ("ⓩ", "Ⓩ"); ("ⰰ", "Ⰰ");
   ("ⰱ", "Ⰱ"); ("ⰲ", "Ⰲ"); ("ⰳ", "Ⰳ"); ("ⰴ", "Ⰴ"); ("ⰵ", "Ⰵ"); ("ⰶ", "Ⰶ");
   ("ⰷ", "Ⰷ"); ("ⰸ", "Ⰸ"); ("ⰹ", "Ⰹ"); ("ⰺ", "Ⰺ"); ("ⰻ", "Ⰻ"); ("ⰼ", "Ⰼ");
   ("ⰽ", "Ⰽ"); ("ⰾ", "Ⰾ"); ("ⰿ", "Ⰿ"); ("ⱀ", "Ⱀ"); ("ⱁ", "Ⱁ"); ("ⱂ", "Ⱂ");
   ("ⱃ", "Ⱃ"); ("ⱄ", "Ⱄ"); ("ⱅ", "Ⱅ"); ("ⱆ", "Ⱆ"); ("ⱇ", "Ⱇ"); ("ⱈ", "Ⱈ");
   ("ⱉ", "Ⱉ"); ("ⱊ", "Ⱊ"); ("ⱋ", "Ⱋ"); ("ⱌ", "Ⱌ"); ("ⱍ", "Ⱍ"); ("ⱎ", "Ⱎ");
   ("ⱏ", "Ⱏ"); ("ⱐ", "Ⱐ"); ("ⱑ", "Ⱑ"); ("ⱒ", "Ⱒ"); ("ⱓ", "Ⱓ"); ("ⱔ", "Ⱔ");
   ("ⱕ", "Ⱕ"); ("ⱖ", "Ⱖ"); ("ⱗ", "Ⱗ"); ("ⱘ", "Ⱘ"); ("ⱙ", "Ⱙ"); ("ⱚ", "Ⱚ");
   ("ⱛ", "Ⱛ"); ("ⱜ", "Ⱜ"); ("ⱝ", "Ⱝ"); ("ⱞ", "Ⱞ"); ("ⱟ", "Ⱟ"); ("ⱡ", "Ⱡ");
   ("ⱥ", "Ⱥ"); ("ⱦ", "Ⱦ"); ("ⱨ", "Ⱨ"); ("ⱪ", "Ⱪ"); ("ⱬ", "Ⱬ"); ("ⱳ", "Ⱳ");
   ("ⱶ", "Ⱶ"); ("ⲁ", "Ⲁ"); ("ⲃ", "Ⲃ"); ("ⲅ", "Ⲅ"); ("ⲇ", "Ⲇ"); ("ⲉ", "Ⲉ");
   ("ⲋ", "Ⲋ"); ("ⲍ", "Ⲍ"); ("ⲏ", "Ⲏ"); ("ⲑ", "Ⲑ"); ("ⲓ", "Ⲓ"); ("ⲕ", "Ⲕ");
   ("ⲗ", "Ⲗ"); ("ⲙ", "Ⲙ"); ("ⲛ", "Ⲛ"); ("ⲝ", "Ⲝ"); ("ⲟ", "Ⲟ"); ("ⲡ", "Ⲡ");
   ("ⲣ", "Ⲣ"); ("ⲥ", "Ⲥ"); ("ⲧ", "Ⲧ"); ("ⲩ", "Ⲩ"); ("ⲫ", "Ⲫ"); ("ⲭ", "Ⲭ");
   ("ⲯ", "Ⲯ"); ("ⲱ", "Ⲱ"); ("ⲳ", "Ⲳ"); ("ⲵ", "Ⲵ"); ("ⲷ", "Ⲷ"); ("ⲹ", "Ⲹ");
   ("ⲻ", "Ⲻ"); ("ⲽ", "Ⲽ"); ("ⲿ", "Ⲿ"); ("ⳁ", "Ⳁ"); ("ⳃ", "Ⳃ"); ("ⳅ", "Ⳅ");
   ("ⳇ", "Ⳇ"); ("ⳉ", "Ⳉ"); ("ⳋ", "Ⳋ"); ("ⳍ", "Ⳍ"); ("ⳏ", "Ⳏ"); ("ⳑ", "Ⳑ");
   ("ⳓ", "Ⳓ"); ("ⳕ", "Ⳕ"); ("ⳗ", "Ⳗ"); ("ⳙ", "Ⳙ"); ("ⳛ", "Ⳛ"); ("ⳝ", "Ⳝ");
   ("ⳟ", "Ⳟ"); ("ⳡ", "Ⳡ"); ("ⳣ", "Ⳣ"); ("ⳬ", "Ⳬ"); ("ⳮ", "Ⳮ"); ("ⳳ", "Ⳳ");
   ("ⴀ", "Ⴀ"); ("ⴁ", "Ⴁ"); ("ⴂ", "Ⴂ"); ("ⴃ", "Ⴃ"); ("ⴄ", "Ⴄ"); ("ⴅ", "Ⴅ");
   ("ⴆ", "Ⴆ"); ("ⴇ", "Ⴇ"); ("ⴈ", "Ⴈ"); ("ⴉ", "Ⴉ"); ("ⴊ", "Ⴊ"); ("ⴋ", "Ⴋ");
   ("ⴌ", "Ⴌ"); ("ⴍ", "Ⴍ"); ("ⴎ", "Ⴎ"); ("ⴏ", "Ⴏ"); ("ⴐ", "Ⴐ"); ("ⴑ", "Ⴑ");
   ("ⴒ", "Ⴒ"); ("ⴓ", "Ⴓ"); ("ⴔ", "Ⴔ"); ("ⴕ", "Ⴕ"); ("ⴖ", "Ⴖ"); ("ⴗ", "Ⴗ");
   ("ⴘ", "Ⴘ"); ("ⴙ", "Ⴙ"); ("ⴚ", "Ⴚ"); ("ⴛ", "Ⴛ"); ("ⴜ", "Ⴜ"); ("ⴝ", "Ⴝ");
   ("ⴞ", "Ⴞ"); ("ⴟ", "Ⴟ"); ("ⴠ", "Ⴠ"); ("ⴡ", "Ⴡ"); ("ⴢ", "Ⴢ"); ("ⴣ", "Ⴣ");
   ("ⴤ", "Ⴤ"); ("ⴥ", "Ⴥ"); ("ⴧ", "Ⴧ"); ("ⴭ", "Ⴭ"); ("ꙁ", "Ꙁ"); ("ꙃ", "Ꙃ");
   ("ꙅ", "Ꙅ"); ("ꙇ", "Ꙇ"); ("ꙉ", "Ꙉ"); ("ꙋ", "Ꙋ"); ("ꙍ", "Ꙍ"); ("ꙏ", "Ꙏ");
   ("ꙑ", "Ꙑ"); ("ꙓ", "Ꙓ"); ("ꙕ", "Ꙕ"); ("ꙗ", "Ꙗ"); ("ꙙ", "Ꙙ"); ("ꙛ", "Ꙛ");
   ("ꙝ", "Ꙝ"); ("ꙟ", "Ꙟ"); ("ꙡ", "Ꙡ"); ("ꙣ", "Ꙣ"); ("ꙥ", "Ꙥ"); ("ꙧ", "Ꙧ");
   ("ꙩ", "Ꙩ"); ("ꙫ", "Ꙫ"); ("ꙭ", "Ꙭ"); ("ꚁ", "Ꚁ"); ("ꚃ", "Ꚃ"); ("ꚅ", "Ꚅ");
   ("ꚇ", "Ꚇ"); ("ꚉ", "Ꚉ"); ("ꚋ", "Ꚋ"); ("ꚍ", "Ꚍ"); ("ꚏ", "Ꚏ"); ("ꚑ", "Ꚑ");
   ("ꚓ", "Ꚓ"); ("ꚕ", "Ꚕ"); ("ꚗ", "Ꚗ"); ("ꚙ", "Ꚙ"); ("ꚛ", "Ꚛ"); ("ꜣ", "Ꜣ");
   ("ꜥ", "Ꜥ"); ("ꜧ", "Ꜧ"); ("ꜩ", "Ꜩ"); ("ꜫ", "Ꜫ"); ("ꜭ", "Ꜭ"); ("ꜯ", "Ꜯ");
   ("ꜳ", "Ꜳ"); ("ꜵ", "Ꜵ"); ("ꜷ", "Ꜷ"); ("ꜹ", "Ꜹ"); ("ꜻ", "Ꜻ"); ("ꜽ", "Ꜽ");
   ("ꜿ", "Ꜿ"); ("ꝁ", "Ꝁ"); ("ꝃ", "Ꝃ"); ("ꝅ", "Ꝅ"); ("ꝇ", "Ꝇ"); ("ꝉ", "Ꝉ");
   ("ꝋ", "Ꝋ"); ("ꝍ", "Ꝍ"); ("ꝏ", "Ꝏ"); ("ꝑ", "Ꝑ"); ("ꝓ", "Ꝓ"); ("ꝕ", "Ꝕ");
   ("ꝗ", "Ꝗ"); ("ꝙ", "Ꝙ"); ("ꝛ", "Ꝛ"); ("ꝝ", "Ꝝ"); ("ꝟ", "Ꝟ"); ("ꝡ", "Ꝡ");
   ("ꝣ", "Ꝣ"); ("ꝥ", "Ꝥ"); ("ꝧ", "Ꝧ"); ("ꝩ", "Ꝩ"); ("ꝫ", "Ꝫ"); ("ꝭ", "Ꝭ");
   ("ꝯ", "Ꝯ"); ("ꝺ", "Ꝺ"); ("ꝼ", "Ꝼ"); ("ꝿ", "Ꝿ"); ("ꞁ", "Ꞁ"); ("ꞃ", "Ꞃ");
   ("ꞅ", "Ꞅ"); ("ꞇ", "Ꞇ"); ("ꞌ", "Ꞌ"); ("ꞑ", "Ꞑ"); ("ꞓ", "Ꞓ"); ("ꞔ", "Ꞔ");
   ("ꞗ", "Ꞗ"); ("ꞙ", "Ꞙ"); ("ꞛ", "Ꞛ"); ("ꞝ", "Ꞝ"); ("ꞟ", "Ꞟ"); ("ꞡ", "Ꞡ");
   ("ꞣ", "Ꞣ"); ("ꞥ", "Ꞥ"); ("ꞧ", "Ꞧ"); ("ꞩ", "Ꞩ"); ("ꞵ", "Ꞵ"); ("ꞷ", "Ꞷ");
   ("ꞹ", "Ꞹ"); ("ꞻ", "Ꞻ"); ("ꞽ", "Ꞽ"); ("ꞿ", "Ꞿ"); ("ꟁ", "Ꟁ"); ("ꟃ", "Ꟃ");
   ("ꟈ", "Ꟈ"); ("ꟊ", "Ꟊ"); ("ꟑ", "Ꟑ"); ("ꟗ", "Ꟗ"); ("ꟙ", "Ꟙ"); ("ꟶ", "Ꟶ");
   ("ꭓ", "Ꭓ"); ("ꭰ", "Ꭰ"); ("ꭱ", "Ꭱ"); ("ꭲ", "Ꭲ"); ("ꭳ", "Ꭳ"); ("ꭴ", "Ꭴ");
   ("ꭵ", "Ꭵ"); ("ꭶ", "Ꭶ"); ("ꭷ", "Ꭷ"); ("ꭸ", "Ꭸ"); ("ꭹ", "Ꭹ"); ("ꭺ", "Ꭺ");
   ("ꭻ", "Ꭻ"); ("ꭼ", "Ꭼ"); ("ꭽ", "Ꭽ"); ("ꭾ", "Ꭾ"); ("ꭿ", "Ꭿ"); ("ꮀ", "Ꮀ");
   ("ꮁ", "Ꮁ"); ("ꮂ", "Ꮂ"); ("ꮃ", "Ꮃ"); ("ꮄ", "Ꮄ"); ("ꮅ", "Ꮅ"); ("ꮆ", "Ꮆ");
   ("ꮇ", "Ꮇ"); ("ꮈ", "Ꮈ"); ("ꮉ", "Ꮉ"); ("ꮊ", "Ꮊ"); ("ꮋ", "Ꮋ"); ("ꮌ", "Ꮌ");
   ("ꮍ", "Ꮍ"); ("ꮎ", "Ꮎ"); ("ꮏ", "Ꮏ"); ("ꮐ", "Ꮐ"); ("ꮑ", "Ꮑ"); ("ꮒ", "Ꮒ");
   ("ꮓ", "Ꮓ"); ("ꮔ", "Ꮔ"); ("ꮕ", "Ꮕ"); ("ꮖ", "Ꮖ"); ("ꮗ", "Ꮗ"); ("ꮘ", "Ꮘ");
   ("ꮙ", "Ꮙ"); ("ꮚ", "Ꮚ"); ("ꮛ", "Ꮛ"); ("ꮜ", "Ꮜ"); ("ꮝ", "Ꮝ"); ("ꮞ", "Ꮞ");
   ("ꮟ", "Ꮟ"); ("ꮠ", "Ꮠ"); ("ꮡ", "Ꮡ"); ("ꮢ", "Ꮢ"); ("ꮣ", "Ꮣ"); ("ꮤ", "Ꮤ");
   ("ꮥ", "Ꮥ"); ("ꮦ", "Ꮦ"); ("ꮧ", "Ꮧ"); ("ꮨ", "Ꮨ"); ("ꮩ", "Ꮩ"); ("ꮪ", "Ꮪ");
   ("ꮫ", "Ꮫ"); ("ꮬ", "Ꮬ"); ("ꮭ", "Ꮭ"); ("ꮮ", "Ꮮ"); ("ꮯ", "Ꮯ"); ("ꮰ", "Ꮰ");
   ("ꮱ", "Ꮱ"); ("ꮲ", "Ꮲ"); ("ꮳ", "Ꮳ"); ("ꮴ", "Ꮴ"); ("ꮵ", "Ꮵ"); ("ꮶ", "Ꮶ");
   ("ꮷ", "Ꮷ"); ("ꮸ", "Ꮸ"); ("ꮹ", "Ꮹ"); ("ꮺ", "Ꮺ"); ("ꮻ", "Ꮻ"); ("ꮼ", "Ꮼ");
   ("ꮽ", "Ꮽ"); ("ꮾ", "Ꮾ"); ("ꮿ", "Ꮿ"); ("ﬀ", "FF"); ("ﬁ", "FI"); ("ﬂ", "FL");
   ("ﬃ", "FFI"); ("ﬄ", "FFL"); ("ﬅ", "ST"); ("ﬆ", "ST"); ("ﬓ", "ՄՆ");
   ("ﬔ", "ՄԵ"); ("ﬕ", "ՄԻ"); ("ﬖ", "ՎՆ"); ("ﬗ", "ՄԽ"); ("ａ", "Ａ"); ("ｂ", "Ｂ");
   ("ｃ", "Ｃ"); ("ｄ", "Ｄ"); ("ｅ", "Ｅ"); ("ｆ", "Ｆ"); ("ｇ", "Ｇ"); ("ｈ", "Ｈ");
   ("ｉ", "Ｉ"); ("ｊ", "Ｊ"); ("ｋ", "Ｋ"); ("ｌ", "Ｌ"); ("ｍ", "Ｍ"); ("ｎ", "Ｎ");
   ("ｏ", "Ｏ"); ("ｐ", "Ｐ"); ("ｑ", "Ｑ"); ("ｒ", "Ｒ"); ("ｓ", "Ｓ"); ("ｔ", "Ｔ");
   ("ｕ", "Ｕ"); ("ｖ", "Ｖ"); ("ｗ", "Ｗ"); ("ｘ", "Ｘ"); ("ｙ", "Ｙ"); ("ｚ", "Ｚ");
   ("𐐨", "𐐀"); ("𐐩", "𐐁"); ("𐐪", "𐐂"); ("𐐫", "𐐃"); ("𐐬", "𐐄"); ("𐐭", "𐐅");
   ("𐐮", "𐐆"); ("𐐯", "𐐇"); ("𐐰", "𐐈"); ("𐐱", "𐐉"); ("𐐲", "𐐊"); ("𐐳", "𐐋");
   ("𐐴", "𐐌"); ("𐐵", "𐐍"); ("𐐶", "𐐎"); ("𐐷", "𐐏"); ("𐐸", "𐐐"); ("𐐹", "𐐑");
   ("𐐺", "𐐒"); ("𐐻", "𐐓"); ("𐐼", "𐐔"); ("𐐽", "𐐕"); ("𐐾", "𐐖"); ("𐐿", "𐐗");
   ("𐑀", "𐐘"); ("𐑁", "𐐙"); ("𐑂", "𐐚"); ("𐑃", "𐐛"); ("𐑄", "𐐜"); ("𐑅", "𐐝");
   ("𐑆", "𐐞"); ("𐑇", "𐐟"); ("𐑈", "𐐠"); ("𐑉", "𐐡"); ("𐑊", "𐐢"); ("𐑋", "𐐣");
   ("𐑌", "𐐤"); ("𐑍", "𐐥"); ("𐑎", "𐐦"); ("𐑏", "𐐧"); ("𐓘", "𐒰"); ("𐓙", "𐒱");
   ("𐓚", "𐒲"); ("𐓛", "𐒳"); ("𐓜", "𐒴"); ("𐓝", "𐒵"); ("𐓞", "𐒶"); ("𐓟", "𐒷");
   ("𐓠", "𐒸"); ("𐓡", "𐒹"); ("𐓢", "𐒺"); ("𐓣", "𐒻"); ("𐓤", "𐒼"); ("𐓥", "𐒽");
   ("𐓦", "𐒾"); ("𐓧", "𐒿"); ("𐓨", "𐓀"); ("𐓩", "𐓁"); ("𐓪", "𐓂"); ("𐓫", "𐓃");
   ("𐓬", "𐓄"); ("𐓭", "𐓅"); ("𐓮", "𐓆"); ("𐓯", "𐓇"); ("𐓰", "𐓈"); ("𐓱", "𐓉");
   ("𐓲", "𐓊"); ("𐓳", "𐓋"); ("𐓴", "𐓌"); ("𐓵", "𐓍"); ("𐓶", "𐓎"); ("𐓷", "𐓏");
   ("𐓸", "𐓐"); ("𐓹", "𐓑"); ("𐓺", "𐓒"); ("𐓻", "𐓓"); ("𐖗", "𐕰"); ("𐖘", "𐕱");
   ("𐖙", "𐕲"); ("𐖚", "𐕳"); ("𐖛", "𐕴"); ("𐖜", "𐕵"); ("𐖝", "𐕶"); ("𐖞", "𐕷");
   ("𐖟", "𐕸"); ("𐖠", "𐕹"); ("𐖡", "𐕺"); ("𐖣", "𐕼"); ("𐖤", "𐕽"); ("𐖥", "𐕾");
   ("𐖦", "𐕿"); ("𐖧", "𐖀"); ("𐖨", "𐖁"); ("𐖩", "𐖂"); ("𐖪", "𐖃"); ("𐖫", "𐖄");
   ("𐖬", "𐖅"); ("𐖭", "𐖆"); ("𐖮", "𐖇"); ("𐖯", "𐖈"); ("𐖰", "𐖉"); ("𐖱", "𐖊");
   ("𐖳", "𐖌"); ("𐖴", "𐖍"); ("𐖵", "𐖎"); ("𐖶", "𐖏"); ("𐖷", "𐖐"); ("𐖸", "𐖑");
   ("𐖹", "𐖒"); ("𐖻", "𐖔"); ("𐖼", "𐖕"); ("𐳀", "𐲀"); ("𐳁", "𐲁"); ("𐳂", "𐲂");
   ("𐳃", "𐲃"); ("𐳄", "𐲄"); ("𐳅", "𐲅"); ("𐳆", "𐲆"); ("𐳇", "𐲇"); ("𐳈", "𐲈");
   ("𐳉", "𐲉"); ("𐳊", "𐲊"); ("𐳋", "𐲋"); ("𐳌", "𐲌"); ("𐳍", "𐲍"); ("𐳎", "𐲎");
   ("𐳏", "𐲏"); ("𐳐", "𐲐"); ("𐳑", "𐲑"); ("𐳒", "𐲒"); ("𐳓", "𐲓"); ("𐳔", "𐲔");
   ("𐳕", "𐲕"); ("𐳖", "𐲖"); ("𐳗", "𐲗"); ("𐳘", "𐲘"); ("𐳙", "𐲙"); ("𐳚", "𐲚");
   ("𐳛", "𐲛"); ("𐳜", "𐲜"); ("𐳝", "𐲝"); ("𐳞", "𐲞"); ("𐳟", "𐲟"); ("𐳠", "𐲠");
   ("𐳡", "𐲡"); ("𐳢", "𐲢"); ("𐳣", "𐲣"); ("𐳤", "𐲤"); ("𐳥", "𐲥"); ("𐳦", "𐲦");
   ("𐳧", "𐲧"); ("𐳨", "𐲨"); ("𐳩", "𐲩"); ("𐳪", "𐲪"); ("𐳫", "𐲫"); ("𐳬", "𐲬");
   ("𐳭", "𐲭"); ("𐳮", "𐲮"); ("𐳯", "𐲯"); ("𐳰", "𐲰"); ("𐳱", "𐲱"); ("𐳲", "𐲲");
   ("𑣀", "𑢠"); ("𑣁", "𑢡"); ("𑣂", "𑢢"); ("𑣃", "𑢣"); ("𑣄", "𑢤"); ("𑣅", "𑢥");
   ("𑣆", "𑢦"); ("𑣇", "𑢧"); ("𑣈", "𑢨"); ("𑣉", "𑢩"); ("𑣊", "𑢪"); ("𑣋", "𑢫");
   ("𑣌", "𑢬"); ("𑣍", "𑢭"); ("𑣎", "𑢮"); ("𑣏", "𑢯"); ("𑣐", "𑢰"); ("𑣑", "𑢱");
   ("𑣒", "𑢲"); ("𑣓", "𑢳"); ("𑣔", "𑢴"); ("𑣕", "𑢵"); ("𑣖", "𑢶"); ("𑣗", "𑢷");
   ("𑣘", "𑢸"); ("𑣙", "𑢹"); ("𑣚", "𑢺"); ("𑣛", "𑢻"); ("𑣜", "𑢼"); ("𑣝", "𑢽");
   ("𑣞", "𑢾"); ("𑣟", "𑢿"); ("𖹠", "𖹀"); ("𖹡", "𖹁"); ("𖹢", "𖹂"); ("𖹣", "𖹃");
   ("𖹤", "𖹄"); ("𖹥", "𖹅"); ("𖹦", "𖹆"); ("𖹧", "𖹇"); ("𖹨", "𖹈"); ("𖹩", "𖹉");
   ("𖹪", "𖹊"); ("𖹫", "𖹋"); ("𖹬", "𖹌"); ("𖹭", "𖹍"); ("𖹮", "𖹎"); ("𖹯", "𖹏");
   ("𖹰", "𖹐"); ("𖹱", "𖹑"); ("𖹲", "𖹒"); ("𖹳", "𖹓"); ("𖹴", "𖹔"); ("𖹵", "𖹕");
   ("𖹶", "𖹖"); ("𖹷", "𖹗"); ("𖹸", "𖹘"); ("𖹹", "𖹙"); ("𖹺", "𖹚"); ("𖹻", "𖹛");
   ("𖹼", "𖹜"); ("𖹽", "𖹝"); ("𖹾", "𖹞"); ("𖹿", "𖹟"); ("𞤢", "𞤀"); ("𞤣", "𞤁");
   ("𞤤", "𞤂"); ("𞤥", "𞤃"); ("𞤦", "𞤄"); ("𞤧", "𞤅"); ("𞤨", "𞤆"); ("𞤩", "𞤇");
   ("𞤪", "𞤈"); ("𞤫", "𞤉"); ("𞤬", "𞤊"); ("𞤭", "𞤋"); ("𞤮", "𞤌"); ("𞤯", "𞤍");
   ("𞤰", "𞤎"); ("𞤱", "𞤏"); ("𞤲", "𞤐"); ("𞤳", "𞤑"); ("𞤴", "𞤒"); ("𞤵", "𞤓");
   ("𞤶", "𞤔"); ("𞤷", "𞤕"); ("𞤸", "𞤖"); ("𞤹", "𞤗"); ("𞤺", "𞤘"); ("𞤻", "𞤙");
   ("𞤼", "𞤚"); ("𞤽", "𞤛"); ("𞤾", "𞤜"); ("𞤿", "𞤝"); ("𞥀", "𞤞"); ("𞥁", "𞤟");
   ("𞥂", "𞤠"); ("𞥃", "𞤡")].

Fixpoint upper_lookup (ch : string) (table : list (string * string)) : string :=
  match table with
  | [] => ch
  | (k, v) :: rest => if String.eqb ch k then v else upper_lookup ch rest
  end.

(** A byte that continues a UTF-8 character. *)
Definition is_continuation (c : ascii) : bool :=
  let n := nat_of_ascii c in (128 <=? n)%nat && (n <? 192)%nat.

(** The upper case of one character, given by its UTF-8 bytes. *)
Definition upper_of (ch : string) : string :=
  match ch with
  | EmptyString => EmptyString
  | String c EmptyString => String (upper_char c) EmptyString
  | _ => upper_lookup ch upper_table
  end.

(** The upper case of the character whose first bytes are [pending],
    followed by that of the characters of [s]. *)
Fixpoint upper_from (pending s : string) : string :=
  match s with
  | EmptyString => upper_of pending
  | String c r =>
      if is_continuation c then upper_from (pending ++ String c EmptyString) r
      else upper_of pending ++ upper_from (String c EmptyString) r
  end.

(** [s.upper()]: character by character, the mapping does not look at
    the neighbours of a character. *)
Definition upper (s : string) : string := upper_from EmptyString s.

(** [hay.startswith(needle)] *)
Fixpoint starts_with (needle hay : string) : bool :=
  match needle, hay with
  | EmptyString, _ => true
  | String _ _, EmptyString => false
  | String a n', String b h' => Ascii.eqb a b && starts_with n' h'
  end.

(** [needle in hay] on two strings: the substring test. *)
Fixpoint contains (needle hay : string) : bool :=
  starts_with needle hay
  || match hay with
     | EmptyString => false
     | String _ h' => contains needle h'
     end.

(** [str(n)] of an integer. *)
Definition str_of_Z (n : Z) : string := NilZero.string_of_int (Z.to_int n).

(** *** Dictionaries and the dynamic operations the scripts use *)

Fixpoint dict_get (k : string) (fields : list (string * json)) : option json :=
  match fields with
  | [] => None
  | (k', v) :: rest => if String.eqb k k' then Some v else dict_get k rest
  end.

Definition dict_has (k : string) (fields : list (string * json)) : bool :=
  match dict_get k fields with Some _ => true | None => false end.

(** [bool(v)] *)
Definition truthy (v : json) : bool :=
  match v with
  | JNull => false
  | JBool b => b
  | JNum n => negb (n =? 0)%Z
  | JStr s => negb (String.eqb s "")
  | JArr items => match items with [] => false | _ => true end
  | JObj fields => match fields with [] => false | _ => true end
  end.

(** [a == b].  [True == 1] and [False == 0] hold in Python; two dicts are
    equal when they bind the same keys to equal values. *)
Fixpoint py_eq (a b : json) {struct a} : bool :=
  match a, b with
  | JNull, JNull => true
  | JBool x, JBool y => Bool.eqb x y
  | JBool x, JNum n => (Z.b2z x =? n)%Z
  | JNum n, JBool y => (n =? Z.b2z y)%Z
  | JNum n, JNum m => (n =? m)%Z
  | JStr s, JStr t => String.eqb s t
  | JArr xs, JArr ys =>
      (fix go (xs ys : list json) {struct xs} : bool :=
         match xs, ys with
         | [], [] => true
         | x :: xs', y :: ys' => py_eq x y && go xs' ys'
         | _, _ => false
         end) xs ys
  | JObj xs, JObj ys =>
      (fix sub (seen : list string) (xs : list (string * json)) {struct xs} : bool :=
         match xs with
         | [] => true
         | (k, v) :: xs' =>
             (if existsb (String.eqb k) seen then true
              else match dict_get k ys with
                   | Some w => py_eq v w
                   | None => false
                   end)
             && sub (k :: seen) xs'
         end) [] xs
      && forallb (fun kv => dict_has (fst kv) xs) ys
  | _, _ => false
  end.

(** [str(v)], which is also what an f-string field [{v}] expands to.
    [container_text] stands for the text of a list or a dict. *)
Definition py_str (container_text : json -> string) (v : json) : string :=
  match v with
  | JNull => "None"
  | JBool true => "True"
  | JBool false => "False"
  | JNum n => str_of_Z n
  | JStr s => s
  | JArr _ | JObj _ => container_text v
  end.

End Py.

(** ** HTTP exchanges, exceptions and the trace of a run *)

Module Http.
Import Py.

Inductive http_method : Type := GET | POST.

(** What a script hands to [requests.get] / [requests.post]. *)
Record request : Type := mk_request {
  req_method : http_method;
  req_url : string;
  req_headers : list (string * json);
  req_json : option json;
  req_timeout : option Z
}.

(** [response.json()] parses the body, or raises. *)
Inductive parsed_body : Type :=
| Parsed (v : json)
| Malformed (msg : string).

Record response : Type := mk_response {
  status_code : Z;
  reason : string;
  url : string;
  headers : list (string * string);
  text : string;
  body : parsed_body
}.

(** Exceptions.  The [requests] family carries the text of [str(e)] and
    the response attached to the exception, when there is one. *)
Inductive request_exception_kind : Type :=
| HTTPError
| Timeout
| ConnectionError
| InvalidJSONError
| OtherRequestException.

Inductive error_class : Type :=
| AttributeError
| KeyError
| IndexError
| TypeError
| OSError
| JSONDecodeError
| OtherError.

Inductive exn : Type :=
| RequestException (k : request_exception_kind) (msg : string) (resp : option response)
| PyError (cls : error_class) (msg : string).

(** [isinstance(e, requests.RequestException)] *)
Definition is_request_exception (e : exn) : bool :=
  match e with RequestException _ _ _ => true | PyError _ _ => false end.

(** [isinstance(e, requests.Timeout)] *)
Definition is_timeout (e : exn) : bool :=
  match e with RequestException Timeout _ _ => true | _ => false end.

(** [str(e)] *)
Definition exn_text (e : exn) : string :=
  match e with
  | RequestException _ msg _ => msg
  | PyError _ msg => msg
  end.

(** [e.response] of a [requests] exception. *)
Definition exn_response (e : exn) : option response :=
  match e with RequestException _ _ r => r | PyError _ _ => None end.

(** The transport either answers or raises. *)
Inductive net_result : Type :=
| Responded (r : response)
| Failed (e : exn).

(** The collaborators outside the repository. *)
Record World : Type := mk_world {
  send : request -> net_result;
  b64encode : string -> string;
  container_text : json -> string
}.

(** [response.headers] is case-insensitive in its keys. *)
Fixpoint header_get (k : string) (hs : list (string * string)) : option string :=
  match hs with
  | [] => None
  | (k', v) :: rest =>
      if String.eqb (lower k) (lower k') then Some v else header_get k rest
  end.

End Http.

(** ** Computations: result, trace, and the dynamic operations *)

Module Run.
Import Py Http.

(** A pure step that may raise. *)
Inductive result (A : Type) : Type :=
| Ok (a : A)
| Err (e : exn).

Arguments Ok {A} a.
Arguments Err {A} e.

Definition rbind {A B : Type} (r : result A) (f : A -> result B) : result B :=
  match r with
  | Ok a => f a
  | Err e => Err e
  end.

(** How a run of a function ends. [Exited] is [sys.exit]: no [except]
    clause of the scripts catches it. *)
Inductive outcome (A : Type) : Type :=
| Returned (a : A)
| Raised (e : exn)
| Exited (code : Z).

Arguments Returned {A} a.
Arguments Raised {A} e.
Arguments Exited {A} code.

Inductive event : Type :=
| Printed (line : string)
| Sent (r : request).

(** A run: how it ends and what it did, in order. *)
Definition prog (A : Type) : Type := (outcome A * list event)%type.

Definition ret {A : Type} (a : A) : prog A := (Returned a, []).

Definition bind {A B : Type} (p : prog A) (f : A -> prog B) : prog B :=
  match p with
  | (Returned a, es) => let (o, es') := f a in (o, (es ++ es')%list)
  | (Raised e, es) => (Raised e, es)
  | (Exited c, es) => (Exited c, es)
  end.

Definition lift {A : Type} (r : result A) : prog A :=
  match r with
  | Ok a => (Returned a, [])
  | Err e => (Raised e, [])
  end.

Definition print (line : string) : prog unit := (Returned tt, [Printed line]).
Definition sys_exit {A : Type} (code : Z) : prog A := (Exited code, []).

(** [try: p  except <catches> as e: handler e] *)
Definition try_except {A : Type} (p : prog A) (catches : exn -> bool)
    (handler : exn -> prog A) : prog A :=
  match p with
  | (Raised e, es) =>
      if catches e then let (o, es') := handler e in (o, (es ++ es')%list)
      else (Raised e, es)
  | _ => p
  end.

(** [requests.get(...)] / [requests.post(...)] *)
Definition http (w : World) (r : request) : prog response :=
  match send w r with
  | Responded resp => (Returned resp, [Sent r])
  | Failed e => (Raised e, [Sent r])
  end.

(** *** Dynamic operations on values of unknown type

    Each raises what CPython raises when the receiver has the wrong type. *)

Definition type_name (v : json) : string :=
  match v with
  | JNull => "NoneType"
  | JBool _ => "bool"
  | JNum _ => "int"
  | JStr _ => "str"
  | JArr _ => "list"
  | JObj _ => "dict"
  end.

Definition no_attribute (v : json) (attr : string) : exn :=
  PyError AttributeError
    ("'" ++ type_name v ++ "' object has no attribute '" ++ attr ++ "'").

Definition not_subscriptable (v : json) : exn :=
  PyError TypeError ("'" ++ type_name v ++ "' object is not subscriptable").

(** [d.get(k, default)]; [d.get(k)] is [get d k JNull]. *)
Definition get (d : json) (k : string) (default : json) : result json :=
  match d with
  | JObj fields =>
      match dict_get k fields with
      | Some v => Ok v
      | None => Ok default
      end
  | _ => Err (no_attribute d "get")
  end.

(** The receiver of a [str] method: [v.lower()] needs [v] to be a [str]. *)
Definition str_receiver (v : json) (method : string) : result string :=
  match v with
  | JStr s => Ok s
  | _ => Err (no_attribute v method)
  end.

(** [d[k]] with a string key. *)
Definition getitem (d : json) (k : string) : result json :=
  match d with
  | JObj fields =>
      match dict_get k fields with
      | Some v => Ok v
      | None => Err (PyError KeyError ("'" ++ k ++ "'"))
      end
  | JStr _ => Err (PyError TypeError "string indices must be integers, not 'str'")
  | JArr _ => Err (PyError TypeError "list indices must be integers or slices, not str")
  | _ => Err (not_subscriptable d)
  end.

(** [x[0]] *)
Definition getitem0 (x : json) : result json :=
  match x with
  | JArr (v :: _) => Ok v
  | JArr [] => Err (PyError IndexError "list index out of range")
  | JStr (String c _) => Ok (JStr (String c EmptyString))
  | JStr EmptyString => Err (PyError IndexError "string index out of range")
  | JObj _ => Err (PyError KeyError "0")
  | _ => Err (not_subscriptable x)
  end.

(** [k in c] with a string on the left. *)
Definition key_in (k : string) (c : json) : result bool :=
  match c with
  | JObj fields => Ok (dict_has k fields)
  | JStr s => Ok (contains k s)
  | JArr items => Ok (existsb (fun v => py_eq v (JStr k)) items)
  | _ => Err (PyError TypeError
                ("argument of type '" ++ type_name c ++ "' is not iterable"))
  end.

(** [len(x)]; a dict counts its keys. *)
Definition len (x : json) : result Z :=
  match x with
  | JArr items => Ok (Z.of_nat (List.length items))
  | JObj fields =>
      Ok (Z.of_nat (List.length (nodup string_dec (map fst fields))))
  | JStr s => Ok (Z.of_nat (String.length s))
  | _ => Err (PyError TypeError
                ("object of type '" ++ type_name x ++ "' has no len()"))
  end.

(** [response.raise_for_status()] of [requests]. *)
Definition raise_for_status (r : response) : result unit :=
  let describe (what : string) :=
    str_of_Z (status_code r) ++ what ++ reason r ++ " for url: " ++ url r in
  if ((400 <=? status_code r) && (status_code r <? 500))%Z then
    Err (RequestException HTTPError (describe " Client Error: ") (Some r))
  else if ((500 <=? status_code r) && (status_code r <? 600))%Z then
    Err (RequestException HTTPError (describe " Server Error: ") (Some r))
  else Ok tt.

(** [response.json()]: with [requests] 2.27 and later the error of a body
    that is not JSON is a [RequestException]. *)
Definition response_json (r : response) : result json :=
  match body r with
  | Parsed v => Ok v
  | Malformed msg => Err (RequestException InvalidJSONError msg None)
  end.

(** An f-string field. *)
Definition fmt (w : World) (v : json) : string := py_str (container_text w) v.

End Run.

Declare Scope prog_scope.
Delimit Scope prog_scope with prog.
Notation "x <- p ;; k" := (Run.bind p (fun x => k))
  (at level 61, p at next level, right associativity) : prog_scope.
Notation "p ;;; k" := (Run.bind p (fun _ => k))
  (at level 61, right associativity) : prog_scope.

Declare Scope result_scope.
Delimit Scope result_scope with result.
Notation "x <- r ;; k" := (Run.rbind r (fun x => k))
  (at level 61, r at next level, right associativity) : result_scope.

(** ** find_opus_deployment.py *)

Module FindOpus.
Import Py Http Run.

(** [service_key.get('serviceurls', {}).get('AI_API_URL')] *)
Definition api_base_url (service_key : json) : result json :=
  (serviceurls <- get service_key "serviceurls" (JObj []) ;;
   get serviceurls "AI_API_URL" JNull)%result.

(** The two headers of every control-plane call. *)
Definition bearer_headers (w : World) (token resource_group : json)
    : list (string * json) :=
  [("Authorization", JStr ("Bearer " ++ fmt w token));
   ("AI-Resource-Group", resource_group)].

(** [get_token]: no field of the service key is examined before the
    request is sent.  [list_configurations.py] and [test_deployment.py]
    carry the same function. *)
Definition get_token (w : World) (service_key : json) : prog json :=
  (client_id <- lift (get service_key "clientid" JNull) ;;
   client_secret <- lift (get service_key "clientsecret" JNull) ;;
   auth_url <- lift (get service_key "url" JNull) ;;
   let auth_string := fmt w client_id ++ ":" ++ fmt w client_secret in
   let encoded_auth := b64encode w auth_string in
   let token_url := fmt w auth_url ++ "/oauth/token?grant_type=client_credentials" in
   let headers := [("Authorization", JStr ("Basic " ++ encoded_auth))] in
   response <- http w (mk_request POST token_url headers None None) ;;
   lift (raise_for_status response) ;;;
   parsed <- lift (response_json response) ;;
   lift (getitem parsed "access_token"))%prog.

(** [list_configurations] and [list_deployments] differ in the path only. *)
Definition list_resources (path : string) (w : World)
    (service_key token resource_group : json) : prog json :=
  (base_url <- lift (api_base_url service_key) ;;
   let resources_url := fmt w base_url ++ path in
   let headers := bearer_headers w token resource_group in
   response <- http w (mk_request GET resources_url headers None None) ;;
   lift (raise_for_status response) ;;;
   parsed <- lift (response_json response) ;;
   lift (get parsed "resources" (JArr [])))%prog.

Definition list_configurations := list_resources "/v2/lm/configurations".
Definition list_deployments := list_resources "/v2/lm/deployments".

(** *** The correlation of [main]

    The [print] lines of [main] between and after the loops are the
    report; the loops themselves print nothing. *)

(** [f"{base_url}/v2/inference/deployments/{deployment_id}"] *)
Definition deployment_url_of (w : World) (base_url deployment_id : json) : string :=
  fmt w base_url ++ "/v2/inference/deployments/" ++ fmt w deployment_id.

(** The name test of [main], on the raw configuration name. *)
Definition is_opus_name (name : string) : bool :=
  let config_name := lower name in
  contains "claude-4.5-opus" config_name || contains "claude45_opus" config_name.

(** An entry of [opus_configs]: the dict [{'id': ..., 'name': ...}]. *)
Record OpusConfig : Type := mk_opus_config {
  oc_id : json;
  oc_name : json
}.

(** An entry of [opus_deployments]. *)
Record ModelMatch : Type := mk_match {
  deployment_id : json;
  deployment_url : string;
  status : json;
  config_name : json;
  config_id : json
}.

Section Correlate.

Variable w : World.
(** The test on the configuration name; [main] uses [is_opus_name]. *)
Variable namePredicate : string -> bool.
Variable base_url : json.

(** Lines 87-94: the configurations whose name passes the test. *)
Fixpoint select_configs (configurations : list json) : result (list OpusConfig) :=
  match configurations with
  | [] => Ok []
  | config :: rest =>
      (name <- get config "name" (JStr "") ;;
       name_text <- str_receiver name "lower" ;;
       selected <-
         (if namePredicate name_text then
            (id <- get config "id" JNull ;;
             name' <- get config "name" JNull ;;
             Ok [mk_opus_config id name'])
          else Ok []) ;;
       others <- select_configs rest ;;
       Ok (selected ++ others)%list)%result
  end.

(** Lines 112-123: the inner loop, for one deployment. *)
Fixpoint match_configs (deployment deployment_config_id deployment_status : json)
    (opus_configs : list OpusConfig) : result (list ModelMatch) :=
  match opus_configs with
  | [] => Ok []
  | opus_config :: rest =>
      (found <-
         (if py_eq (oc_id opus_config) deployment_config_id then
            (deployment_id <- get deployment "id" JNull ;;
             let deployment_url := deployment_url_of w base_url deployment_id in
             Ok [mk_match deployment_id deployment_url deployment_status
                   (oc_name opus_config) (oc_id opus_config)])
          else Ok []) ;;
       others <- match_configs deployment deployment_config_id deployment_status rest ;;
       Ok (found ++ others)%list)%result
  end.

(** Lines 107-110: the body of the outer loop. *)
Definition matches_of (opus_configs : list OpusConfig) (deployment : json)
    : result (list ModelMatch) :=
  (deployment_config_id <- get deployment "configurationId" JNull ;;
   deployment_status <- get deployment "status" JNull ;;
   match_configs deployment deployment_config_id deployment_status opus_configs)%result.

(** Lines 105-123: the outer loop. *)
Fixpoint match_deployments (opus_configs : list OpusConfig)
    (deployments : list json) : result (list ModelMatch) :=
  match deployments with
  | [] => Ok []
  | deployment :: rest =>
      (found <- matches_of opus_configs deployment ;;
       others <- match_deployments opus_configs rest ;;
       Ok (found ++ others)%list)%result
  end.

(** Selection, then matching. *)
Definition correlate (configurations deployments : list json)
    : result (list ModelMatch) :=
  (opus_configs <- select_configs configurations ;;
   match_deployments opus_configs deployments)%result.

End Correlate.

End FindOpus.

(** ** list_deployments.py *)

Module ListDeployments.
Import Py Http Run.

(** [get_token]: the three fields the token request uses are checked
    first; a [requests] failure ends the process. *)
Definition get_token (w : World) (service_key : json) : prog json :=
  (client_id <- lift (get service_key "clientid" JNull) ;;
   client_secret <- lift (get service_key "clientsecret" JNull) ;;
   auth_url <- lift (get service_key "url" JNull) ;;
   (if negb (forallb truthy [client_id; client_secret; auth_url]) then
      print "Error: Missing required fields in service key" ;;;
      sys_exit 1
    else ret tt) ;;;
   let auth_string := fmt w client_id ++ ":" ++ fmt w client_secret in
   let encoded_auth := b64encode w auth_string in
   let token_url := fmt w auth_url ++ "/oauth/token?grant_type=client_credentials" in
   let headers := [("Authorization", JStr ("Basic " ++ encoded_auth))] in
   try_except
     (response <- http w (mk_request POST token_url headers None None) ;;
      lift (raise_for_status response) ;;;
      parsed <- lift (response_json response) ;;
      lift (getitem parsed "access_token"))
     is_request_exception
     (fun e =>
        print ("Error getting token: " ++ exn_text e) ;;;
        sys_exit 1))%prog.

(** [get_deployment_details]: a [requests] failure gives the empty dict. *)
Definition get_deployment_details (w : World)
    (service_key token deployment_id resource_group : json) : prog json :=
  (base_url <- lift (FindOpus.api_base_url service_key) ;;
   let deployment_url := fmt w base_url ++ "/v2/lm/deployments/" ++ fmt w deployment_id in
   let headers := FindOpus.bearer_headers w token resource_group in
   try_except
     (response <- http w (mk_request GET deployment_url headers None None) ;;
      lift (raise_for_status response) ;;;
      lift (response_json response))
     is_request_exception
     (fun _ => ret (JObj [])))%prog.

(** [list_deployments]: a missing API URL or a [requests] failure ends
    the process. *)
Definition list_deployments (w : World)
    (service_key token resource_group : json) : prog json :=
  (base_url <- lift (FindOpus.api_base_url service_key) ;;
   (if negb (truthy base_url) then
      print "Error: AI_API_URL not found in service key" ;;;
      sys_exit 1
    else ret tt) ;;;
   let deployments_url := fmt w base_url ++ "/v2/lm/deployments" in
   let headers := FindOpus.bearer_headers w token resource_group in
   try_except
     (response <- http w (mk_request GET deployments_url headers None None) ;;
      lift (raise_for_status response) ;;;
      parsed <- lift (response_json response) ;;
      lift (get parsed "resources" (JArr [])))
     is_request_exception
     (fun e =>
        print ("Error listing deployments: " ++ exn_text e) ;;;
        match exn_response e with
        | Some r => print ("Response: " ++ text r)
        | None => ret tt
        end ;;;
        sys_exit 1))%prog.

(** Lines 147-163 of [main]: the model name of a deployment, from the
    document [get_deployment_details] returned. *)
Definition nested_model_name (details : json) : result json :=
  (has_details <- key_in "details" details ;;
   has_resources <-
     (if has_details then
        inner <- getitem details "details" ;;
        key_in "resources" inner
      else Ok false) ;;
   if has_resources then
     inner <- getitem details "details" ;;
     resources <- getitem inner "resources" ;;
     has_backend <- key_in "backend_details" resources ;;
     if has_backend then
       backend <- getitem resources "backend_details" ;;
       has_model <- key_in "model" backend ;;
       if has_model then
         model <- getitem backend "model" ;;
         getitem model "name"
       else Ok (JStr "unknown")
     else Ok (JStr "unknown")
   else Ok (JStr "unknown"))%result.

Definition extract_model_name (details : json) : result json :=
  (config_params <- get details "configurationId" (JStr "") ;;
   model_name <- nested_model_name details ;;
   if py_eq model_name (JStr "unknown") then
     config_name <- get details "configurationName" (JStr "") ;;
     if truthy config_name then Ok config_name else Ok model_name
   else Ok model_name)%result.

End ListDeployments.

(** ** list_configurations.py *)

Module ListConfigurations.
Import Py Http Run.

(** [list_configurations]: a [requests] failure is printed and the empty
    list is returned. *)
Definition list_configurations (w : World)
    (service_key token resource_group : json) : prog json :=
  (base_url <- lift (FindOpus.api_base_url service_key) ;;
   let configs_url := fmt w base_url ++ "/v2/lm/configurations" in
   let headers := FindOpus.bearer_headers w token resource_group in
   try_except
     (response <- http w (mk_request GET configs_url headers None None) ;;
      lift (raise_for_status response) ;;;
      parsed <- lift (response_json response) ;;
      lift (get parsed "resources" (JArr [])))
     is_request_exception
     (fun e =>
        print ("Error listing configurations: " ++ exn_text e) ;;;
        match exn_response e with
        | Some r => print ("Response: " ++ text r)
        | None => ret tt
        end ;;;
        ret (JArr [])))%prog.

(** Line 96 of [main]: the name test that sorts a configuration into
    [claude_configs]. *)
Definition is_claude_name (config_name : string) : bool :=
  contains "claude" (lower config_name)
  || contains "anthropic" (lower config_name)
  || contains "opus" (lower config_name).

End ListConfigurations.

(** ** test_deployment.py *)

Module TestDeployment.
Import Py Http Run.

Definition newline : string := String (ascii_of_nat 10) EmptyString.

(** The probe payload. *)
Definition payload : json :=
  JObj [("anthropic_version", JStr "bedrock-2023-05-31");
        ("max_tokens", JNum 10);
        ("messages", JArr [JObj [("role", JStr "user");
                                 ("content", JStr "Say 'test'")]])].

(** The three shapes of the dict [test_deployment] returns. *)
Definition success_result (r : response) (model_header : string) (result : json) : json :=
  JObj [("success", JBool true);
        ("status_code", JNum (status_code r));
        ("model_header", JStr model_header);
        ("response", result)].

Definition status_result (r : response) : json :=
  JObj [("success", JBool false);
        ("status_code", JNum (status_code r));
        ("error", JStr (text r))].

Definition error_result (message : string) : json :=
  JObj [("success", JBool false); ("error", JStr message)].

Definition probe_request (w : World) (base_url token deployment_id resource_group : json)
    : request :=
  let deployment_url := FindOpus.deployment_url_of w base_url deployment_id in
  let headers :=
    [("Authorization", JStr ("Bearer " ++ fmt w token));
     ("AI-Resource-Group", resource_group);
     ("Content-Type", JStr "application/json")] in
  mk_request POST deployment_url headers (Some payload) (Some 10%Z).

Definition test_deployment (w : World)
    (service_key token deployment_id resource_group : json) : prog json :=
  (base_url <- lift (FindOpus.api_base_url service_key) ;;
   try_except
     (print (newline ++ "  Testing deployment " ++ fmt w deployment_id ++ "...") ;;;
      response <- http w (probe_request w base_url token deployment_id resource_group) ;;
      if (status_code response =? 200)%Z then
        result <- lift (response_json response) ;;
        let model_header :=
          match header_get "x-model-id" (headers response) with
          | Some v => v
          | None => "unknown"
          end in
        ret (success_result response model_header result)
      else ret (status_result response))
     (fun _ => true)
     (fun e =>
        if is_timeout e then ret (error_result "Request timeout")
        else ret (error_result (exn_text e))))%prog.

(** Lines 123-130 of [main]: the text of the first content block of a
    successful probe, when the report prints one. *)
Definition response_text (result : json) : Run.result (option json) :=
  (success <- getitem result "success" ;;
   if truthy success then
     has_response <- key_in "response" result ;;
     if has_response then
       response <- getitem result "response" ;;
       content <- get response "content" (JArr []) ;;
       if truthy content then
         n <- len content ;;
         if (n >? 0)%Z then
           block <- getitem0 content ;;
           text <- get block "text" (JStr "") ;;
           Ok (Some text)
         else Ok None
       else Ok None
     else Ok None
   else Ok None)%result.

End TestDeployment.

(** ** test_claude_code_integration.py *)

Module Integration.
Import Py Http Run.

(** What [config.json] is when [get_auth_token] looks at it. *)
Inductive config_file : Type :=
| NoFile
| Unreadable (msg : string)
| Readable (content : parsed_body).

(** [get_auth_token]: [env_token] is [os.environ.get("ANTHROPIC_AUTH_TOKEN")]. *)
Definition get_auth_token (env_token : option string) (config : config_file)
    : result json :=
  let token := match env_token with Some t => JStr t | None => JNull end in
  if truthy token then Ok token
  else
    (from_config <-
       match config with
       | NoFile => Ok None
       | Unreadable msg => Err (PyError OSError msg)
       | Readable (Malformed msg) => Err (PyError JSONDecodeError msg)
       | Readable (Parsed config) =>
           tokens <- get config "secret_authentication_tokens" (JArr []) ;;
           if truthy tokens then
             first <- getitem0 tokens ;;
             Ok (Some first)
           else Ok None
       end ;;
     match from_config with
     | Some t => Ok t
     | None => Ok (JStr "sk-my-secret-key-123")
     end)%result.

End Integration.

(** ** Further operations of the scripts *)

Module More.
Import Py Http Run.

Definition newline : string := String (ascii_of_nat 10) EmptyString.

(** The double quote, for the texts that print one. *)
Definition dquote : string := String (ascii_of_nat 34) EmptyString.

(** ["=" * n] *)
Fixpoint rule (n : nat) : string :=
  match n with
  | O => EmptyString
  | S n' => String "="%char (rule n')
  end.

(** [s[:n]] *)
Fixpoint take (n : nat) (s : string) : string :=
  match n, s with
  | O, _ => EmptyString
  | _, EmptyString => EmptyString
  | S n', String c r => String c (take n' r)
  end.

(** The keys of a dict, in insertion order. *)
Fixpoint dict_keys_from (seen : list string) (fields : list (string * json))
    : list string :=
  match fields with
  | [] => []
  | (k, _) :: rest =>
      if existsb (String.eqb k) seen then dict_keys_from seen rest
      else k :: dict_keys_from (k :: seen) rest
  end.

Definition dict_keys (fields : list (string * json)) : list string :=
  dict_keys_from [] fields.

(** [d.items()] *)
Fixpoint dict_items_from (seen : list string) (fields : list (string * json))
    : list (string * json) :=
  match fields with
  | [] => []
  | (k, v) :: rest =>
      if existsb (String.eqb k) seen then dict_items_from seen rest
      else (k, v) :: dict_items_from (k :: seen) rest
  end.

Definition items (d : json) : result (list (string * json)) :=
  match d with
  | JObj fields => Ok (dict_items_from [] fields)
  | _ => Err (no_attribute d "items")
  end.

(** The values a [for] loop over [v] sees. *)
Definition iterate (v : json) : result (list json) :=
  match v with
  | JArr items => Ok items
  | JStr s => Ok (map (fun c => JStr (String c EmptyString)) (list_ascii_of_string s))
  | JObj fields => Ok (map JStr (dict_keys fields))
  | _ => Err (PyError TypeError ("'" ++ type_name v ++ "' object is not iterable"))
  end.

(** [enumerate(xs)] *)
Definition enumerate {A : Type} (xs : list A) : list (nat * A) :=
  combine (seq 0 (List.length xs)) xs.

(** A [for] loop whose body yields what it appends. *)
Fixpoint for_each {A B : Type} (body : A -> prog (list B)) (xs : list A)
    : prog (list B) :=
  match xs with
  | [] => ret []
  | x :: rest =>
      (here <- body x ;;
       others <- for_each body rest ;;
       ret (here ++ others)%list)%prog
  end.

(** What [with open(p) as f: json.load(f)] gives for the path value [p]. *)
Inductive opened : Type :=
| NotFound (msg : string)
| OpenFails (e : exn)
| Loaded (content : parsed_body).

(** The file system, as far as the scripts read it. *)
Record Disk : Type := mk_disk {
  open_json : json -> opened
}.

(** [json.load(open(p))] with no handler around it. *)
Definition load_json (disk : Disk) (p : json) : prog json :=
  match open_json disk p with
  | NotFound msg => (Raised (PyError OSError msg), [])
  | OpenFails e => (Raised e, [])
  | Loaded (Malformed msg) => (Raised (PyError JSONDecodeError msg), [])
  | Loaded (Parsed v) => ret v
  end.

End More.

(** ** list_deployments.py: [load_service_key] and [main] *)

Module ListDeploymentsMain.
Import Py Http Run More.

(** [load_service_key]: a missing or malformed key file ends the process. *)
Definition load_service_key (w : World) (disk : Disk) (key_file : json) : prog json :=
  match open_json disk key_file with
  | NotFound _ =>
      (print ("Error: " ++ fmt w key_file ++ " not found") ;;; sys_exit 1)%prog
  | OpenFails e => (Raised e, [])
  | Loaded (Malformed _) =>
      (print ("Error: " ++ fmt w key_file ++ " is not valid JSON") ;;; sys_exit 1)%prog
  | Loaded (Parsed v) => ret v
  end.

(** The dict [deployment_info]. *)
Record DeploymentInfo : Type := mk_info {
  info_id : json;
  info_url : string;
  info_status : json;
  info_model : json;
  info_config : json
}.

(** Lines 134-180: the body of the loop over the deployments; it yields
    what it appends to [claude_deployments] and to [other_deployments]. *)
Definition process_deployment (w : World) (service_key token resource_group : json)
    (total : Z) (indexed : nat * json)
    : prog (list (DeploymentInfo + DeploymentInfo)) :=
  let (i, deployment) := indexed in
  ((if (i mod 20 =? 0)%nat then
      print ("  Processed " ++ str_of_Z (Z.of_nat i) ++ "/" ++ str_of_Z total
             ++ " deployments...")
    else ret tt) ;;;
   deployment_id <- lift (get deployment "id" JNull) ;;
   status <- lift (get deployment "status" JNull) ;;
   if negb (py_eq status (JStr "RUNNING")) then ret []
   else
     details <- ListDeployments.get_deployment_details w service_key token
                  deployment_id resource_group ;;
     config_params <- lift (get details "configurationId" (JStr "")) ;;
     model_name <- lift (ListDeployments.extract_model_name details) ;;
     base_url <- lift (FindOpus.api_base_url service_key) ;;
     let deployment_url := FindOpus.deployment_url_of w base_url deployment_id in
     let deployment_info :=
       mk_info deployment_id deployment_url status model_name config_params in
     name_text <- lift (str_receiver model_name "lower") ;;
     if ListConfigurations.is_claude_name name_text then ret [inl deployment_info]
     else if negb (py_eq model_name (JStr "unknown")) then ret [inr deployment_info]
     else ret [])%prog.

(** [claude_deployments] and [other_deployments] of what the loop yielded. *)
Fixpoint claude_of (entries : list (DeploymentInfo + DeploymentInfo))
    : list DeploymentInfo :=
  match entries with
  | [] => []
  | inl d :: rest => d :: claude_of rest
  | inr _ :: rest => claude_of rest
  end.

Fixpoint other_of (entries : list (DeploymentInfo + DeploymentInfo))
    : list DeploymentInfo :=
  match entries with
  | [] => []
  | inl _ :: rest => other_of rest
  | inr d :: rest => d :: other_of rest
  end.

(** Lines 129-182: the loop. *)
Definition sort_deployments (w : World) (service_key token resource_group : json)
    (deployments : json) : prog (list (DeploymentInfo + DeploymentInfo)) :=
  (print "Fetching deployment details (this may take a moment)..." ;;;
   elements <- lift (iterate deployments) ;;
   total <- lift (len deployments) ;;
   entries <- for_each (process_deployment w service_key token resource_group total)
                (enumerate elements) ;;
   print ("  Completed processing " ++ str_of_Z total ++ " deployments.") ;;;
   ret entries)%prog.

(** Lines 184-205: the two sections of the report. *)
Definition claude_lines (w : World) (dep : DeploymentInfo) : list string :=
  [newline ++ "  Model: " ++ fmt w (info_model dep);
   "  Status: " ++ fmt w (info_status dep);
   "  Config: " ++ fmt w (info_config dep);
   "  URL: " ++ info_url dep].

Definition other_lines (w : World) (dep : DeploymentInfo) : list string :=
  [newline ++ "  Model: " ++ fmt w (info_model dep);
   "  Status: " ++ fmt w (info_status dep);
   "  URL: " ++ info_url dep].

Definition claude_section (w : World) (claude_deployments : list DeploymentInfo)
    : list string :=
  match claude_deployments with
  | [] => [newline ++ "No Claude/Anthropic models found in RUNNING status."]
  | _ =>
      app [newline ++ rule 80; "CLAUDE / ANTHROPIC MODELS FOUND:"; rule 80]
          (flat_map (claude_lines w) claude_deployments)
  end.

Definition other_section (w : World) (other_deployments : list DeploymentInfo)
    : list string :=
  match other_deployments with
  | [] => []
  | _ =>
      app [newline ++ rule 80;
           "OTHER MODELS (showing first 10 of "
           ++ str_of_Z (Z.of_nat (List.length other_deployments)) ++ "):";
           rule 80]
          (flat_map (other_lines w) (firstn 10 other_deployments))
  end.

Definition report (w : World) (claude_deployments other_deployments : list DeploymentInfo)
    : list string :=
  app (claude_section w claude_deployments) (other_section w other_deployments).

Fixpoint print_all (lines : list string) : prog unit :=
  match lines with
  | [] => ret tt
  | line :: rest => (print line ;;; print_all rest)%prog
  end.

(** Lines 111-205: one pass of the loop over the subaccounts. *)
Definition process_subaccount (w : World) (disk : Disk)
    (subaccount : string * json) : prog (list unit) :=
  let (subaccount_name, subaccount_config) := subaccount in
  (print (newline ++ rule 80) ;;;
   print ("SubAccount: " ++ subaccount_name) ;;;
   print (rule 80) ;;;
   resource_group <- lift (get subaccount_config "resource_group" (JStr "default")) ;;
   key_file <- lift (get subaccount_config "service_key_json" (JStr "key.json")) ;;
   service_key <- load_service_key w disk key_file ;;
   token <- ListDeployments.get_token w service_key ;;
   deployments <- ListDeployments.list_deployments w service_key token resource_group ;;
   total <- lift (len deployments) ;;
   print (newline ++ "Found " ++ str_of_Z total ++ " deployment(s) in resource group '"
          ++ fmt w resource_group ++ "':") ;;;
   print "" ;;;
   entries <- sort_deployments w service_key token resource_group deployments ;;
   print_all (report w (claude_of entries) (other_of entries)) ;;;
   ret [])%prog.

(** The closing advice of [main]. *)
Definition advice : list string :=
  [newline ++ rule 80;
   "To add a model to config.json, copy the deployment URL and add it like this:";
   rule 80;
   newline
   ++ "    " ++ dquote ++ "deployment_models" ++ dquote ++ ": {" ++ newline
   ++ "        " ++ dquote ++ "claude-4.5-opus" ++ dquote ++ ": [" ++ newline
   ++ "            " ++ dquote
   ++ "https://api.ai....../v2/inference/deployments/dXXXXXXX" ++ dquote ++ newline
   ++ "        ]," ++ newline
   ++ "        " ++ dquote ++ "anthropic--claude-4.5-opus" ++ dquote ++ ": [" ++ newline
   ++ "            " ++ dquote
   ++ "https://api.ai....../v2/inference/deployments/dXXXXXXX" ++ dquote ++ newline
   ++ "        ]" ++ newline
   ++ "    }" ++ newline
   ++ "    "].

(** [main] *)
Definition main (w : World) (disk : Disk) : prog unit :=
  (config <-
     match open_json disk (JStr "config.json") with
     | NotFound _ => print "Error: config.json not found" ;;; sys_exit 1
     | OpenFails e => (Raised e, [])
     | Loaded (Malformed msg) => (Raised (PyError JSONDecodeError msg), [])
     | Loaded (Parsed v) => ret v
     end ;;
   subaccounts <- lift (get config "subAccounts" (JObj [])) ;;
   (if negb (truthy subaccounts) then
      print "Error: No subaccounts configured" ;;; sys_exit 1
    else ret tt) ;;;
   each <- lift (items subaccounts) ;;
   for_each (process_subaccount w disk) each ;;;
   print_all advice)%prog.

End ListDeploymentsMain.

(** ** The three scripts that read the subaccount main *)

Module Setup.
Import Py Http Run More.

(** The first lines of [main] in [find_opus_deployment.py],
    [list_configurations.py] and [test_deployment.py]: the resource group
    and the service key of the subaccount main, and a token.  Nothing is
    caught here. *)
Definition setup (w : World) (disk : Disk) : prog (json * json * json) :=
  (config <- load_json disk (JStr "config.json") ;;
   subaccounts <- lift (getitem config "subAccounts") ;;
   subaccount_config <- lift (getitem subaccounts "main") ;;
   resource_group <- lift (getitem subaccount_config "resource_group") ;;
   key_file <- lift (get subaccount_config "service_key_json" (JStr "key.json")) ;;
   service_key <- load_json disk key_file ;;
   token <- FindOpus.get_token w service_key ;;
   ret (resource_group, service_key, token))%prog.

Fixpoint print_all (lines : list string) : prog unit :=
  match lines with
  | [] => ret tt
  | line :: rest => (print line ;;; print_all rest)%prog
  end.

(** The steps of the operator, printed by two of the reports. *)
Definition action_needed (steps : list string) : list string :=
  app [newline ++ rule 80; "ACTION NEEDED:"; rule 80] steps.

End Setup.

(** ** find_opus_deployment.py: [main] *)

Module FindOpusMain.
Import Py Http Run More Setup.

Definition is_running (d : FindOpus.ModelMatch) : bool :=
  py_eq (FindOpus.status d) (JStr "RUNNING").

(** Lines 136-139 and 158-160: a deployment of the report. *)
Definition deployment_lines (w : World) (with_url : bool) (dep : FindOpus.ModelMatch)
    : list string :=
  app [newline ++ "  Configuration: " ++ fmt w (FindOpus.config_name dep);
       "  Deployment ID: " ++ fmt w (FindOpus.deployment_id dep);
       "  Status: " ++ fmt w (FindOpus.status dep)]
      (if with_url then ["  URL: " ++ FindOpus.deployment_url dep] else []).

(** Lines 148-153: the lines to add to config.json. *)
Definition snippet (dep : FindOpus.ModelMatch) : string :=
  "    " ++ dquote ++ "claude-4.5-opus" ++ dquote ++ ": [" ++ newline
  ++ "        " ++ dquote ++ FindOpus.deployment_url dep ++ dquote ++ newline
  ++ "    ]," ++ newline
  ++ "    " ++ dquote ++ "anthropic--claude-4.5-opus" ++ dquote ++ ": [" ++ newline
  ++ "        " ++ dquote ++ FindOpus.deployment_url dep ++ dquote ++ newline
  ++ "    ],".

Definition running_report (w : World) (running_deployments : list FindOpus.ModelMatch)
    : list string :=
  app [newline ++ "✓ Found "
       ++ str_of_Z (Z.of_nat (List.length running_deployments))
       ++ " RUNNING Claude 4.5 Opus deployment(s):"]
 (app (flat_map (deployment_lines w true) running_deployments)
 (app [newline ++ rule 80; "ADD TO CONFIG.JSON:"; rule 80;
       newline ++ "Add these lines to the " ++ dquote ++ "deployment_models" ++ dquote
       ++ " section in config.json:" ++ newline]
      (map snippet (firstn 1 running_deployments)))).

Definition stopped_report (w : World) (opus_deployments : list FindOpus.ModelMatch)
    : list string :=
  app [newline ++ "⚠ Found "
       ++ str_of_Z (Z.of_nat (List.length opus_deployments))
       ++ " Claude 4.5 Opus deployment(s), but none are RUNNING:"]
 (app (flat_map (deployment_lines w false) opus_deployments)
      (action_needed
         ["1. Go to SAP AI Core Launchpad or BTP Cockpit";
          "2. Navigate to ML Operations -> Deployments";
          "3. Start or create a deployment for one of the Claude 4.5 Opus configurations";
          "4. Then run this script again to get the deployment URL"])).

Definition empty_report (w : World) (opus_configs : list FindOpus.OpusConfig)
    : list string :=
  app [newline ++ "✗ No Claude 4.5 Opus deployments found.";
       newline ++ "Available Claude 4.5 Opus configurations that can be deployed:"]
 (app (map (fun config =>
              "  - " ++ fmt w (FindOpus.oc_name config)
              ++ " (" ++ fmt w (FindOpus.oc_id config) ++ ")")
           opus_configs)
      (action_needed
         ["1. Go to SAP AI Core Launchpad or BTP Cockpit";
          "2. Navigate to ML Operations -> Deployments";
          "3. Click 'Create' to create a new deployment";
          "4. Select one of the Claude 4.5 Opus configurations listed above";
          "5. Start the deployment";
          "6. Run this script again to get the deployment URL"])).

(** Lines 125-184: the report. *)
Definition report (w : World) (opus_configs : list FindOpus.OpusConfig)
    (opus_deployments : list FindOpus.ModelMatch) : list string :=
  app [newline ++ rule 80; "CLAUDE 4.5 OPUS DEPLOYMENTS FOUND:"; rule 80]
      match opus_deployments with
      | [] => empty_report w opus_configs
      | _ =>
          let running_deployments := filter is_running opus_deployments in
          match running_deployments with
          | [] => stopped_report w opus_deployments
          | _ => running_report w running_deployments
          end
      end.

(** [main] *)
Definition main (w : World) (disk : Disk) : prog unit :=
  (session <- setup w disk ;;
   let '(resource_group, service_key, token) := session in
   base_url <- lift (FindOpus.api_base_url service_key) ;;
   print (rule 80) ;;;
   print "FINDING CLAUDE 4.5 OPUS DEPLOYMENT" ;;;
   print (rule 80) ;;;
   print (newline ++ "1. Fetching configurations...") ;;;
   configurations <- FindOpus.list_configurations w service_key token resource_group ;;
   each_config <- lift (iterate configurations) ;;
   opus_configs <- lift (FindOpus.select_configs FindOpus.is_opus_name each_config) ;;
   print ("   Found " ++ str_of_Z (Z.of_nat (List.length opus_configs))
          ++ " Claude 4.5 Opus configuration(s)") ;;;
   print (newline ++ "2. Fetching deployments...") ;;;
   deployments <- FindOpus.list_deployments w service_key token resource_group ;;
   total <- lift (len deployments) ;;
   print ("   Found " ++ str_of_Z total ++ " total deployment(s)") ;;;
   print (newline ++ "3. Matching deployments to Claude 4.5 Opus configurations...") ;;;
   each_deployment <- lift (iterate deployments) ;;
   opus_deployments <-
     lift (FindOpus.match_deployments w base_url opus_configs each_deployment) ;;
   print_all (report w opus_configs opus_deployments))%prog.

End FindOpusMain.

(** ** list_configurations.py: [main] *)

Module ListConfigurationsMain.
Import Py Http Run More Setup.

(** The dict [config_info]. *)
Record ConfigInfo : Type := mk_config_info {
  ci_id : json;
  ci_name : json;
  ci_scenario : json;
  ci_params : json
}.

(** Lines 81-99: the loop; a configuration goes to [claude_configs] (left)
    or to [other_configs] (right). *)
Fixpoint sort_configurations (configurations : list json)
    : result (list (ConfigInfo + ConfigInfo)) :=
  match configurations with
  | [] => Ok []
  | config :: rest =>
      (config_id <- get config "id" (JStr "") ;;
       config_name <- get config "name" (JStr "") ;;
       scenario_id <- get config "scenarioId" (JStr "") ;;
       params <- get config "inputArtifactBindings" (JArr []) ;;
       let config_info := mk_config_info config_id config_name scenario_id params in
       name_text <- str_receiver config_name "lower" ;;
       others <- sort_configurations rest ;;
       Ok ((if ListConfigurations.is_claude_name name_text then inl config_info
            else inr config_info) :: others))%result
  end.

Fixpoint claude_of (entries : list (ConfigInfo + ConfigInfo)) : list ConfigInfo :=
  match entries with
  | [] => []
  | inl c :: rest => c :: claude_of rest
  | inr _ :: rest => claude_of rest
  end.

Fixpoint other_of (entries : list (ConfigInfo + ConfigInfo)) : list ConfigInfo :=
  match entries with
  | [] => []
  | inl _ :: rest => other_of rest
  | inr c :: rest => c :: other_of rest
  end.

(** Lines 102-113; [dumps] is [json.dumps(_, indent=4)]. *)
Definition claude_section (w : World) (dumps : json -> string)
    (claude_configs : list ConfigInfo) : list string :=
  match claude_configs with
  | [] => [newline ++ "No Claude/Anthropic configurations found."]
  | _ =>
      app [newline ++ rule 80; "CLAUDE / ANTHROPIC CONFIGURATIONS:"; rule 80]
          (flat_map
             (fun cfg =>
                app [newline ++ "  Name: " ++ fmt w (ci_name cfg);
                     "  ID: " ++ fmt w (ci_id cfg);
                     "  Scenario: " ++ fmt w (ci_scenario cfg)]
                    (if truthy (ci_params cfg)
                     then ["  Parameters: " ++ dumps (ci_params cfg)]
                     else []))
             claude_configs)
  end.

(** Lines 116-122. *)
Definition other_section (w : World) (other_configs : list ConfigInfo) : list string :=
  match other_configs with
  | [] => []
  | _ =>
      if (List.length other_configs <=? 20)%nat then
        app [newline ++ rule 80;
             "OTHER CONFIGURATIONS ("
             ++ str_of_Z (Z.of_nat (List.length other_configs)) ++ "):";
             rule 80]
            (flat_map
               (fun cfg =>
                  [newline ++ "  Name: " ++ fmt w (ci_name cfg);
                   "  ID: " ++ fmt w (ci_id cfg)])
               (firstn 20 other_configs))
      else []
  end.

Definition advice : list string :=
  [newline ++ rule 80;
   "To deploy a configuration and get its deployment ID:";
   rule 80;
   "1. Use the SAP AI Core Launchpad or BTP cockpit";
   "2. Navigate to ML Operations -> Deployments";
   "3. Create a new deployment from the configuration";
   "4. Copy the deployment ID and add to config.json"].

(** [main] *)
Definition main (w : World) (disk : Disk) (dumps : json -> string) : prog unit :=
  (session <- setup w disk ;;
   let '(resource_group, service_key, token) := session in
   configurations <-
     ListConfigurations.list_configurations w service_key token resource_group ;;
   print (rule 80) ;;;
   total <- lift (len configurations) ;;
   print ("Found " ++ str_of_Z total ++ " configuration(s)") ;;;
   print (rule 80) ;;;
   each_config <- lift (iterate configurations) ;;
   entries <- lift (sort_configurations each_config) ;;
   print_all (claude_section w dumps (claude_of entries)) ;;;
   print_all (other_section w (other_of entries)) ;;;
   print_all advice)%prog.

End ListConfigurationsMain.

(** ** test_deployment.py: [main] *)

Module TestDeploymentMain.
Import Py Http Run More Setup.

Definition known_deployments : list (string * string) :=
  [("Claude 4.5 Sonnet (known)", "d0c56b8d3578bd1b");
   ("Claude 4.5 Haiku (known)", "dfe7874938d2c0f6")].

Definition potential_opus_deployments : list (string * string) :=
  [("Potential Opus 1", "d635d2e4e4023c3e");
   ("Potential Opus 2", "d3d5b1c3ec655230");
   ("Potential Opus 3", "dda818db4a6ebeaa");
   ("Potential Opus 4", "df4b4ef707c98fec");
   ("Potential Opus 5", "d14636a118a96e18")].

(** ["-" * n] *)
Fixpoint dashes (n : nat) : string :=
  match n with
  | O => EmptyString
  | S n' => String "-"%char (dashes n')
  end.

(** [v[:n]].  A dict cannot be sliced: [TypeError] before Python 3.12,
    [KeyError] from then on. *)
Definition slice_to (n : nat) (v : json) : result json :=
  match v with
  | JStr s => Ok (JStr (take n s))
  | JArr items => Ok (JArr (firstn n items))
  | JObj _ => Err (PyError OtherError "slice")
  | _ => Err (not_subscriptable v)
  end.

(** Lines 120-132: a known deployment. *)
Definition test_known (w : World) (service_key token resource_group : json)
    (entry : string * string) : prog (list unit) :=
  let (name, deployment_id) := entry in
  (result <- TestDeployment.test_deployment w service_key token (JStr deployment_id)
               resource_group ;;
   print (newline ++ name ++ " (" ++ deployment_id ++ "):") ;;;
   success <- lift (getitem result "success") ;;
   (if truthy success then
      print "  Status: SUCCESS" ;;;
      model_header <- lift (get result "model_header" (JStr "N/A")) ;;
      print ("  Model Header: " ++ fmt w model_header) ;;;
      text <- lift (TestDeployment.response_text result) ;;
      match text with
      | Some t => print ("  Response: " ++ fmt w t)
      | None => ret tt
      end
    else
      error <- lift (get result "error" (JStr "Unknown error")) ;;
      print ("  Status: FAILED - " ++ fmt w error)) ;;;
   ret [])%prog.

(** Lines 137-146: a deployment that might be Claude 4.5 Opus. *)
Definition test_potential (w : World) (service_key token resource_group : json)
    (entry : string * string) : prog (list unit) :=
  let (name, deployment_id) := entry in
  (result <- TestDeployment.test_deployment w service_key token (JStr deployment_id)
               resource_group ;;
   print (newline ++ name ++ " (" ++ deployment_id ++ "):") ;;;
   success <- lift (getitem result "success") ;;
   (if truthy success then
      print "  Status: SUCCESS - This might be Claude 4.5 Opus!" ;;;
      model_header <- lift (get result "model_header" (JStr "N/A")) ;;
      print ("  Model Header: " ++ fmt w model_header) ;;;
      base_url <- lift (FindOpus.api_base_url service_key) ;;
      print ("  URL: " ++ FindOpus.deployment_url_of w base_url (JStr deployment_id))
    else
      error <- lift (get result "error" (JStr "Unknown error")) ;;
      shown <- lift (slice_to 100 error) ;;
      print ("  Status: FAILED - " ++ fmt w shown)) ;;;
   ret [])%prog.

Definition advice : list string :=
  [newline ++ rule 80;
   "If a deployment tested successfully, add it to config.json as:";
   rule 80;
   newline
   ++ "    " ++ dquote ++ "claude-4.5-opus" ++ dquote ++ ": [" ++ newline
   ++ "        " ++ dquote
   ++ "https://api.ai.prod.eu-central-1.aws.ml.hana.ondemand.com/v2/inference/deployments/dXXXXXXXXXXXXXXX"
   ++ dquote ++ newline
   ++ "    ]," ++ newline
   ++ "    " ++ dquote ++ "anthropic--claude-4.5-opus" ++ dquote ++ ": [" ++ newline
   ++ "        " ++ dquote
   ++ "https://api.ai.prod.eu-central-1.aws.ml.hana.ondemand.com/v2/inference/deployments/dXXXXXXXXXXXXXXX"
   ++ dquote ++ newline
   ++ "    ]" ++ newline
   ++ "    "].

(** [main] *)
Definition main (w : World) (disk : Disk) : prog unit :=
  (session <- setup w disk ;;
   let '(resource_group, service_key, token) := session in
   print (rule 80) ;;;
   print "TESTING CLAUDE DEPLOYMENTS" ;;;
   print (rule 80) ;;;
   print (newline ++ "Known Claude Deployments:") ;;;
   print (dashes 80) ;;;
   for_each (test_known w service_key token resource_group) known_deployments ;;;
   print (newline ++ newline ++ "Testing Potential Claude 4.5 Opus Deployments:") ;;;
   print (dashes 80) ;;;
   for_each (test_potential w service_key token resource_group)
     potential_opus_deployments ;;;
   print_all advice)%prog.

End TestDeploymentMain.

(** ** The host of test_claude_code_integration.py *)

Module Shell.
Import Py Http Run More.

(** [c.isspace()] on ASCII: tab to carriage return, the four separators
    and the space. *)
Definition is_space (c : ascii) : bool :=
  let n := nat_of_ascii c in
  ((9 <=? n)%nat && (n <=? 13)%nat) || ((28 <=? n)%nat && (n <=? 32)%nat).

Fixpoint lstrip (s : string) : string :=
  match s with
  | EmptyString => EmptyString
  | String c r => if is_space c then lstrip r else s
  end.

Fixpoint rstrip (s : string) : string :=
  match s with
  | EmptyString => EmptyString
  | String c r =>
      match rstrip r with
      | EmptyString => if is_space c then EmptyString else String c EmptyString
      | kept => String c kept
      end
  end.

(** [s.strip()] *)
Definition strip (s : string) : string := rstrip (lstrip s).

(** A call of [subprocess.run(..., capture_output=True, text=True)]. *)
Record command : Type := mk_command {
  argv : list string;
  cmd_env : option (list (string * json));
  cmd_timeout : option Z
}.

Inductive process_result : Type :=
| Completed (returncode : Z) (stdout stderr : string)
| TimedOut
| SpawnFails (e : exn).

(** What [Path(p).exists()] and [read_text()] give. *)
Inductive text_file : Type :=
| Absent
| ReadFails (e : exn)
| Holds (content : string).

(** The machine the test driver runs on: environment, processes, files
    and clock. *)
Record Host : Type := mk_host {
  environ_token : option string;
  config_json : Integration.config_file;
  platform : string;
  run : command -> process_result;
  read_text : string -> text_file;
  write_text : string -> string -> option exn;
  mkdir : string -> option exn;
  path_under : string -> string -> string;
  now_stamp : string;
  now_iso : string
}.

(** What [parser.parse_args()] makes of the command line: the parser
    ends the process itself, with status 2 after an error of usage and
    with status 0 after [--help], or gives the three flags.  What the
    parser writes is its own, not a [print] of the script. *)
Inductive arguments : Type :=
| Refused (code : Z)
| Flags (http_only cli_only save_output : bool).

(** What a run of the driver does, in order.  [Wrote] and [MadeDir] are
    recorded when the call is made, whether or not it then raises. *)
Inductive action : Type :=
| Out (e : event)
| Ran (c : command)
| MadeDir (path : string)
| Wrote (path content : string).

Definition script (A : Type) : Type := (outcome A * list action)%type.

Definition sret {A : Type} (a : A) : script A := (Returned a, []).

Definition sbind {A B : Type} (p : script A) (f : A -> script B) : script B :=
  match p with
  | (Returned a, acts) => let (o, acts') := f a in (o, (acts ++ acts')%list)
  | (Raised e, acts) => (Raised e, acts)
  | (Exited c, acts) => (Exited c, acts)
  end.

(** A step of the scripts above, inside the driver. *)
Definition embed {A : Type} (p : prog A) : script A := (fst p, map Out (snd p)).

Definition say (line : string) : script unit := (Returned tt, [Out (Printed line)]).

Definition slift {A : Type} (r : result A) : script A :=
  match r with
  | Ok a => (Returned a, [])
  | Err e => (Raised e, [])
  end.

(** [try: p  except Exception as e: handler e] *)
Definition guarded {A : Type} (p : script A) (handler : exn -> script A) : script A :=
  match p with
  | (Raised e, acts) => let (o, acts') := handler e in (o, (acts ++ acts')%list)
  | _ => p
  end.

End Shell.

Declare Scope script_scope.
Delimit Scope script_scope with script.
Notation "x <- p ;; k" := (Shell.sbind p (fun x => k))
  (at level 61, p at next level, right associativity) : script_scope.
Notation "p ;;; k" := (Shell.sbind p (fun _ => k))
  (at level 61, right associativity) : script_scope.

(** ** test_claude_code_integration.py: the driver *)

Module Driver.
Import Py Http Run More Shell.

Definition PROXY_URL : string := "http://127.0.0.1:4337".
Definition MESSAGES_ENDPOINT : string := PROXY_URL ++ "/v1/messages".
Definition LAST_SYNC_FILE : string := ".last_sync_hash".
Definition OUTPUT_DIR : string := "logs/integration_tests".

Definition get_auth_token (h : Host) : script json :=
  slift (Integration.get_auth_token (environ_token h) (config_json h)).

(** [get_last_sync_hash] *)
Definition get_last_sync_hash (h : Host) : script (option string) :=
  match read_text h LAST_SYNC_FILE with
  | Absent => sret None
  | ReadFails e => (Raised e, [])
  | Holds content => sret (Some (strip content))
  end.

(** [save_last_sync_hash] *)
Definition save_last_sync_hash (h : Host) (commit_hash : string) : script unit :=
  match write_text h LAST_SYNC_FILE commit_hash with
  | Some e => (Raised e, [Wrote LAST_SYNC_FILE commit_hash])
  | None => (Returned tt, [Wrote LAST_SYNC_FILE commit_hash])
  end.

(** [subprocess.run] with no timeout and no handler around it: whatever
    the call raises goes to the caller. *)
Definition run_plain (h : Host) (args : list string) : script (Z * string * string) :=
  let c := mk_command args None None in
  match run h c with
  | Completed rc out err => (Returned (rc, out, err), [Ran c])
  | TimedOut => (Raised (PyError OtherError "TimeoutExpired"), [Ran c])
  | SpawnFails e => (Raised e, [Ran c])
  end.

(** [git_fetch] *)
Definition git_fetch (h : Host) : script bool :=
  (say "📥 Fetching latest changes from GitHub..." ;;;
   result <- run_plain h ["git"; "fetch"; "origin"] ;;
   let '(returncode, _, stderr) := result in
   (if negb (returncode =? 0)%Z then say ("⚠️  Git fetch warning: " ++ stderr)
    else sret tt) ;;;
   sret (returncode =? 0)%Z)%script.

(** [get_current_hash] and [get_origin_hash] *)
Definition rev_parse (h : Host) (revision : string) : script (option string) :=
  (result <- run_plain h ["git"; "rev-parse"; revision] ;;
   let '(returncode, stdout, _) := result in
   sret (if (returncode =? 0)%Z then Some (strip stdout) else None))%script.

Definition get_current_hash (h : Host) : script (option string) := rev_parse h "HEAD".
Definition get_origin_hash (h : Host) : script (option string) := rev_parse h "origin/main".

(** [if since_hash:] *)
Definition given (since_hash : option string) : option string :=
  match since_hash with
  | Some s => if String.eqb s "" then None else Some s
  | None => None
  end.

(** [get_recent_commits] *)
Definition get_recent_commits (h : Host) (since_hash : option string) (limit : Z)
    : script string :=
  let cmd :=
    match given since_hash with
    | Some s => ["git"; "log"; s ++ "..HEAD"; "--oneline"; "-" ++ str_of_Z limit]
    | None => ["git"; "log"; "--oneline"; "-" ++ str_of_Z limit]
    end in
  (result <- run_plain h cmd ;;
   let '(returncode, stdout, _) := result in
   sret (if (returncode =? 0)%Z then strip stdout else ""))%script.

(** [get_changed_files] *)
Definition get_changed_files (h : Host) (since_hash : option string) : script string :=
  let cmd :=
    match given since_hash with
    | Some s => ["git"; "diff"; "--name-only"; s; "HEAD"]
    | None => ["git"; "diff"; "--name-only"; "HEAD~5"; "HEAD"]
    end in
  (result <- run_plain h cmd ;;
   let '(returncode, stdout, _) := result in
   sret (if (returncode =? 0)%Z then strip stdout else ""))%script.

(** [save_test_output] *)
Definition save_test_output (h : Host) (test_type content : string) : script unit :=
  match mkdir h OUTPUT_DIR with
  | Some e => (Raised e, [MadeDir OUTPUT_DIR])
  | None =>
      let filename :=
        path_under h OUTPUT_DIR
          ("integration_test_" ++ test_type ++ "_" ++ now_stamp h ++ ".md") in
      let document :=
        "# Integration Test Output (" ++ upper test_type ++ ")" ++ newline ++ newline
        ++ "**Timestamp:** " ++ now_iso h ++ newline ++ newline
        ++ "## Response" ++ newline ++ newline
        ++ content in
      match write_text h filename document with
      | Some e => (Raised e, [MadeDir OUTPUT_DIR; Wrote filename document])
      | None =>
          (Returned tt,
           [MadeDir OUTPUT_DIR; Wrote filename document;
            Out (Printed ("📝 Output saved to: " ++ filename))])
      end
  end.

(** [content += v] with [content] a string. *)
Definition concat_text (content : string) (v : json) : result string :=
  match v with
  | JStr s => Ok (content ++ s)
  | _ => Err (PyError TypeError
                ("can only concatenate str (not " ++ dquote ++ type_name v ++ dquote
                 ++ ") to str"))
  end.

(** Lines 153-159: the text of the answer. *)
Fixpoint collect_text (content : string) (blocks : list json) : result string :=
  match blocks with
  | [] => Ok content
  | block :: rest =>
      (kind <- get block "type" JNull ;;
       content' <-
         (if py_eq kind (JStr "text") then
            text <- get block "text" (JStr "") ;;
            concat_text content text
          else Ok content) ;;
       collect_text content' rest)%result
  end.

Definition answer_text (result : json) : Run.result string :=
  (has_content <- key_in "content" result ;;
   if has_content then
     blocks <- getitem result "content" ;;
     each <- iterate blocks ;;
     collect_text "" each
   else Ok "")%result.

Definition is_connection_error (e : exn) : bool :=
  match e with RequestException ConnectionError _ _ => true | _ => false end.

Definition messages_request (token : json) (prompt : string) : request :=
  mk_request POST MESSAGES_ENDPOINT
    [("Content-Type", JStr "application/json");
     ("x-api-key", token);
     ("anthropic-version", JStr "2023-06-01")]
    (Some (JObj [("model", JStr "anthropic--claude-4-sonnet");
                 ("max_tokens", JNum 2000);
                 ("messages", JArr [JObj [("role", JStr "user");
                                          ("content", JStr prompt)]])]))
    (Some 120%Z).

(** [test_http_endpoint]; the three clauses of its handler are tried in
    the order of the source, the one for connection errors first. *)
Definition test_http_endpoint (w : World) (h : Host) (prompt : string)
    (save_output : bool) : script (bool * string * option string) :=
  (say (newline ++ "🔌 Testing HTTP endpoint (/v1/messages)...") ;;;
   token <- get_auth_token h ;;
   guarded
     (response <- embed (http w (messages_request token prompt)) ;;
      if (status_code response =? 200)%Z then
        result <- slift (response_json response) ;;
        content <- slift (answer_text result) ;;
        if negb (String.eqb content "") then
          say "✅ HTTP test PASSED - received response from proxy" ;;;
          (if save_output then save_test_output h "http" content else sret tt) ;;;
          sret (true, content, None)
        else sret (false, "", Some "Empty response content")
      else
        sret (false, "",
              Some ("HTTP " ++ str_of_Z (status_code response) ++ ": "
                    ++ take 200 (text response))))
     (fun e =>
        if is_connection_error e then
          sret (false, "", Some "Connection refused - is the proxy running?")
        else if is_timeout e then
          sret (false, "", Some "Request timed out after 120s")
        else sret (false, "", Some (exn_text e))))%script.

(** [test_claude_cli] *)
Definition test_claude_cli (h : Host) (prompt : string) (save_output : bool)
    : script (bool * string * option string) :=
  (say (newline ++ "🖥️  Testing Claude Code CLI...") ;;;
   which_result <-
     run_plain h [if String.eqb (platform h) "win32" then "where" else "which";
                  "claude"] ;;
   let '(which_code, _, _) := which_result in
   if negb (which_code =? 0)%Z then
     sret (false, "", Some "Claude CLI not found in PATH")
   else
     token <- get_auth_token h ;;
     let env :=
       [("ANTHROPIC_BASE_URL", JStr PROXY_URL);
        ("ANTHROPIC_AUTH_TOKEN", token);
        ("ANTHROPIC_MODEL", JStr "anthropic--claude-4-sonnet")] in
     let c := mk_command ["claude"; "--print"; prompt] (Some env) (Some 180%Z) in
     match run h c with
     | Completed returncode stdout stderr =>
         if (returncode =? 0)%Z && negb (String.eqb (strip stdout) "") then
           guarded
             ((Returned tt,
               [Ran c;
                Out (Printed "✅ CLI test PASSED - received response from Claude Code")]) ;;;
              (if save_output then save_test_output h "cli" (strip stdout)
               else sret tt) ;;;
              sret (true, strip stdout, None))
             (fun e => sret (false, "", Some (exn_text e)))
         else
           (Returned
              (false, "",
               Some (if negb (String.eqb stderr "") then strip stderr
                     else "No output received")),
            [Ran c])
     | TimedOut =>
         (Returned (false, "", Some "Claude CLI timed out after 180s"), [Ran c])
     | SpawnFails e => (Returned (false, "", Some (exn_text e)), [Ran c])
     end)%script.

(** [build_review_prompt] *)
Definition build_review_prompt (h : Host) (since_hash : option string) : script string :=
  (commits <- get_recent_commits h since_hash 10 ;;
   changed_files <- get_changed_files h since_hash ;;
   sret
     ("You are reviewing recent changes to the sap-ai-core-llm-proxy repository."
      ++ newline ++ newline
      ++ "## Recent Commits" ++ newline
      ++ "```" ++ newline
      ++ (if String.eqb commits "" then "No recent commits found" else commits)
      ++ newline
      ++ "```" ++ newline ++ newline
      ++ "## Changed Files" ++ newline
      ++ "```" ++ newline
      ++ (if String.eqb changed_files "" then "No file changes detected"
          else changed_files)
      ++ newline
      ++ "```" ++ newline ++ newline
      ++ "Please provide:" ++ newline
      ++ "1. A brief summary of the changes (2-3 sentences)" ++ newline
      ++ "2. Key modifications by category (bug fixes, features, documentation)"
      ++ newline
      ++ "3. Any potential concerns or areas that need attention" ++ newline ++ newline
      ++ "Keep your response concise but informative."))%script.

(** [h[:8] if h else default] *)
Definition short_hash (hash : option string) (default : string) : string :=
  match given hash with
  | Some s => take 8 s
  | None => default
  end.

(** [f"{name.upper():6}"] *)
Definition padded (name : string) : string :=
  let shown := upper name in
  shown ++ string_of_list_ascii (repeat " "%char (6 - String.length shown)).

(** An entry of [results]: the test, its success flag and its error. *)
Definition summary_line (entry : string * (bool * option string)) : string :=
  let '(test_name, (success, error)) := entry in
  "   " ++ padded test_name ++ " : "
  ++ (if success then "✅ PASSED"
      else "❌ FAILED: " ++ match error with Some s => s | None => "None" end).

Fixpoint say_all (lines : list string) : script unit :=
  match lines with
  | [] => sret tt
  | line :: rest => (say line ;;; say_all rest)%script
  end.

(** [run_integration_test] *)
Definition run_integration_test (w : World) (h : Host)
    (http_only cli_only save_output : bool) : script bool :=
  (say (rule 70) ;;;
   say "🧪 SAP AI Core LLM Proxy - Claude Code Integration Test" ;;;
   say (rule 70) ;;;
   git_fetch h ;;;
   last_sync <- get_last_sync_hash h ;;
   current_hash <- get_current_hash h ;;
   origin_hash <- get_origin_hash h ;;
   say (newline ++ "📊 Sync Status:") ;;;
   say ("   Last sync: " ++ short_hash last_sync "Never" ++ "...") ;;;
   say ("   Current:   " ++ short_hash current_hash "Unknown" ++ "...") ;;;
   say ("   Origin:    " ++ short_hash origin_hash "Unknown" ++ "...") ;;;
   prompt <- build_review_prompt h last_sync ;;
   http_results <-
     (if negb cli_only then
        outcome <- test_http_endpoint w h prompt save_output ;;
        let '(http_success, _, http_error) := outcome in
        (if negb http_success then
           say ("❌ HTTP test FAILED: "
                ++ match http_error with Some s => s | None => "None" end)
         else sret tt) ;;;
        sret [("http", (http_success, http_error))]
      else sret []) ;;
   cli_results <-
     (if negb http_only then
        outcome <- test_claude_cli h prompt save_output ;;
        let '(cli_success, _, cli_error) := outcome in
        (if negb cli_success then
           say ("❌ CLI test FAILED: "
                ++ match cli_error with Some s => s | None => "None" end)
         else sret tt) ;;;
        sret [("cli", (cli_success, cli_error))]
      else sret []) ;;
   let results := (http_results ++ cli_results)%list in
   say (newline ++ rule 70) ;;;
   say "📋 Test Results Summary" ;;;
   say (rule 70) ;;;
   say_all (map summary_line results) ;;;
   let all_passed := forallb (fun entry => fst (snd entry)) results in
   (match given current_hash with
    | Some hash =>
        if all_passed then
          save_last_sync_hash h hash ;;;
          say (newline ++ "✅ Updated sync marker to: " ++ take 8 hash ++ "...")
        else sret tt
    | None => sret tt
    end) ;;;
   say (newline ++ rule 70) ;;;
   (if all_passed then say "🎉 ALL TESTS PASSED - Proxy is functioning correctly!"
    else say "⚠️  SOME TESTS FAILED - Proxy may have issues!") ;;;
   say (rule 70) ;;;
   sret all_passed)%script.

(** [main]: [args] is what [parser.parse_args()] makes of the command
    line. *)
Definition main (w : World) (h : Host) (args : arguments) : script unit :=
  match args with
  | Refused code => (Exited code, [])
  | Flags http_only cli_only save_output =>
      (success <- run_integration_test w h http_only cli_only save_output ;;
       (Exited (if success then 0 else 1)%Z, []))%script
  end.

End Driver.

(** * Vocabulary of the properties *)

Module Spec.
Import Py Http Run.


(** The value of [d.get(k)] when [d] is a dict. *)
Definition field (d : json) (k : string) : json :=
  match d with
  | JObj fields =>
      match dict_get k fields with
      | Some v => v
      | None => JNull
      end
  | _ => JNull
  end.

Definition is_dict (v : json) : bool :=
  match v with JObj _ => true | _ => false end.

(** A configuration of the listing is an object whose [name], when it
    has one, is text. *)
Definition is_configuration (c : json) : bool :=
  match c with
  | JObj fields =>
      match dict_get "name" fields with
      | None | Some (JStr _) => true
      | Some _ => false
      end
  | _ => false
  end.

(** A deployment of the listing is an object. *)
Definition is_deployment (d : json) : bool := is_dict d.

(** The name the test is applied to: [config.get('name', '')]. *)
Definition name_of (c : json) : string :=
  match c with
  | JObj fields =>
      match dict_get "name" fields with
      | Some (JStr s) => s
      | _ => ""
      end
  | _ => ""
  end.

(** [C.id == D.configurationId] *)
Definition ids_agree (C D : json) : bool :=
  py_eq (field C "id") (field D "configurationId").

(** The match of deployment [D] with configuration [C]. *)
Definition match_of (w : World) (base_url D C : json) : FindOpus.ModelMatch :=
  FindOpus.mk_match
    (field D "id")
    (FindOpus.deployment_url_of w base_url (field D "id"))
    (field D "status")
    (field C "name")
    (field C "id").

(** The entry of [opus_configs] made from configuration [c]. *)
Definition entry_of (c : json) : FindOpus.OpusConfig :=
  FindOpus.mk_opus_config (field c "id") (field c "name").

(** The matches of one deployment, as a list expression. *)
Definition matches_for (w : World) (namePredicate : string -> bool)
    (base_url : json) (configurations : list json) (D : json)
    : list FindOpus.ModelMatch :=
  map (match_of w base_url D)
      (filter (fun C => ids_agree C D)
         (filter (fun C => namePredicate (name_of C)) configurations)).

(** *** Runs *)

(** The requests a run sent, in order. *)
Fixpoint requests_of (events : list event) : list request :=
  match events with
  | [] => []
  | Sent r :: rest => r :: requests_of rest
  | Printed _ :: rest => requests_of rest
  end.

Definition network_calls {A : Type} (p : prog A) : list request :=
  requests_of (snd p).

(** The run did not return a value. *)
Definition failed {A : Type} (p : prog A) : bool :=
  match fst p with
  | Returned _ => false
  | Raised _ | Exited _ => true
  end.

(** *** Credentials *)

(** A field is blank when it is missing or empty: what Python takes for
    false. *)
Definition blank (v : json) : bool := negb (truthy v).

(** The three fields the token request is built from. *)
Definition token_fields (service_key : json) : list json :=
  [field service_key "clientid"; field service_key "clientsecret";
   field service_key "url"].

(** The four fields of the credential descriptor. *)
Definition credential_fields (service_key : json) : list json :=
  (token_fields service_key
   ++ [field (field service_key "serviceurls") "AI_API_URL"])%list.

(** The token request of [get_token]. *)
Definition token_request (w : World) (service_key : json) : request :=
  mk_request POST
    (fmt w (field service_key "url") ++ "/oauth/token?grant_type=client_credentials")
    [("Authorization",
      JStr ("Basic " ++ b64encode w (fmt w (field service_key "clientid") ++ ":"
                                      ++ fmt w (field service_key "clientsecret"))))]
    None None.

(** *** Listings *)

(** The request of a listing call. *)
Definition listing_request (w : World) (path : string)
    (base_url token resource_group : json) : request :=
  mk_request GET (fmt w base_url ++ path)
    (FindOpus.bearer_headers w token resource_group) None None.

(** A status [raise_for_status] rejects. *)
Definition is_error_status (status : Z) : bool :=
  ((400 <=? status) && (status <? 600))%Z.

(** The exception [raise_for_status] raises for response [r]: its text
    starts with the status code, and it carries [r]. *)
Definition http_error_of (r : response) : exn :=
  RequestException HTTPError
    (str_of_Z (status_code r)
     ++ (if (status_code r <? 500)%Z then " Client Error: " else " Server Error: ")
     ++ reason r ++ " for url: " ++ url r)
    (Some r).

(** *** Model identity *)

(** The chain as the specification words it: the first non-empty of the
    candidates, unknown when all are empty. *)
Definition first_non_empty (candidates : list string) : string :=
  match filter (fun s => negb (String.eqb s "")) candidates with
  | s :: _ => s
  | [] => "unknown"
  end.

Definition text_of (v : json) : string :=
  match v with JStr s => s | _ => "" end.

(** The three candidates of the specification, read off a response
    header and a details document. *)
Definition claimed_model_identity (header : string) (details : json) : string :=
  first_non_empty
    [header;
     text_of (field (field (field (field (field details "details") "resources")
                              "backend_details") "model") "name");
     text_of (field details "configurationName")].

(** The nested model name of a details document whose levels are
    objects. *)
Definition nested_name (details : json) : option json :=
  match field details "details" with
  | JObj ds =>
      match dict_get "resources" ds with
      | Some (JObj rs) =>
          match dict_get "backend_details" rs with
          | Some (JObj bs) =>
              match dict_get "model" bs with
              | Some (JObj ms) => dict_get "name" ms
              | _ => None
              end
          | _ => None
          end
      | _ => None
      end
  | _ => None
  end.

(** A details document is well shaped when every level of the nested
    path that is present is an object, and a model has a name. *)
Definition well_shaped (details : json) : bool :=
  match details with
  | JObj fs =>
      match dict_get "details" fs with
      | None => true
      | Some (JObj ds) =>
          match dict_get "resources" ds with
          | None => true
          | Some (JObj rs) =>
              match dict_get "backend_details" rs with
              | None => true
              | Some (JObj bs) =>
                  match dict_get "model" bs with
                  | None => true
                  | Some (JObj ms) => dict_has "name" ms
                  | Some _ => false
                  end
              | Some _ => false
              end
          | Some _ => false
          end
      | Some _ => false
      end
  | _ => false
  end.

(** The fallback of [list_deployments.py]: the configuration name when it
    is non-empty, unknown otherwise. *)
Definition configuration_fallback (details : json) : json :=
  let config_name :=
    match details with
    | JObj fs =>
        match dict_get "configurationName" fs with
        | Some v => v
        | None => JStr ""
        end
    | _ => JStr ""
    end in
  if truthy config_name then config_name else JStr "unknown".

(** *** The proxy token *)

(** The environment variable is unset or empty. *)
Definition env_blank (env_token : option string) : bool :=
  match env_token with
  | None => true
  | Some t => String.eqb t ""
  end.

End Spec.

(** * Concrete inputs *)

Module Sample.
Import Py Http Run.

(** A world whose transport answers as [answer] says.  The encoder and
    the container text are stand-ins: no example depends on them. *)
Definition world_with (answer : request -> net_result) : World :=
  mk_world answer (fun s => "b64(" ++ s ++ ")") (fun _ => "<container>").

Definition unreachable : request -> net_result :=
  fun _ => Failed (RequestException ConnectionError "connection refused" None).

Definition offline : World := world_with unreachable.

Definition service_key : json :=
  JObj [("clientid", JStr "client");
        ("clientsecret", JStr "secret");
        ("url", JStr "https://auth.example.com");
        ("serviceurls", JObj [("AI_API_URL", JStr "https://api.example.com")])].

(** The scenario of the specification. *)
Definition configurations : list json :=
  [JObj [("id", JStr "c1"); ("name", JStr "claude-4.5-opus-v1")];
   JObj [("id", JStr "c2"); ("name", JStr "gpt-4o")]].

Definition deployments : list json :=
  [JObj [("id", JStr "d1"); ("configurationId", JStr "c1"); ("status", JStr "RUNNING")];
   JObj [("id", JStr "d2"); ("configurationId", JStr "c2"); ("status", JStr "RUNNING")]].

(** A deployment whose configuration is not in the listing. *)
Definition dangling : json :=
  JObj [("id", JStr "d9"); ("configurationId", JStr "c9"); ("status", JStr "RUNNING")].

Definition api_base : json := JStr "https://api.example.com".

Definition answering (r : response) : World := world_with (fun _ => Responded r).


Definition probe_url : string :=
  "https://api.example.com/v2/inference/deployments/d0c56b8d3578bd1b".

(** The body [{"content":[{"type":"text","text":"test"}]}], as text and
    as the value [response.json()] gives. *)
Definition q : string := String (ascii_of_nat 34) EmptyString.

Definition test_body_text : string :=
  "{" ++ q ++ "content" ++ q ++ ":[{" ++ q ++ "type" ++ q ++ ":" ++ q ++ "text" ++ q
  ++ "," ++ q ++ "text" ++ q ++ ":" ++ q ++ "test" ++ q ++ "}]}".

Definition test_body : json :=
  JObj [("content", JArr [JObj [("type", JStr "text"); ("text", JStr "test")]])].

Definition ok_response : response :=
  mk_response 200 "OK" probe_url [("Content-Type", "application/json")]
    test_body_text (Parsed test_body).

Definition server_error : response :=
  mk_response 500 "Internal Server Error" probe_url [] "upstream failure"
    (Malformed "Expecting value: line 1 column 1 (char 0)").


Definition token : json := JStr "eyJhbGciOi".
Definition deployment_id : json := JStr "d0c56b8d3578bd1b".
Definition resource_group : json := JStr "default".

(** A service key without [serviceurls]: the API base URL is missing. *)
Definition key_without_api_url : json :=
  JObj [("clientid", JStr "client");
        ("clientsecret", JStr "secret");
        ("url", JStr "https://auth.example.com")].

(** A service key without [clientid]. *)
Definition key_without_client_id : json :=
  JObj [("clientsecret", JStr "secret");
        ("url", JStr "https://auth.example.com");
        ("serviceurls", JObj [("AI_API_URL", JStr "https://api.example.com")])].

Definition token_url : string :=
  "https://auth.example.com/oauth/token?grant_type=client_credentials".

Definition token_response : response :=
  mk_response 200 "OK" token_url [] "<token document>"
    (Parsed (JObj [("access_token", token); ("expires_in", JNum 43199)])).

Definition configurations_url : string :=
  "https://api.example.com/v2/lm/configurations".

Definition listing_error : response :=
  mk_response 500 "Internal Server Error" configurations_url [] "upstream failure"
    (Malformed "Expecting value: line 1 column 1 (char 0)").

Definition empty_listing : response :=
  mk_response 200 "OK" configurations_url [] "<empty listing>"
    (Parsed (JObj [("resources", JArr [])])).

(** A details document whose nested model name is empty and whose
    configuration name is not. *)
Definition details_empty_model : json :=
  JObj [("configurationId", JStr "c2");
        ("configurationName", JStr "gpt-4o");
        ("details",
         JObj [("resources",
                JObj [("backend_details",
                       JObj [("model", JObj [("name", JStr "")])])])])].

(** A details document without the nested path. *)
Definition details_flat : json :=
  JObj [("configurationId", JStr "c2"); ("configurationName", JStr "gpt-4o")].

Definition config_with_tokens : json :=
  JObj [("secret_authentication_tokens", JArr [JStr "sk-from-config"; JStr "sk-other"])].

Definition config_without_tokens : json :=
  JObj [("port", JNum 4337)].

End Sample.

(** * Vocabulary of the further properties *)

Module Notions.
Import Py Http Run More Spec.

(** The request of [get_deployment_details]. *)
Definition details_request (w : World) (base_url token deployment_id resource_group : json)
    : request :=
  mk_request GET (fmt w base_url ++ "/v2/lm/deployments/" ++ fmt w deployment_id)
    (FindOpus.bearer_headers w token resource_group) None None.

(** The [requests] exception a call ends with, if any: the one the
    transport raised, the HTTP error of a 4xx or 5xx status, or the error
    of a body that is not JSON. *)
Definition failure_of (w : World) (r : request) : option exn :=
  match send w r with
  | Failed e => if is_request_exception e then Some e else None
  | Responded resp =>
      if is_error_status (status_code resp) then Some (http_error_of resp)
      else match body resp with
           | Malformed msg => Some (RequestException InvalidJSONError msg None)
           | Parsed _ => None
           end
  end.

(** [status == 'RUNNING'] of a deployment. *)
Definition is_running (deployment : json) : bool :=
  py_eq (field deployment "status") (JStr "RUNNING").

(** What an entry of [claude_deployments] satisfies. *)
Definition claude_entry (w : World) (base_url : json)
    (d : ListDeploymentsMain.DeploymentInfo) : Prop :=
  py_eq (ListDeploymentsMain.info_status d) (JStr "RUNNING") = true
  /\ ListDeploymentsMain.info_url d
     = FindOpus.deployment_url_of w base_url (ListDeploymentsMain.info_id d)
  /\ exists name, ListDeploymentsMain.info_model d = JStr name
                  /\ ListConfigurations.is_claude_name name = true.

(** What an entry of [other_deployments] satisfies. *)
Definition other_entry (w : World) (base_url : json)
    (d : ListDeploymentsMain.DeploymentInfo) : Prop :=
  py_eq (ListDeploymentsMain.info_status d) (JStr "RUNNING") = true
  /\ ListDeploymentsMain.info_url d
     = FindOpus.deployment_url_of w base_url (ListDeploymentsMain.info_id d)
  /\ exists name, ListDeploymentsMain.info_model d = JStr name
                  /\ ListConfigurations.is_claude_name name = false
                  /\ name <> "unknown".

Definition sorted_entry (w : World) (base_url : json)
    (e : ListDeploymentsMain.DeploymentInfo + ListDeploymentsMain.DeploymentInfo)
    : Prop :=
  match e with
  | inl d => claude_entry w base_url d
  | inr d => other_entry w base_url d
  end.

(** The probe was answered with status 200 and a JSON body. *)
Definition accepted (w : World) (r : request) : bool :=
  match send w r with
  | Responded resp =>
      (status_code resp =? 200)%Z
      && match body resp with Parsed _ => true | Malformed _ => false end
  | Failed _ => false
  end.

(** The probe request of [main] for a hard-coded deployment id. *)
Definition probe_of (w : World) (base_url token resource_group : json)
    (entry : string * string) : request :=
  TestDeployment.probe_request w base_url token (JStr (snd entry)) resource_group.

(** The dict [config_info] of a configuration that is an object. *)
Definition config_info_of (c : json) : ListConfigurationsMain.ConfigInfo :=
  match c with
  | JObj fields =>
      let value k default :=
        match dict_get k fields with Some v => v | None => default end in
      ListConfigurationsMain.mk_config_info
        (value "id" (JStr "")) (value "name" (JStr ""))
        (value "scenarioId" (JStr "")) (value "inputArtifactBindings" (JArr []))
  | _ => ListConfigurationsMain.mk_config_info JNull JNull JNull JNull
  end.

(** A configuration whose name is present and is not text. *)
Definition has_bad_name (c : json) : option json :=
  match c with
  | JObj fields =>
      match dict_get "name" fields with
      | Some (JStr _) | None => None
      | Some v => Some v
      end
  | _ => None
  end.

(** The progress line of the loop, printed for every twentieth index. *)
Definition progress (total : Z) (i : nat) : list event :=
  if (i mod 20 =? 0)%nat then
    [Printed ("  Processed " ++ str_of_Z (Z.of_nat i) ++ "/" ++ str_of_Z total
              ++ " deployments...")]
  else [].

(** The line [load_service_key] of [list_deployments.py] prints before it
    exits, for what opening the key file gave. *)
Definition key_file_error (w : World) (key_file : json) (o : opened) : option string :=
  match o with
  | NotFound _ => Some ("Error: " ++ fmt w key_file ++ " not found")
  | Loaded (Malformed _) => Some ("Error: " ++ fmt w key_file ++ " is not valid JSON")
  | _ => None
  end.

(** How many of the elements are RUNNING deployments. *)
Definition running_count (elements : list json) : nat :=
  List.length (filter is_running elements).

End Notions.

(** * Further concrete inputs *)

Module Cases.
Import Py Http Run More.

Definition running_deployment : json :=
  JObj [("id", JStr "d1"); ("configurationId", JStr "c1"); ("status", JStr "RUNNING")].

Definition stopped_deployment : json :=
  JObj [("id", JStr "d2"); ("configurationId", JStr "c2"); ("status", JStr "STOPPED")].

(** A details document of a Claude deployment. *)
Definition claude_details : json :=
  JObj [("configurationId", JStr "c1");
        ("configurationName", JStr "opus-config");
        ("details",
         JObj [("resources",
                JObj [("backend_details",
                       JObj [("model", JObj [("name", JStr "anthropic--claude-4.5-opus")])])])])].

Definition details_response : response :=
  mk_response 200 "OK" "https://api.example.com/v2/lm/deployments/d1" []
    "<details document>" (Parsed claude_details).

(** A [config.json] with two subaccounts. *)
Definition two_subaccounts : json :=
  JObj [("subAccounts",
         JObj [("first", JObj [("resource_group", JStr "default");
                               ("service_key_json", JStr "first.json")]);
               ("second", JObj [("resource_group", JStr "default");
                                ("service_key_json", JStr "second.json")])])].

(** A disk with that [config.json], the key file of the second subaccount
    and no key file for the first. *)
Definition disk_without_first_key : Disk :=
  mk_disk (fun p =>
    match p with
    | JStr "config.json" => Loaded (Parsed two_subaccounts)
    | JStr "second.json" => Loaded (Parsed Sample.service_key)
    | _ => NotFound "[Errno 2] No such file or directory"
    end).

(** A match of the correlation. *)
Definition a_match (id status : string) : FindOpus.ModelMatch :=
  FindOpus.mk_match (JStr id)
    ("https://api.example.com/v2/inference/deployments/" ++ id)
    (JStr status) (JStr "claude-4.5-opus-v1") (JStr "c1").

Definition other_info (id : string) : ListDeploymentsMain.DeploymentInfo :=
  ListDeploymentsMain.mk_info (JStr id)
    ("https://api.example.com/v2/inference/deployments/" ++ id)
    (JStr "RUNNING") (JStr "gpt-4o") (JStr "c2").

Definition ten_others : list ListDeploymentsMain.DeploymentInfo :=
  map other_info ["d01"; "d02"; "d03"; "d04"; "d05"; "d06"; "d07"; "d08"; "d09"; "d10"].

(** A configuration whose name is null. *)
Definition nameless : json := JObj [("id", JStr "c3"); ("name", JNull)].

(** A disk with the subaccount main and its key file. *)
Definition main_config : json :=
  JObj [("subAccounts",
         JObj [("main", JObj [("resource_group", JStr "default");
                              ("service_key_json", JStr "key.json")])])].

Definition main_disk : Disk :=
  mk_disk (fun p =>
    match p with
    | JStr "config.json" => Loaded (Parsed main_config)
    | JStr "key.json" => Loaded (Parsed Sample.service_key)
    | _ => NotFound "[Errno 2] No such file or directory"
    end).

(** A transport that grants the token and fails every other request with
    status 500. *)
Definition token_only : World :=
  Sample.world_with (fun r =>
    match req_method r with
    | POST =>
        if String.eqb (req_url r) Sample.token_url then Responded Sample.token_response
        else Responded Sample.server_error
    | GET => Responded Sample.listing_error
    end).

(** A transport that grants the token and answers the two listings of the
    scenario of the specification. *)
Definition scenario_world : World :=
  Sample.world_with (fun r =>
    match req_method r with
    | POST => Responded Sample.token_response
    | GET =>
        if String.eqb (req_url r) Sample.configurations_url then
          Responded (mk_response 200 "OK" Sample.configurations_url [] "<configurations>"
                       (Parsed (JObj [("resources", JArr Sample.configurations)])))
        else
          Responded (mk_response 200 "OK" "https://api.example.com/v2/lm/deployments" []
                       "<deployments>"
                       (Parsed (JObj [("resources", JArr Sample.deployments)])))
    end).

(** A transport that answers every request with the Claude details. *)
Definition details_world : World := Sample.answering details_response.

Definition two_deployments : json := JArr [running_deployment; stopped_deployment].

End Cases.

(** * Vocabulary of the driver's properties *)

Module Observed.
Import Py Http Run More Spec Shell.

(** What a run did, of one kind, in order. *)
Definition observe {X : Type} (pick : action -> list X) (acts : list action) : list X :=
  flat_map pick acts.

(** The requests a run sent. *)
Definition sent : list action -> list request :=
  observe (fun a => match a with Out (Sent r) => [r] | _ => [] end).

(** The processes a run started. *)
Definition started : list action -> list command :=
  observe (fun a => match a with Ran c => [c] | _ => [] end).

(** The texts a run wrote to the sync marker. *)
Definition marked : list action -> list string :=
  observe (fun a =>
             match a with
             | Wrote path content =>
                 if String.eqb path Driver.LAST_SYNC_FILE then [content] else []
             | _ => []
             end).

(** Every action of [p] is one of [Q], and [p] does not end the process. *)
Definition does_only {A : Type} (Q : action -> Prop) (p : script A) : Prop :=
  Forall Q (snd p) /\ forall code, fst p <> Exited code.

(** What the preparation of a run does: it prints and runs [git]. *)
Definition prepares (a : action) : Prop :=
  match a with
  | Out (Printed _) => True
  | Ran c => hd "" (argv c) = "git"
  | _ => False
  end.

(** What a test does on host [h]: it prints, sends, starts processes
    and saves its output under the output directory. *)
Definition tests (h : Host) (a : action) : Prop :=
  match a with
  | Wrote path _ => exists name, path = path_under h Driver.OUTPUT_DIR name
  | _ => True
  end.

(** What a run does when no test is asked for: it prints, runs [git]
    and writes the sync marker. *)
Definition idles (a : action) : Prop :=
  match a with
  | Out (Printed _) => True
  | Ran c => hd "" (argv c) = "git"
  | Wrote path _ => path = Driver.LAST_SYNC_FILE
  | _ => False
  end.

(** The token the driver finds on host [h]. *)
Definition token_of (h : Host) : result json :=
  Integration.get_auth_token (environ_token h) (config_json h).

(** What a test reports: a pass with its non-empty text and no error, or
    a failure with no text and its reason. *)
Definition is_report (r : bool * string * option string) : bool :=
  match r with
  | (true, content, None) => negb (String.eqb content "")
  | (false, EmptyString, Some _) => true
  | _ => false
  end.






(** The look-up of the CLI. *)
Definition cli_lookup (h : Host) : command :=
  mk_command [if String.eqb (platform h) "win32" then "where" else "which"; "claude"]
    None None.

(** The call of the CLI. *)
Definition cli_call (token : json) (prompt : string) : command :=
  mk_command ["claude"; "--print"; prompt]
    (Some [("ANTHROPIC_BASE_URL", JStr Driver.PROXY_URL);
           ("ANTHROPIC_AUTH_TOKEN", token);
           ("ANTHROPIC_MODEL", JStr "anthropic--claude-4-sonnet")])
    (Some 180%Z).

(** The commit the working tree is at, as [get_current_hash] reads it. *)
Definition current_hash_of (h : Host) : option string :=
  match run h (mk_command ["git"; "rev-parse"; "HEAD"] None None) with
  | Completed returncode stdout _ =>
      if (returncode =? 0)%Z then Some (strip stdout) else None
  | _ => None
  end.

(** Test outputs are not saved over the sync marker. *)
Definition outputs_apart (h : Host) : Prop :=
  forall name, path_under h Driver.OUTPUT_DIR name <> Driver.LAST_SYNC_FILE.

(** The program of a command. *)
Definition program (c : command) : string := hd "" (argv c).

(** Host [h] with [file] as its sync marker. *)
Definition with_marker (h : Host) (file : text_file) : Host :=
  mk_host (environ_token h) (config_json h) (platform h) (run h)
    (fun path => if String.eqb path Driver.LAST_SYNC_FILE then file else read_text h path)
    (write_text h) (mkdir h) (path_under h) (now_stamp h) (now_iso h).

End Observed.

(** * Concrete hosts *)

Module Hosts.
Import Py Http Run More Shell.

Definition runs (c : command) (args : list string) : bool :=
  if list_eq_dec string_dec (argv c) args then true else false.

(** A checkout at commit [0123456789abcdef] with the CLI installed. *)
Definition processes (c : command) : process_result :=
  if runs c ["git"; "rev-parse"; "HEAD"] then
    Completed 0 ("0123456789abcdef" ++ newline) ""
  else if String.eqb (hd "" (argv c)) "claude" then
    Completed 0 (" The changes look fine." ++ newline) ""
  else if runs c ["which"; "claude"] then
    Completed 0 ("/usr/local/bin/claude" ++ newline) ""
  else Completed 0 "" "".

Definition workstation : Host :=
  mk_host None Integration.NoFile "linux" processes
    (fun _ => Absent) (fun _ _ => None) (fun _ => None)
    (fun directory name => directory ++ "/" ++ name)
    "20250101_120000" "2025-01-01T12:00:00".

(** The same machine without the CLI. *)
Definition without_cli : Host :=
  mk_host None (Integration.Unreadable "Permission denied") "linux"
    (fun c => if runs c ["which"; "claude"] then Completed 1 "" ""
              else processes c)
    (fun _ => Absent) (fun _ _ => None) (fun _ => None)
    (fun directory name => directory ++ "/" ++ name)
    "20250101_120000" "2025-01-01T12:00:00".

(** The same machine with no room left for a file. *)
Definition full_disk : Host :=
  mk_host None Integration.NoFile "linux" processes
    (fun _ => Absent)
    (fun _ _ => Some (PyError OSError "[Errno 28] No space left on device"))
    (fun _ => None)
    (fun directory name => directory ++ "/" ++ name)
    "20250101_120000" "2025-01-01T12:00:00".

(** A proxy that answers every request with the test body. *)
Definition proxy : World := Sample.answering Sample.ok_response.

Definition default_token : json := JStr "sk-my-secret-key-123".

End Hosts.

(** * Properties *)

Import Py Http Run Spec.

(** ** Case and substring lemmas *)

Section CaseLemmas.




End CaseLemmas.




Example is_opus_name_hit : FindOpus.is_opus_name "Anthropic--Claude-4.5-OPUS" = true.
Proof. reflexivity. Qed.

Example is_opus_name_miss : FindOpus.is_opus_name "claude-4.5-sonnet" = false.
Proof. reflexivity. Qed.

Example is_claude_name_hit : ListConfigurations.is_claude_name "My-OPUS-config" = true.
Proof. reflexivity. Qed.

Example is_claude_name_miss : ListConfigurations.is_claude_name "gpt-4o" = false.
Proof. reflexivity. Qed.

(** ** Correlation *)

Section CorrelationLemmas.

Variable w : World.
Variable namePredicate : string -> bool.
Variable base_url : json.

Lemma get_of_dict (d : json) (k : string) :
  is_dict d = true -> get d k JNull = Ok (field d k).
Proof.
  destruct d; simpl; try discriminate.
  intros _. now destruct (dict_get k fields).
Qed.

Lemma is_configuration_dict (c : json) :
  is_configuration c = true -> is_dict c = true.
Proof. destruct c; simpl; congruence. Qed.

Lemma select_configs_total (configurations : list json) :
  forallb is_configuration configurations = true ->
  FindOpus.select_configs namePredicate configurations =
    Ok (map entry_of (filter (fun c => namePredicate (name_of c)) configurations)).
Proof.
  induction configurations as [|c rest IH]; simpl.
  - reflexivity.
  - rewrite andb_true_iff. intros [Hc Hrest].
    rewrite (IH Hrest). clear IH.
    destruct c as [ | | | | |fields]; simpl in Hc; try discriminate.
    unfold entry_of, field, name_of. simpl.
    destruct (dict_get "name" fields) as [[ | | |s| | ]|] eqn:Hname;
      try discriminate; simpl.
    + destruct (namePredicate s); simpl; [|reflexivity].
      rewrite Hname. now destruct (dict_get "id" fields).
    + destruct (namePredicate ""); simpl; [|reflexivity].
      rewrite Hname. now destruct (dict_get "id" fields).
Qed.

Lemma match_configs_total (D cid st : json) (opus_configs : list FindOpus.OpusConfig) :
  is_dict D = true ->
  FindOpus.match_configs w base_url D cid st opus_configs =
    Ok (map (fun oc =>
               FindOpus.mk_match (field D "id")
                 (FindOpus.deployment_url_of w base_url (field D "id")) st
                 (FindOpus.oc_name oc) (FindOpus.oc_id oc))
            (filter (fun oc => py_eq (FindOpus.oc_id oc) cid) opus_configs)).
Proof.
  intros HD. induction opus_configs as [|oc rest IH]; simpl.
  - reflexivity.
  - rewrite IH. destruct (py_eq (FindOpus.oc_id oc) cid); simpl.
    + now rewrite (get_of_dict _ _ HD).
    + reflexivity.
Qed.

Lemma matches_of_total (configurations : list json) (D : json) :
  is_dict D = true ->
  FindOpus.matches_of w base_url
    (map entry_of (filter (fun c => namePredicate (name_of c)) configurations)) D
  = Ok (matches_for w namePredicate base_url configurations D).
Proof.
  intros HD. unfold FindOpus.matches_of, matches_for.
  rewrite !(get_of_dict _ _ HD). simpl.
  rewrite (match_configs_total _ _ _ _ HD). f_equal.
  induction (filter (fun c => namePredicate (name_of c)) configurations)
    as [|C rest IH]; simpl.
  - reflexivity.
  - unfold ids_agree at 1. simpl.
    destruct (py_eq (field C "id") (field D "configurationId")); simpl;
      now rewrite IH.
Qed.

Lemma correlate_total (configurations deployments : list json) :
  forallb is_configuration configurations = true ->
  forallb is_deployment deployments = true ->
  FindOpus.correlate w namePredicate base_url configurations deployments =
    Ok (flat_map (matches_for w namePredicate base_url configurations) deployments).
Proof.
  intros Hc Hd. unfold FindOpus.correlate.
  rewrite (select_configs_total _ Hc). simpl.
  induction deployments as [|D rest IH]; simpl.
  - reflexivity.
  - simpl in Hd. apply andb_true_iff in Hd as [HD Hrest].
    rewrite (matches_of_total _ _ HD). simpl.
    now rewrite (IH Hrest).
Qed.


Lemma rbind_ok {A B : Type} (r : result A) (f : A -> result B) (b : B) :
  rbind r f = Ok b -> exists a, r = Ok a /\ f a = Ok b.
Proof. destruct r as [a|e]; simpl; [now exists a | discriminate]. Qed.

(** Every emitted match carries the URL derived from its own id, on
    every input on which the loops return. *)
Lemma match_configs_url (D cid st : json) (opus_configs : list FindOpus.OpusConfig)
    (found : list FindOpus.ModelMatch) :
  FindOpus.match_configs w base_url D cid st opus_configs = Ok found ->
  Forall (fun m => FindOpus.deployment_url m
                   = FindOpus.deployment_url_of w base_url (FindOpus.deployment_id m))
         found.
Proof.
  revert found. induction opus_configs as [|oc rest IH]; simpl; intros found H.
  - injection H as <-. constructor.
  - apply rbind_ok in H as (here & Hhere & H).
    apply rbind_ok in H as (others & Hothers & H). injection H as <-.
    apply Forall_app. split; [|now apply IH].
    destruct (py_eq (FindOpus.oc_id oc) cid).
    + apply rbind_ok in Hhere as (id & _ & Hhere). injection Hhere as <-.
      constructor; [reflexivity|constructor].
    + injection Hhere as <-. constructor.
Qed.

Lemma match_deployments_url (opus_configs : list FindOpus.OpusConfig)
    (deployments : list json) (found : list FindOpus.ModelMatch) :
  FindOpus.match_deployments w base_url opus_configs deployments = Ok found ->
  Forall (fun m => FindOpus.deployment_url m
                   = FindOpus.deployment_url_of w base_url (FindOpus.deployment_id m))
         found.
Proof.
  revert found. induction deployments as [|D rest IH]; simpl; intros found H.
  - injection H as <-. constructor.
  - apply rbind_ok in H as (here & Hhere & H).
    apply rbind_ok in H as (others & Hothers & H). injection H as <-.
    apply Forall_app. split; [|now apply IH].
    unfold FindOpus.matches_of in Hhere.
    apply rbind_ok in Hhere as (cid & _ & Hhere).
    apply rbind_ok in Hhere as (st & _ & Hhere).
    now apply match_configs_url in Hhere.
Qed.

End CorrelationLemmas.


(** The scenario of the specification: only [d1] is matched. *)
Example correlate_scenario :
  FindOpus.correlate Sample.offline (contains "opus") Sample.api_base
    Sample.configurations Sample.deployments
  = Ok [FindOpus.mk_match (JStr "d1")
          "https://api.example.com/v2/inference/deployments/d1"
          (JStr "RUNNING") (JStr "claude-4.5-opus-v1") (JStr "c1")].
Proof. reflexivity. Qed.


(** C6: a deployment whose configurationId equals the id of no
    configuration of the listing yields no match, and the correlation
    still returns: the result is the one obtained without that
    deployment, and nothing is raised or reported for it. *)
Theorem C6_dangling_deployment_excluded (w : World) (namePredicate : string -> bool)
    (base_url : json) (configurations before after : list json) (D : json) :
  forallb is_configuration configurations = true ->
  forallb is_deployment (before ++ D :: after) = true ->
  (forall C, In C configurations -> ids_agree C D = false) ->
  exists matches,
    FindOpus.correlate w namePredicate base_url configurations (before ++ D :: after)
      = Ok matches
    /\ FindOpus.correlate w namePredicate base_url configurations (before ++ after)
      = Ok matches
    /\ FindOpus.correlate w namePredicate base_url configurations [D] = Ok [].
Proof.
  intros Hc Hd Hno.
  rewrite forallb_app in Hd. simpl in Hd.
  apply andb_true_iff in Hd as [Hb Hd]. apply andb_true_iff in Hd as [HD Ha].
  assert (Hnone : matches_for w namePredicate base_url configurations D = []).
  { unfold matches_for.
    induction configurations as [|C rest IH]; simpl; [reflexivity|].
    simpl in Hc. apply andb_true_iff in Hc as [_ Hrest].
    assert (Hrest' : forall C', In C' rest -> ids_agree C' D = false)
      by (intros C' HC'; apply Hno; now right).
    destruct (namePredicate (name_of C)); simpl.
    - rewrite (Hno C (or_introl eq_refl)). now apply IH.
    - now apply IH. }
  exists (flat_map (matches_for w namePredicate base_url configurations) (before ++ after)).
  repeat split.
  - rewrite correlate_total; try assumption.
    + rewrite !flat_map_app. simpl. now rewrite Hnone.
    + rewrite forallb_app. simpl. now rewrite Hb, HD, Ha.
  - rewrite correlate_total; try assumption; [reflexivity|].
    rewrite forallb_app. now rewrite Hb, Ha.
  - rewrite correlate_total; try assumption.
    + simpl. now rewrite Hnone.
    + simpl. now rewrite HD.
Qed.

Lemma C6_dangling_deployment_excluded_witness :
  exists matches,
    FindOpus.correlate Sample.offline FindOpus.is_opus_name Sample.api_base
      Sample.configurations (Sample.deployments ++ Sample.dangling :: []) = Ok matches
    /\ FindOpus.correlate Sample.offline FindOpus.is_opus_name Sample.api_base
         Sample.configurations (Sample.deployments ++ []) = Ok matches
    /\ FindOpus.correlate Sample.offline FindOpus.is_opus_name Sample.api_base
         Sample.configurations [Sample.dangling] = Ok [].
Proof.
  apply (C6_dangling_deployment_excluded Sample.offline FindOpus.is_opus_name
           Sample.api_base Sample.configurations Sample.deployments [] Sample.dangling).
  - reflexivity.
  - reflexivity.
  - intros C [<-|[<-|[]]]; reflexivity.
Defined.

(** ** The probe *)

(** What the probe reports for what the transport did. *)
Lemma test_deployment_run (w : World) (service_key token deployment_id resource_group base_url : json) :
  FindOpus.api_base_url service_key = Ok base_url ->
  let request := TestDeployment.probe_request w base_url token deployment_id resource_group in
  TestDeployment.test_deployment w service_key token deployment_id resource_group =
    (Returned
       match send w request with
       | Responded r =>
           if (status_code r =? 200)%Z then
             match body r with
             | Parsed v =>
                 TestDeployment.success_result r
                   match header_get "x-model-id" (headers r) with
                   | Some h => h
                   | None => "unknown"
                   end v
             | Malformed msg => TestDeployment.error_result msg
             end
           else TestDeployment.status_result r
       | Failed e =>
           if is_timeout e then TestDeployment.error_result "Request timeout"
           else TestDeployment.error_result (exn_text e)
       end,
     [Printed (TestDeployment.newline ++ "  Testing deployment "
               ++ fmt w deployment_id ++ "...");
      Sent request]).
Proof.
  intros Hbase request. unfold TestDeployment.test_deployment.
  rewrite Hbase. cbn [lift bind ret app print].
  fold request. unfold http.
  destruct (send w request) as [r|e]; cbn [bind try_except app].
  - destruct (status_code r =? 200)%Z; cbn; [|reflexivity].
    unfold response_json. destruct (body r) as [v|msg]; cbn; reflexivity.
  - destruct (is_timeout e); reflexivity.
Qed.

(** A transport failure that is not a timeout is reported with the text
    of the exception: the report is the timeout report only when that
    text is literally the timeout message. *)
Lemma generic_failure_report (w : World) (service_key token deployment_id resource_group base_url : json) (e : exn) :
  FindOpus.api_base_url service_key = Ok base_url ->
  send w (TestDeployment.probe_request w base_url token deployment_id resource_group) = Failed e ->
  is_timeout e = false ->
  fst (TestDeployment.test_deployment w service_key token deployment_id resource_group)
    = Returned (TestDeployment.error_result (exn_text e))
  /\ (TestDeployment.error_result (exn_text e) = TestDeployment.error_result "Request timeout"
      <-> exn_text e = "Request timeout").
Proof.
  intros Hbase Hsend Hnot.
  rewrite (test_deployment_run _ _ _ _ _ _ Hbase). cbn [fst].
  rewrite Hsend, Hnot. split; [reflexivity|].
  unfold TestDeployment.error_result. split.
  - intros H. now injection H.
  - now intros ->.
Qed.




(** C8: a probe that receives status 200 with the body
    {content:[{type:text, text:test}]} returns a report whose success
    entry is True, and the text the report prints for it, taken from the
    first content block, is test. *)
Theorem C8_probe_success_text (w : World)
    (service_key token deployment_id resource_group base_url : json) (r : response) :
  FindOpus.api_base_url service_key = Ok base_url ->
  send w (TestDeployment.probe_request w base_url token deployment_id resource_group)
    = Responded r ->
  status_code r = 200%Z ->
  body r = Parsed (JObj [("content",
                          JArr [JObj [("type", JStr "text"); ("text", JStr "test")]])]) ->
  exists report,
    fst (TestDeployment.test_deployment w service_key token deployment_id resource_group)
      = Returned report
    /\ getitem report "success" = Ok (JBool true)
    /\ getitem report "status_code" = Ok (JNum 200)
    /\ TestDeployment.response_text report = Ok (Some (JStr "test")).
Proof.
  intros Hbase Hsend H200 Hbody.
  rewrite (test_deployment_run _ _ _ _ _ _ Hbase). cbn [fst].
  rewrite Hsend, H200, Hbody. cbn [Z.eqb Pos.eqb].
  eexists. split; [reflexivity|].
  unfold TestDeployment.success_result. rewrite H200.
  repeat split; reflexivity.
Qed.

Lemma C8_probe_success_text_witness :
  exists report,
    fst (TestDeployment.test_deployment (Sample.answering Sample.ok_response)
           Sample.service_key Sample.token Sample.deployment_id Sample.resource_group)
      = Returned report
    /\ getitem report "success" = Ok (JBool true)
    /\ getitem report "status_code" = Ok (JNum 200)
    /\ TestDeployment.response_text report = Ok (Some (JStr "test")).
Proof.
  apply (C8_probe_success_text (Sample.answering Sample.ok_response)
           Sample.service_key Sample.token Sample.deployment_id Sample.resource_group
           Sample.api_base Sample.ok_response); reflexivity.
Defined.

(** ** Token acquisition *)

(** The unchecked [get_token] of [find_opus_deployment.py],
    [list_configurations.py] and [test_deployment.py] sends its request
    whatever the service key holds. *)
Lemma unchecked_get_token_sends (w : World) (service_key : json) :
  is_dict service_key = true ->
  network_calls (FindOpus.get_token w service_key) = [token_request w service_key].
Proof.
  intros Hd. unfold FindOpus.get_token, network_calls.
  rewrite !(get_of_dict _ _ Hd). cbn [lift bind app].
  unfold http. fold (token_request w service_key).
  destruct (send w (token_request w service_key)) as [r|e]; cbn [bind app snd];
    [|reflexivity].
  destruct (raise_for_status r); cbn; [|reflexivity].
  destruct (response_json r) as [v|e]; cbn; [|reflexivity].
  destruct (getitem v "access_token"); reflexivity.
Qed.

Example unchecked_get_token_without_client_id :
  FindOpus.get_token (Sample.answering Sample.token_response) Sample.key_without_client_id
  = (Returned Sample.token,
     [Sent (mk_request POST Sample.token_url
              [("Authorization", JStr "Basic b64(None:secret)")] None None)]).
Proof. reflexivity. Qed.

(** C2, as the code has it: in [list_deployments.py], a service key whose
    client id, client secret or auth base URL is missing or empty makes
    [get_token] print an error and exit with status 1 without any network
    call; when the three are present the token request is sent, whatever
    the API base URL is. *)
Theorem C2_token_fields_checked_before_request (w : World) (service_key : json) :
  is_dict service_key = true ->
  (existsb blank (token_fields service_key) = true ->
   ListDeployments.get_token w service_key
     = (Exited 1, [Printed "Error: Missing required fields in service key"])
   /\ failed (ListDeployments.get_token w service_key) = true
   /\ network_calls (ListDeployments.get_token w service_key) = [])
  /\
  (existsb blank (token_fields service_key) = false ->
   network_calls (ListDeployments.get_token w service_key)
     = [token_request w service_key]).
Proof.
  intros Hd. unfold ListDeployments.get_token, network_calls, failed, token_fields.
  rewrite !(get_of_dict _ _ Hd). cbn [lift bind app existsb forallb].
  unfold blank.
  destruct (truthy (field service_key "clientid"));
    destruct (truthy (field service_key "clientsecret"));
    destruct (truthy (field service_key "url"));
    cbn [negb andb orb bind print sys_exit ret app fst snd];
    (split; [intros H|intros H]); try discriminate H;
    try (repeat split; reflexivity).
  unfold http. fold (token_request w service_key).
  destruct (send w (token_request w service_key)) as [r|e]; cbn [bind try_except app snd].
  - destruct (raise_for_status r) as [[]|e]; cbn.
    + destruct (response_json r) as [v|e]; cbn.
      * destruct (getitem v "access_token") as [t|e]; cbn; [reflexivity|].
        destruct (is_request_exception e); reflexivity.
      * destruct (is_request_exception e); reflexivity.
    + destruct (is_request_exception e); reflexivity.
  - destruct (is_request_exception e); reflexivity.
Qed.

Lemma C2_token_fields_checked_before_request_witness :
  (ListDeployments.get_token Sample.offline Sample.key_without_client_id
     = (Exited 1, [Printed "Error: Missing required fields in service key"])
   /\ failed (ListDeployments.get_token Sample.offline Sample.key_without_client_id) = true
   /\ network_calls (ListDeployments.get_token Sample.offline Sample.key_without_client_id) = [])
  /\ network_calls (ListDeployments.get_token Sample.offline Sample.key_without_api_url)
     = [token_request Sample.offline Sample.key_without_api_url].
Proof.
  split.
  - apply (C2_token_fields_checked_before_request Sample.offline
             Sample.key_without_client_id); reflexivity.
  - apply (C2_token_fields_checked_before_request Sample.offline
             Sample.key_without_api_url); reflexivity.
Defined.

(** C2 as stated fails: with the API base URL missing from the service
    key, the token acquisition of [list_deployments.py] performs the
    network call and returns the token. *)
Lemma C2_counterexample :
  existsb blank (credential_fields Sample.key_without_api_url) = true
  /\ ListDeployments.get_token (Sample.answering Sample.token_response)
       Sample.key_without_api_url
     = (Returned Sample.token,
        [Sent (mk_request POST Sample.token_url
                 [("Authorization", JStr "Basic b64(client:secret)")] None None)])
  /\ failed (ListDeployments.get_token (Sample.answering Sample.token_response)
               Sample.key_without_api_url) = false
  /\ network_calls (ListDeployments.get_token (Sample.answering Sample.token_response)
                      Sample.key_without_api_url) <> [].
Proof. repeat split; try reflexivity. discriminate. Qed.

(** ** Listings *)

Lemma raise_for_status_error (r : response) :
  is_error_status (status_code r) = true ->
  raise_for_status r = Err (http_error_of r).
Proof.
  unfold is_error_status, raise_for_status, http_error_of.
  intros H. apply andb_true_iff in H as [Hlo Hhi].
  rewrite Hlo. cbn [andb].
  destruct (status_code r <? 500)%Z eqn:H5; [reflexivity|].
  rewrite Hhi.
  assert (Hge : (500 <=? status_code r)%Z = true) by lia.
  now rewrite Hge.
Qed.

(** C3, as the code has it: a listing call that receives a 4xx or 5xx
    response never returns resources of that response.  The listers of
    [find_opus_deployment.py] raise the HTTP error, which carries the
    response; the lister of [list_deployments.py] prints the error and the
    body text and exits with status 1; the lister of
    [list_configurations.py] prints the same two lines and returns the
    empty list. *)
Theorem C3_listing_error_handling (w : World)
    (service_key token resource_group base_url : json) (rc rd : response) :
  FindOpus.api_base_url service_key = Ok base_url ->
  truthy base_url = true ->
  send w (listing_request w "/v2/lm/configurations" base_url token resource_group)
    = Responded rc ->
  is_error_status (status_code rc) = true ->
  send w (listing_request w "/v2/lm/deployments" base_url token resource_group)
    = Responded rd ->
  is_error_status (status_code rd) = true ->
  FindOpus.list_configurations w service_key token resource_group
    = (Raised (http_error_of rc),
       [Sent (listing_request w "/v2/lm/configurations" base_url token resource_group)])
  /\ FindOpus.list_deployments w service_key token resource_group
    = (Raised (http_error_of rd),
       [Sent (listing_request w "/v2/lm/deployments" base_url token resource_group)])
  /\ ListDeployments.list_deployments w service_key token resource_group
    = (Exited 1,
       [Sent (listing_request w "/v2/lm/deployments" base_url token resource_group);
        Printed ("Error listing deployments: " ++ exn_text (http_error_of rd));
        Printed ("Response: " ++ text rd)])
  /\ ListConfigurations.list_configurations w service_key token resource_group
    = (Returned (JArr []),
       [Sent (listing_request w "/v2/lm/configurations" base_url token resource_group);
        Printed ("Error listing configurations: " ++ exn_text (http_error_of rc));
        Printed ("Response: " ++ text rc)])
  /\ exn_response (http_error_of rc) = Some rc
  /\ exn_response (http_error_of rd) = Some rd.
Proof.
  intros Hbase Htruthy Hc Hcs Hd Hds.
  unfold FindOpus.list_configurations, FindOpus.list_deployments,
    FindOpus.list_resources, ListDeployments.list_deployments,
    ListConfigurations.list_configurations.
  rewrite Hbase. cbn [lift bind]. rewrite Htruthy. cbn [lift bind negb ret app].
  unfold http. unfold listing_request in Hc, Hd. rewrite Hc, Hd.
  cbn [bind try_except].
  rewrite (raise_for_status_error _ Hcs), (raise_for_status_error _ Hds).
  repeat split.
Qed.

Lemma C3_listing_error_handling_witness :
  FindOpus.list_configurations (Sample.answering Sample.listing_error)
      Sample.service_key Sample.token Sample.resource_group
    = (Raised (http_error_of Sample.listing_error),
       [Sent (listing_request (Sample.answering Sample.listing_error)
                "/v2/lm/configurations" Sample.api_base Sample.token Sample.resource_group)])
  /\ FindOpus.list_deployments (Sample.answering Sample.listing_error)
      Sample.service_key Sample.token Sample.resource_group
    = (Raised (http_error_of Sample.listing_error),
       [Sent (listing_request (Sample.answering Sample.listing_error)
                "/v2/lm/deployments" Sample.api_base Sample.token Sample.resource_group)])
  /\ ListDeployments.list_deployments (Sample.answering Sample.listing_error)
      Sample.service_key Sample.token Sample.resource_group
    = (Exited 1,
       [Sent (listing_request (Sample.answering Sample.listing_error)
                "/v2/lm/deployments" Sample.api_base Sample.token Sample.resource_group);
        Printed ("Error listing deployments: "
                 ++ exn_text (http_error_of Sample.listing_error));
        Printed ("Response: " ++ text Sample.listing_error)])
  /\ ListConfigurations.list_configurations (Sample.answering Sample.listing_error)
      Sample.service_key Sample.token Sample.resource_group
    = (Returned (JArr []),
       [Sent (listing_request (Sample.answering Sample.listing_error)
                "/v2/lm/configurations" Sample.api_base Sample.token Sample.resource_group);
        Printed ("Error listing configurations: "
                 ++ exn_text (http_error_of Sample.listing_error));
        Printed ("Response: " ++ text Sample.listing_error)])
  /\ exn_response (http_error_of Sample.listing_error) = Some Sample.listing_error
  /\ exn_response (http_error_of Sample.listing_error) = Some Sample.listing_error.
Proof.
  apply (C3_listing_error_handling (Sample.answering Sample.listing_error)
           Sample.service_key Sample.token Sample.resource_group Sample.api_base
           Sample.listing_error Sample.listing_error); reflexivity.
Defined.

(** A status outside 400-599 is not rejected: the resources of a 304
    response are returned as a listing. *)
Example status_304_not_rejected :
  fst (ListConfigurations.list_configurations
         (Sample.answering
            (mk_response 304 "Not Modified" Sample.configurations_url [] ""
               (Parsed (JObj [("resources", JArr Sample.configurations)]))))
         Sample.service_key Sample.token Sample.resource_group)
  = Returned (JArr Sample.configurations).
Proof. reflexivity. Qed.

(** The text of the error of a 500 response. *)
Example http_error_text :
  exn_text (http_error_of Sample.listing_error)
  = "500 Server Error: Internal Server Error for url: https://api.example.com/v2/lm/configurations".
Proof. reflexivity. Qed.

(** C3 as stated fails: on a 500 response the lister of
    [list_configurations.py] returns the empty list, the value it returns
    for a listing without resources. *)
Lemma C3_counterexample :
  status_code Sample.listing_error = 500%Z
  /\ fst (ListConfigurations.list_configurations (Sample.answering Sample.listing_error)
            Sample.service_key Sample.token Sample.resource_group)
     = Returned (JArr [])
  /\ failed (ListConfigurations.list_configurations (Sample.answering Sample.listing_error)
               Sample.service_key Sample.token Sample.resource_group) = false
  /\ fst (ListConfigurations.list_configurations (Sample.answering Sample.empty_listing)
            Sample.service_key Sample.token Sample.resource_group)
     = Returned (JArr []).
Proof. repeat split. Qed.

(** ** Model identity *)

Lemma py_eq_text (v : json) (s : string) :
  py_eq v (JStr s) = true -> v = JStr s.
Proof.
  destruct v; simpl; try discriminate.
  intros H. apply String.eqb_eq in H. now subst.
Qed.

Lemma extract_model_name_shaped (details : json) :
  well_shaped details = true ->
  ListDeployments.extract_model_name details =
    Ok match nested_name details with
       | Some name =>
           if py_eq name (JStr "unknown") then configuration_fallback details
           else name
       | None => configuration_fallback details
       end.
Proof.
  destruct details as [ | | | | |fs]; try discriminate.
  unfold well_shaped, ListDeployments.extract_model_name,
    ListDeployments.nested_model_name, nested_name, configuration_fallback,
    field, get, key_in, getitem, dict_has.
  destruct (dict_get "configurationId" fs); cbn [rbind];
  (destruct (dict_get "details" fs) as [[ | | | | |ds]|]; try discriminate; cbn [rbind];
   [ destruct (dict_get "resources" ds) as [[ | | | | |rs]|]; try discriminate; cbn [rbind];
     [ destruct (dict_get "backend_details" rs) as [[ | | | | |bs]|];
       try discriminate; cbn [rbind];
       [ destruct (dict_get "model" bs) as [[ | | | | |ms]|];
         try discriminate; cbn [rbind];
         [ destruct (dict_get "name" ms) as [name|]; try discriminate; cbn [rbind];
           intros _;
           destruct (py_eq name (JStr "unknown")) eqn:Hunk;
           [ apply py_eq_text in Hunk; subst name | ] | intros _ ]
       | intros _ ]
     | intros _ ]
   | intros _ ]);
  cbn [py_eq String.eqb Ascii.eqb Bool.eqb rbind];
  destruct (dict_get "configurationName" fs) as [cfg|]; cbn [rbind truthy];
  try destruct (truthy cfg); reflexivity.
Qed.

(** C4, as the code has it: there is no single chain over the three
    sources.  On a well shaped details document, [list_deployments.py]
    takes the nested backend model name whenever it is present, empty or
    not, and turns to the configuration name (when non-empty, else
    unknown) only when the nested name is absent or is the text unknown;
    it reads no response header.  The probe of [test_deployment.py]
    reports the x-model-id header when the response has one, empty or
    not, and unknown otherwise; it reads neither of the other two. *)
Theorem C4_model_identity_sources (w : World) (details : json)
    (service_key token deployment_id resource_group base_url : json)
    (r : response) (answer : json) :
  well_shaped details = true ->
  FindOpus.api_base_url service_key = Ok base_url ->
  send w (TestDeployment.probe_request w base_url token deployment_id resource_group)
    = Responded r ->
  status_code r = 200%Z ->
  body r = Parsed answer ->
  ListDeployments.extract_model_name details =
    Ok match nested_name details with
       | Some name =>
           if py_eq name (JStr "unknown") then configuration_fallback details
           else name
       | None => configuration_fallback details
       end
  /\ exists report,
       fst (TestDeployment.test_deployment w service_key token deployment_id resource_group)
         = Returned report
       /\ getitem report "model_header" =
            Ok (JStr match header_get "x-model-id" (headers r) with
                     | Some h => h
                     | None => "unknown"
                     end).
Proof.
  intros Hshape Hbase Hsend H200 Hbody. split.
  - now apply extract_model_name_shaped.
  - rewrite (test_deployment_run _ _ _ _ _ _ Hbase). cbn [fst].
    rewrite Hsend, H200, Hbody. cbn [Z.eqb Pos.eqb].
    eexists. split; reflexivity.
Qed.

Lemma C4_model_identity_sources_witness :
  ListDeployments.extract_model_name Sample.details_flat = Ok (JStr "gpt-4o")
  /\ exists report,
       fst (TestDeployment.test_deployment (Sample.answering Sample.ok_response)
              Sample.service_key Sample.token Sample.deployment_id Sample.resource_group)
         = Returned report
       /\ getitem report "model_header" = Ok (JStr "unknown").
Proof.
  apply (C4_model_identity_sources (Sample.answering Sample.ok_response)
           Sample.details_flat
           Sample.service_key Sample.token Sample.deployment_id Sample.resource_group
           Sample.api_base Sample.ok_response Sample.test_body); reflexivity.
Defined.

(** C4 as stated fails: for a details document whose nested model name is
    empty and whose configuration name is gpt-4o, the first non-empty
    candidate is gpt-4o, and the code reports the empty name. *)
Lemma C4_counterexample :
  ListDeployments.extract_model_name Sample.details_empty_model = Ok (JStr "")
  /\ claimed_model_identity "" Sample.details_empty_model = "gpt-4o"
  /\ ListDeployments.extract_model_name Sample.details_empty_model
     <> Ok (JStr (claimed_model_identity "" Sample.details_empty_model)).
Proof. repeat split. discriminate. Qed.

(** ** The proxy token *)

(** C10, as the code has it: [get_auth_token] returns the environment
    value when it is set and non-empty, whatever the config file is;
    otherwise the first entry of secret_authentication_tokens when
    config.json holds an object with a non-empty list there; the constant
    sk-my-secret-key-123 when the file does not exist or the list is
    absent or empty; and it raises when the file exists but cannot be
    read or is not JSON. *)
Theorem C10_auth_token_precedence (c : ascii) (t : string) (config : Integration.config_file)
    (env_token : option string)
    (with_tokens without_tokens : list (string * json))
    (first : json) (others : list json) (msg : string) :
  env_blank env_token = true ->
  dict_get "secret_authentication_tokens" with_tokens = Some (JArr (first :: others)) ->
  (dict_get "secret_authentication_tokens" without_tokens = None
   \/ dict_get "secret_authentication_tokens" without_tokens = Some (JArr [])) ->
  Integration.get_auth_token (Some (String c t)) config = Ok (JStr (String c t))
  /\ Integration.get_auth_token env_token
       (Integration.Readable (Parsed (JObj with_tokens))) = Ok first
  /\ Integration.get_auth_token env_token
       (Integration.Readable (Parsed (JObj without_tokens)))
     = Ok (JStr "sk-my-secret-key-123")
  /\ Integration.get_auth_token env_token Integration.NoFile
     = Ok (JStr "sk-my-secret-key-123")
  /\ Integration.get_auth_token env_token (Integration.Unreadable msg)
     = Err (PyError OSError msg)
  /\ Integration.get_auth_token env_token (Integration.Readable (Malformed msg))
     = Err (PyError JSONDecodeError msg).
Proof.
  intros Henv Hwith Hwithout.
  assert (Hfalsy : truthy match env_token with Some t' => JStr t' | None => JNull end = false).
  { destruct env_token as [t'|]; [|reflexivity].
    simpl in Henv. simpl. now rewrite Henv. }
  unfold Integration.get_auth_token. rewrite Hfalsy.
  repeat split; try reflexivity.
  - cbn [get rbind]. now rewrite Hwith.
  - cbn [get rbind]. now destruct Hwithout as [-> | ->].
Qed.

Lemma C10_auth_token_precedence_witness :
  Integration.get_auth_token (Some "sk-env") Integration.NoFile = Ok (JStr "sk-env")
  /\ Integration.get_auth_token None
       (Integration.Readable (Parsed Sample.config_with_tokens)) = Ok (JStr "sk-from-config")
  /\ Integration.get_auth_token None
       (Integration.Readable (Parsed Sample.config_without_tokens))
     = Ok (JStr "sk-my-secret-key-123")
  /\ Integration.get_auth_token None Integration.NoFile
     = Ok (JStr "sk-my-secret-key-123")
  /\ Integration.get_auth_token None (Integration.Unreadable "Permission denied")
     = Err (PyError OSError "Permission denied")
  /\ Integration.get_auth_token None (Integration.Readable (Malformed "Permission denied"))
     = Err (PyError JSONDecodeError "Permission denied").
Proof.
  apply (C10_auth_token_precedence "s"%char "k-env" Integration.NoFile None
           [("secret_authentication_tokens", JArr [JStr "sk-from-config"; JStr "sk-other"])]
           [("port", JNum 4337)]
           (JStr "sk-from-config") [JStr "sk-other"] "Permission denied").
  - reflexivity.
  - reflexivity.
  - left. reflexivity.
Defined.

(** C10 as stated fails: with the variable unset and a config.json that
    is not JSON the lookup raises; with the variable set to the empty
    text it returns the entry of the config file, not the variable. *)
Lemma C10_counterexample :
  Integration.get_auth_token None
      (Integration.Readable (Malformed "Expecting value: line 1 column 1 (char 0)"))
    = Err (PyError JSONDecodeError "Expecting value: line 1 column 1 (char 0)")
  /\ Integration.get_auth_token (Some "")
       (Integration.Readable (Parsed Sample.config_with_tokens))
     = Ok (JStr "sk-from-config")
  /\ Integration.get_auth_token (Some "")
       (Integration.Readable (Parsed Sample.config_with_tokens))
     <> Ok (JStr "").
Proof. repeat split. discriminate. Qed.

(** ** The derived URL *)

(** C7: the derived URL of a deployment is the API base URL, then
    /v2/inference/deployments/, then the deployment id: this is the URL of
    every match [find_opus_deployment.py] emits and the URL the probe of
    [test_deployment.py] posts to; for the base https://api.example.com
    and the id d0c56b8d3578bd1b it is
    https://api.example.com/v2/inference/deployments/d0c56b8d3578bd1b. *)
Theorem C7_deployment_url (w : World) (b d : string)
    (service_key token resource_group : json)
    (namePredicate : string -> bool) (configurations deployments : list json)
    (matches : list FindOpus.ModelMatch) :
  FindOpus.api_base_url service_key = Ok (JStr b) ->
  FindOpus.correlate w namePredicate (JStr b) configurations deployments = Ok matches ->
  FindOpus.deployment_url_of w (JStr b) (JStr d)
    = b ++ "/v2/inference/deployments/" ++ d
  /\ FindOpus.deployment_url_of w (JStr "https://api.example.com")
       (JStr "d0c56b8d3578bd1b")
    = "https://api.example.com/v2/inference/deployments/d0c56b8d3578bd1b"
  /\ (forall m id, In m matches -> FindOpus.deployment_id m = JStr id ->
        FindOpus.deployment_url m = b ++ "/v2/inference/deployments/" ++ id)
  /\ map req_url
       (network_calls (TestDeployment.test_deployment w service_key token (JStr d)
                         resource_group))
     = [b ++ "/v2/inference/deployments/" ++ d].
Proof.
  intros Hbase Hcorrelate. repeat split.
  - intros m id Hm Hid.
    unfold FindOpus.correlate in Hcorrelate.
    apply rbind_ok in Hcorrelate as (selected & _ & Hmatches).
    apply match_deployments_url in Hmatches.
    rewrite Forall_forall in Hmatches.
    rewrite (Hmatches m Hm), Hid. reflexivity.
  - unfold network_calls.
    now rewrite (test_deployment_run _ _ _ _ _ _ Hbase).
Qed.

Lemma C7_deployment_url_witness :
  FindOpus.deployment_url_of Sample.offline (JStr "https://api.example.com")
      (JStr "d0c56b8d3578bd1b")
    = "https://api.example.com" ++ "/v2/inference/deployments/" ++ "d0c56b8d3578bd1b"
  /\ FindOpus.deployment_url_of Sample.offline (JStr "https://api.example.com")
       (JStr "d0c56b8d3578bd1b")
    = "https://api.example.com/v2/inference/deployments/d0c56b8d3578bd1b"
  /\ (forall m id,
        In m [FindOpus.mk_match (JStr "d1")
                "https://api.example.com/v2/inference/deployments/d1"
                (JStr "RUNNING") (JStr "claude-4.5-opus-v1") (JStr "c1")] ->
        FindOpus.deployment_id m = JStr id ->
        FindOpus.deployment_url m
          = "https://api.example.com" ++ "/v2/inference/deployments/" ++ id)
  /\ map req_url
       (network_calls (TestDeployment.test_deployment Sample.offline Sample.service_key
                         Sample.token (JStr "d0c56b8d3578bd1b") Sample.resource_group))
     = ["https://api.example.com" ++ "/v2/inference/deployments/" ++ "d0c56b8d3578bd1b"].
Proof.
  apply (C7_deployment_url Sample.offline "https://api.example.com" "d0c56b8d3578bd1b"
           Sample.service_key Sample.token Sample.resource_group
           FindOpus.is_opus_name Sample.configurations Sample.deployments);
    reflexivity.
Defined.

(** * Further properties *)

Import More Notions.

(** ** How a call ends *)

Lemma raise_for_status_ok (r : response) :
  is_error_status (status_code r) = false -> raise_for_status r = Ok tt.
Proof.
  unfold is_error_status, raise_for_status. intros H.
  destruct (400 <=? status_code r)%Z eqn:Hlo; cbn [andb] in *.
  - rewrite H.
    destruct (status_code r <? 500)%Z eqn:H5; cbn [andb]; [lia|].
    now rewrite andb_false_r.
  - destruct (500 <=? status_code r)%Z eqn:H5; [lia|reflexivity].
Qed.

(** The request, the status check and the parse, followed by [k]: a
    [requests] failure at any of the three is what the block raises. *)
Lemma fetch_failure {A : Type} (w : World) (req : request) (k : json -> prog A)
    (e : exn) :
  failure_of w req = Some e ->
  (response <- http w req ;;
   lift (raise_for_status response) ;;;
   parsed <- lift (response_json response) ;;
   k parsed)%prog
  = (Raised e, [Sent req]).
Proof.
  unfold failure_of, http. intros H.
  destruct (send w req) as [r|e0]; cbn [bind].
  - destruct (is_error_status (status_code r)) eqn:Hs.
    + injection H as <-. now rewrite (raise_for_status_error _ Hs).
    + rewrite (raise_for_status_ok _ Hs). cbn [lift bind]. unfold response_json.
      destruct (body r) as [v|msg]; [discriminate|].
      injection H as <-. reflexivity.
  - destruct (is_request_exception e0); [|discriminate].
    now injection H as <-.
Qed.

Lemma fetch_failure_plain (w : World) (req : request) (e : exn) :
  failure_of w req = Some e ->
  (response <- http w req ;;
   lift (raise_for_status response) ;;;
   lift (response_json response))%prog
  = (Raised e, [Sent req]).
Proof.
  unfold failure_of, http. intros H.
  destruct (send w req) as [r|e0]; cbn [bind].
  - destruct (is_error_status (status_code r)) eqn:Hs.
    + injection H as <-. now rewrite (raise_for_status_error _ Hs).
    + rewrite (raise_for_status_ok _ Hs). cbn [lift bind]. unfold response_json.
      destruct (body r) as [v|msg]; [discriminate|].
      injection H as <-. reflexivity.
  - destruct (is_request_exception e0); [|discriminate].
    now injection H as <-.
Qed.

Lemma fetch_success {A : Type} (w : World) (req : request) (k : json -> prog A)
    (r : response) (v : json) :
  send w req = Responded r ->
  is_error_status (status_code r) = false ->
  body r = Parsed v ->
  (response <- http w req ;;
   lift (raise_for_status response) ;;;
   parsed <- lift (response_json response) ;;
   k parsed)%prog
  = (fst (k v), Sent req :: snd (k v)).
Proof.
  intros Hsend Hs Hbody. unfold http. rewrite Hsend. cbn [bind].
  rewrite (raise_for_status_ok _ Hs). cbn [lift bind]. unfold response_json.
  rewrite Hbody. cbn [lift bind app]. now destruct (k v).
Qed.

Lemma failure_is_request_exception (w : World) (req : request) (e : exn) :
  failure_of w req = Some e -> is_request_exception e = true.
Proof.
  unfold failure_of.
  destruct (send w req) as [r|e0].
  - destruct (is_error_status (status_code r)).
    + now intros [= <-].
    + destruct (body r); [discriminate|]. now intros [= <-].
  - destruct (is_request_exception e0) eqn:He; [|discriminate]. now intros [= <-].
Qed.

(** ** Token acquisition and the detail lookup on failure *)

Lemma details_on_failure (w : World)
    (service_key token deployment_id resource_group base_url : json) (e : exn) :
  FindOpus.api_base_url service_key = Ok base_url ->
  failure_of w (details_request w base_url token deployment_id resource_group) = Some e ->
  ListDeployments.get_deployment_details w service_key token deployment_id resource_group
    = (Returned (JObj []),
       [Sent (details_request w base_url token deployment_id resource_group)]).
Proof.
  intros Hbase He.
  pose proof (failure_is_request_exception _ _ _ He) as Hreq.
  unfold ListDeployments.get_deployment_details.
  rewrite Hbase. cbn [lift bind app].
  fold (details_request w base_url token deployment_id resource_group).
  rewrite (fetch_failure_plain _ _ _ He).
  cbn [try_except]. rewrite Hreq. reflexivity.
Qed.

(** When the token request ends with a [requests] exception, the
    [get_token] of [list_deployments.py] prints it and exits with status
    1, while the unchecked [get_token] of the other scripts raises it;
    when the details request does, [get_deployment_details] returns the
    empty dict.  Each has sent its one request. *)
Theorem requests_failure_handling (w : World)
    (service_key token deployment_id resource_group base_url : json) (e e' : exn) :
  is_dict service_key = true ->
  existsb blank (token_fields service_key) = false ->
  FindOpus.api_base_url service_key = Ok base_url ->
  failure_of w (token_request w service_key) = Some e ->
  failure_of w (details_request w base_url token deployment_id resource_group)
    = Some e' ->
  ListDeployments.get_token w service_key
    = (Exited 1, [Sent (token_request w service_key);
                  Printed ("Error getting token: " ++ exn_text e)])
  /\ FindOpus.get_token w service_key
    = (Raised e, [Sent (token_request w service_key)])
  /\ ListDeployments.get_deployment_details w service_key token deployment_id
       resource_group
    = (Returned (JObj []),
       [Sent (details_request w base_url token deployment_id resource_group)]).
Proof.
  intros Hd Hfields Hbase He He'.
  pose proof (failure_is_request_exception _ _ _ He) as Hreq.
  rewrite (details_on_failure _ _ _ _ _ _ _ Hbase He').
  unfold ListDeployments.get_token, FindOpus.get_token.
  rewrite !(get_of_dict _ _ Hd). cbn [lift bind app].
  unfold token_fields, blank in Hfields. cbn [existsb] in Hfields.
  apply orb_false_iff in Hfields as [H1 Hfields].
  apply orb_false_iff in Hfields as [H2 Hfields].
  apply orb_false_iff in Hfields as [H3 _].
  apply negb_false_iff in H1, H2, H3.
  cbn [forallb]. rewrite H1, H2, H3. cbn [andb negb ret bind app].
  fold (token_request w service_key).
  rewrite !(fetch_failure _ _ _ _ He).
  split; [|split].
  - cbn [try_except]. rewrite Hreq. reflexivity.
  - reflexivity.
  - reflexivity.
Qed.

Lemma requests_failure_handling_witness :
  ListDeployments.get_token (Sample.answering Sample.listing_error) Sample.service_key
    = (Exited 1,
       [Sent (token_request (Sample.answering Sample.listing_error) Sample.service_key);
        Printed ("Error getting token: "
                 ++ exn_text (http_error_of Sample.listing_error))])
  /\ FindOpus.get_token (Sample.answering Sample.listing_error) Sample.service_key
    = (Raised (http_error_of Sample.listing_error),
       [Sent (token_request (Sample.answering Sample.listing_error) Sample.service_key)])
  /\ ListDeployments.get_deployment_details (Sample.answering Sample.listing_error)
       Sample.service_key Sample.token Sample.deployment_id Sample.resource_group
    = (Returned (JObj []),
       [Sent (details_request (Sample.answering Sample.listing_error) Sample.api_base
                Sample.token Sample.deployment_id Sample.resource_group)]).
Proof.
  apply (requests_failure_handling (Sample.answering Sample.listing_error)
           Sample.service_key Sample.token Sample.deployment_id Sample.resource_group
           Sample.api_base
           (http_error_of Sample.listing_error) (http_error_of Sample.listing_error));
    reflexivity.
Defined.

(** When the token response is accepted and its body is a JSON object,
    both [get_token] return the value under access_token, whatever its
    type, and raise [KeyError] when the key is absent: the exit of
    [list_deployments.py] covers [requests] exceptions only. *)
Theorem token_is_the_access_token_entry (w : World) (service_key : json)
    (r : response) (fields : list (string * json)) :
  is_dict service_key = true ->
  existsb blank (token_fields service_key) = false ->
  send w (token_request w service_key) = Responded r ->
  is_error_status (status_code r) = false ->
  body r = Parsed (JObj fields) ->
  let outcome :=
    match dict_get "access_token" fields with
    | Some token => Returned token
    | None => Raised (PyError KeyError "'access_token'")
    end in
  ListDeployments.get_token w service_key
    = (outcome, [Sent (token_request w service_key)])
  /\ FindOpus.get_token w service_key
    = (outcome, [Sent (token_request w service_key)]).
Proof.
  intros Hd Hfields Hsend Hs Hbody outcome. subst outcome.
  unfold ListDeployments.get_token, FindOpus.get_token.
  rewrite !(get_of_dict _ _ Hd). cbn [lift bind app].
  unfold token_fields, blank in Hfields. cbn [existsb] in Hfields.
  apply orb_false_iff in Hfields as [H1 Hfields].
  apply orb_false_iff in Hfields as [H2 Hfields].
  apply orb_false_iff in Hfields as [H3 _].
  apply negb_false_iff in H1, H2, H3.
  cbn [forallb]. rewrite H1, H2, H3. cbn [andb negb ret bind app].
  fold (token_request w service_key).
  rewrite !(fetch_success _ _ _ _ _ Hsend Hs Hbody).
  unfold getitem.
  destruct (dict_get "access_token" fields); split; reflexivity.
Qed.

Lemma token_is_the_access_token_entry_witness :
  ListDeployments.get_token (Sample.answering Sample.token_response) Sample.service_key
    = (Returned Sample.token,
       [Sent (token_request (Sample.answering Sample.token_response) Sample.service_key)])
  /\ FindOpus.get_token (Sample.answering Sample.token_response) Sample.service_key
    = (Returned Sample.token,
       [Sent (token_request (Sample.answering Sample.token_response) Sample.service_key)]).
Proof.
  apply (token_is_the_access_token_entry (Sample.answering Sample.token_response)
           Sample.service_key Sample.token_response
           [("access_token", Sample.token); ("expires_in", JNum 43199)]);
    reflexivity.
Defined.

(** ** No retry *)

Section Calls.

Context {A B : Type}.

Lemma requests_of_app (es es' : list event) :
  requests_of (es ++ es') = (requests_of es ++ requests_of es')%list.
Proof.
  induction es as [|[line|r] es IH]; simpl; [reflexivity|assumption|].
  now rewrite IH.
Qed.

Lemma calls_bind (p : prog A) (f : A -> prog B) :
  network_calls (bind p f)
  = (network_calls p
     ++ match fst p with
        | Returned a => network_calls (f a)
        | _ => []
        end)%list.
Proof.
  unfold network_calls, bind. destruct p as [[a|e|c] es]; cbn [fst snd].
  - destruct (f a) as [o es']. cbn [snd]. apply requests_of_app.
  - now rewrite app_nil_r.
  - now rewrite app_nil_r.
Qed.

Lemma calls_try (p : prog A) (catches : exn -> bool) (handler : exn -> prog A) :
  network_calls (try_except p catches handler)
  = (network_calls p
     ++ match fst p with
        | Raised e => if catches e then network_calls (handler e) else []
        | _ => []
        end)%list.
Proof.
  unfold network_calls, try_except. destruct p as [[a|e|c] es]; cbn [fst snd];
    try now rewrite app_nil_r.
  destruct (catches e); [|now rewrite app_nil_r].
  destruct (handler e) as [o es']. cbn [snd]. apply requests_of_app.
Qed.

Lemma quiet_bind (p : prog A) (f : A -> prog B) :
  network_calls p = [] -> (forall a, network_calls (f a) = []) ->
  network_calls (bind p f) = [].
Proof.
  intros Hp Hf. rewrite calls_bind, Hp. destruct (fst p); simpl; auto.
Qed.

Lemma few_bind_after_quiet (n : nat) (p : prog A) (f : A -> prog B) :
  network_calls p = [] ->
  (forall a, List.length (network_calls (f a)) <= n) ->
  List.length (network_calls (bind p f)) <= n.
Proof.
  intros Hp Hf. rewrite calls_bind, Hp. destruct (fst p); simpl; auto; lia.
Qed.

Lemma few_bind_then_quiet (n : nat) (p : prog A) (f : A -> prog B) :
  List.length (network_calls p) <= n ->
  (forall a, network_calls (f a) = []) ->
  List.length (network_calls (bind p f)) <= n.
Proof.
  intros Hp Hf. rewrite calls_bind.
  destruct (fst p); rewrite ?Hf, app_nil_r; assumption.
Qed.

Lemma few_try (n : nat) (p : prog A) (catches : exn -> bool) (handler : exn -> prog A) :
  List.length (network_calls p) <= n ->
  (forall e, network_calls (handler e) = []) ->
  List.length (network_calls (try_except p catches handler)) <= n.
Proof.
  intros Hp Hh. rewrite calls_try.
  destruct (fst p) as [a|e|c]; rewrite ?app_nil_r; try assumption.
  destruct (catches e); rewrite ?Hh, app_nil_r; assumption.
Qed.

Lemma quiet_lift (r : result A) : network_calls (lift r) = [].
Proof. now destruct r. Qed.

End Calls.

Lemma bind_returned {A B : Type} (a : A) (f : A -> prog B) :
  bind (Returned a, []) f = f a.
Proof. unfold bind. now destruct (f a). Qed.

Lemma calls_http (w : World) (r : request) : network_calls (http w r) = [r].
Proof. unfold network_calls, http. now destruct (send w r). Qed.

(** Steps that send nothing, and blocks that send one request. *)
Ltac quiet :=
  repeat first
    [ apply quiet_lift
    | reflexivity
    | apply quiet_bind; [|intros ?]
    | match goal with
      | |- network_calls (if ?c then _ else _) = [] => destruct c
      | |- network_calls (match ?x with _ => _ end) = [] => destruct x
      end ].

Ltac one_call :=
  repeat first
    [ rewrite calls_http; simpl; lia
    | apply few_bind_after_quiet; [solve [quiet]|intros ?]
    | apply few_bind_then_quiet; [|intros ?; solve [quiet]]
    | apply few_try; [|intros ?; solve [quiet]]
    | match goal with
      | |- List.length (network_calls (if ?c then _ else _)) <= _ => destruct c
      | |- List.length (network_calls (match ?x with _ => _ end)) <= _ => destruct x
      end
    | solve [ match goal with
              | |- List.length (network_calls ?p) <= _ =>
                  replace (network_calls p) with (@nil request) by (symmetry; quiet);
                  simpl; lia
              end ] ].

(** Whatever the service key, the arguments and the transport are, each
    network function sends at most one request: nothing is retried. *)
Theorem no_request_is_repeated (w : World)
    (service_key token deployment_id resource_group : json) :
  (List.length (network_calls (FindOpus.get_token w service_key)) <= 1
   /\ List.length (network_calls (ListDeployments.get_token w service_key)) <= 1)
  /\ (List.length (network_calls
        (FindOpus.list_configurations w service_key token resource_group)) <= 1
      /\ List.length (network_calls
           (FindOpus.list_deployments w service_key token resource_group)) <= 1
      /\ List.length (network_calls
           (ListConfigurations.list_configurations w service_key token resource_group)) <= 1
      /\ List.length (network_calls
           (ListDeployments.list_deployments w service_key token resource_group)) <= 1)
  /\ (List.length (network_calls
        (ListDeployments.get_deployment_details w service_key token deployment_id
           resource_group)) <= 1
      /\ List.length (network_calls
           (TestDeployment.test_deployment w service_key token deployment_id
              resource_group)) <= 1).
Proof.
  unfold FindOpus.get_token, ListDeployments.get_token,
    FindOpus.list_configurations, FindOpus.list_deployments, FindOpus.list_resources,
    ListConfigurations.list_configurations, ListDeployments.list_deployments,
    ListDeployments.get_deployment_details, TestDeployment.test_deployment.
  repeat split; one_call.
Qed.

(** ** Listings without an API URL, and accepted listings *)

(** With the API base URL missing or empty in the service key, the lister
    of [list_deployments.py] prints an error and exits with status 1
    without a request, while the listers of [find_opus_deployment.py] and
    [list_configurations.py] send their request to the URL formatted from
    the blank value: a missing URL gives None/v2/lm/.... *)
Theorem listing_with_blank_api_url (w : World)
    (service_key token resource_group base_url : json) :
  FindOpus.api_base_url service_key = Ok base_url ->
  truthy base_url = false ->
  ListDeployments.list_deployments w service_key token resource_group
    = (Exited 1, [Printed "Error: AI_API_URL not found in service key"])
  /\ map req_url (network_calls
       (FindOpus.list_configurations w service_key token resource_group))
     = [fmt w base_url ++ "/v2/lm/configurations"]
  /\ map req_url (network_calls
       (FindOpus.list_deployments w service_key token resource_group))
     = [fmt w base_url ++ "/v2/lm/deployments"]
  /\ map req_url (network_calls
       (ListConfigurations.list_configurations w service_key token resource_group))
     = [fmt w base_url ++ "/v2/lm/configurations"]
  /\ fmt w JNull ++ "/v2/lm/configurations" = "None/v2/lm/configurations".
Proof.
  intros Hbase Hblank.
  unfold ListDeployments.list_deployments, FindOpus.list_configurations,
    FindOpus.list_deployments, FindOpus.list_resources,
    ListConfigurations.list_configurations.
  rewrite Hbase. cbn [lift]. rewrite !bind_returned, Hblank.
  split; [reflexivity|].
  repeat split.
  - rewrite calls_bind, calls_http. cbn [map app req_url].
    unfold http. destruct (send w _); cbn [fst]; [|reflexivity].
    enough (H : forall r0 : response,
               network_calls (lift (raise_for_status r0) ;;;
                              parsed <- lift (response_json r0) ;;
                              lift (get parsed "resources" (JArr [])))%prog = [])
      by now rewrite H.
    intros r0. quiet.
  - rewrite calls_bind, calls_http. cbn [map app req_url].
    unfold http. destruct (send w _); cbn [fst]; [|reflexivity].
    enough (H : forall r0 : response,
               network_calls (lift (raise_for_status r0) ;;;
                              parsed <- lift (response_json r0) ;;
                              lift (get parsed "resources" (JArr [])))%prog = [])
      by now rewrite H.
    intros r0. quiet.
  - rewrite calls_try, calls_bind, calls_http. cbn [map app req_url].
    assert (Hq : forall r0 : response,
               network_calls (lift (raise_for_status r0) ;;;
                              parsed <- lift (response_json r0) ;;
                              lift (get parsed "resources" (JArr [])))%prog = [])
      by (intros r0; quiet).
    assert (Hh : forall e : exn,
               network_calls
                 (print ("Error listing configurations: " ++ exn_text e) ;;;
                  match exn_response e with
                  | Some r0 => print ("Response: " ++ text r0)
                  | None => ret tt
                  end ;;; ret (JArr []))%prog = [])
      by (intros e; quiet).
    unfold http at 1. destruct (send w _) as [r0|e0]; cbn [fst].
    + rewrite Hq. cbn [app map req_url].
      match goal with |- context [fst ?p] => destruct (fst p) as [a|e|c] end;
        try reflexivity.
      destruct (is_request_exception e); [now rewrite Hh|reflexivity].
    + cbn [app map req_url].
      match goal with |- context [fst ?p] => destruct (fst p) as [a|e|c] end;
        try reflexivity.
      destruct (is_request_exception e); [now rewrite Hh|reflexivity].
Qed.

Lemma listing_with_blank_api_url_witness :
  ListDeployments.list_deployments Sample.offline Sample.key_without_api_url
      Sample.token Sample.resource_group
    = (Exited 1, [Printed "Error: AI_API_URL not found in service key"])
  /\ map req_url (network_calls
       (FindOpus.list_configurations Sample.offline Sample.key_without_api_url
          Sample.token Sample.resource_group))
     = ["None/v2/lm/configurations"]
  /\ map req_url (network_calls
       (FindOpus.list_deployments Sample.offline Sample.key_without_api_url
          Sample.token Sample.resource_group))
     = ["None/v2/lm/deployments"]
  /\ map req_url (network_calls
       (ListConfigurations.list_configurations Sample.offline Sample.key_without_api_url
          Sample.token Sample.resource_group))
     = ["None/v2/lm/configurations"]
  /\ fmt Sample.offline JNull ++ "/v2/lm/configurations" = "None/v2/lm/configurations".
Proof.
  apply (listing_with_blank_api_url Sample.offline Sample.key_without_api_url
           Sample.token Sample.resource_group JNull); reflexivity.
Defined.

(** When the listing response is accepted and its body is a JSON object,
    every lister returns the value under resources as it is, and the
    empty list when the object has no such key. *)
Theorem accepted_listing_is_its_resources (w : World)
    (service_key token resource_group base_url : json)
    (rc rd : response) (configurations deployments : list (string * json)) :
  FindOpus.api_base_url service_key = Ok base_url ->
  truthy base_url = true ->
  send w (listing_request w "/v2/lm/configurations" base_url token resource_group)
    = Responded rc ->
  is_error_status (status_code rc) = false ->
  body rc = Parsed (JObj configurations) ->
  send w (listing_request w "/v2/lm/deployments" base_url token resource_group)
    = Responded rd ->
  is_error_status (status_code rd) = false ->
  body rd = Parsed (JObj deployments) ->
  let resources_of fields :=
    match dict_get "resources" fields with
    | Some v => v
    | None => JArr []
    end in
  fst (FindOpus.list_configurations w service_key token resource_group)
    = Returned (resources_of configurations)
  /\ fst (ListConfigurations.list_configurations w service_key token resource_group)
    = Returned (resources_of configurations)
  /\ fst (FindOpus.list_deployments w service_key token resource_group)
    = Returned (resources_of deployments)
  /\ fst (ListDeployments.list_deployments w service_key token resource_group)
    = Returned (resources_of deployments).
Proof.
  intros Hbase Htruthy Hc Hcs Hcb Hd Hds Hdb resources_of. subst resources_of.
  unfold FindOpus.list_configurations, FindOpus.list_deployments,
    FindOpus.list_resources, ListConfigurations.list_configurations,
    ListDeployments.list_deployments.
  rewrite Hbase. cbn [lift bind]. rewrite Htruthy. cbn [negb ret bind app].
  fold (listing_request w "/v2/lm/configurations" base_url token resource_group).
  fold (listing_request w "/v2/lm/deployments" base_url token resource_group).
  rewrite !(fetch_success _ _ _ _ _ Hc Hcs Hcb), !(fetch_success _ _ _ _ _ Hd Hds Hdb).
  unfold get.
  destruct (dict_get "resources" configurations);
    destruct (dict_get "resources" deployments); repeat split.
Qed.

Lemma accepted_listing_is_its_resources_witness :
  fst (FindOpus.list_configurations (Sample.answering Sample.empty_listing)
         Sample.service_key Sample.token Sample.resource_group)
    = Returned (JArr [])
  /\ fst (ListConfigurations.list_configurations (Sample.answering Sample.empty_listing)
            Sample.service_key Sample.token Sample.resource_group)
    = Returned (JArr [])
  /\ fst (FindOpus.list_deployments (Sample.answering Sample.empty_listing)
            Sample.service_key Sample.token Sample.resource_group)
    = Returned (JArr [])
  /\ fst (ListDeployments.list_deployments (Sample.answering Sample.empty_listing)
            Sample.service_key Sample.token Sample.resource_group)
    = Returned (JArr []).
Proof.
  apply (accepted_listing_is_its_resources (Sample.answering Sample.empty_listing)
           Sample.service_key Sample.token Sample.resource_group Sample.api_base
           Sample.empty_listing Sample.empty_listing
           [("resources", JArr [])] [("resources", JArr [])]); reflexivity.
Defined.

(** ** The deployment report of list_deployments.py *)

Lemma bind_returns {A B : Type} (p : prog A) (f : A -> prog B) (b : B)
    (evs : list event) :
  bind p f = (Returned b, evs) ->
  exists a es es', p = (Returned a, es) /\ f a = (Returned b, es')
                   /\ evs = (es ++ es')%list.
Proof.
  unfold bind. destruct p as [[a|e|c] es]; try discriminate.
  destruct (f a) as [o es'] eqn:Hf. intros [= -> <-].
  now exists a, es, es'.
Qed.

Lemma lift_returns {A : Type} (r : result A) (a : A) (evs : list event) :
  lift r = (Returned a, evs) -> r = Ok a /\ evs = [].
Proof. destruct r; simpl; intros [= <- <-] || discriminate; now split. Qed.

Lemma get_returns_dict (d : json) (k : string) (default v : json) :
  get d k default = Ok v -> is_dict d = true.
Proof. destruct d; simpl; congruence. Qed.

Lemma progress_step (total : Z) (i : nat) :
  (if (i mod 20 =? 0)%nat then
     print ("  Processed " ++ str_of_Z (Z.of_nat i) ++ "/" ++ str_of_Z total
            ++ " deployments...")
   else ret tt)
  = (Returned tt, progress total i).
Proof. unfold progress. now destruct (i mod 20 =? 0)%nat. Qed.

(** A deployment that is not RUNNING is passed over without a request; a
    RUNNING one whose details request ends with a [requests] exception is
    left out of both lists, with nothing printed about it beyond the
    progress line. *)
Theorem unreported_deployments (w : World)
    (service_key token resource_group base_url : json) (total : Z) (i j : nat)
    (stopped lost : json) (e : exn) :
  is_dict stopped = true ->
  is_running stopped = false ->
  is_dict lost = true ->
  is_running lost = true ->
  FindOpus.api_base_url service_key = Ok base_url ->
  failure_of w (details_request w base_url token (field lost "id") resource_group)
    = Some e ->
  ListDeploymentsMain.process_deployment w service_key token resource_group total
      (i, stopped)
    = (Returned [], progress total i)
  /\ ListDeploymentsMain.process_deployment w service_key token resource_group total
       (j, lost)
     = (Returned [],
        (progress total j
         ++ [Sent (details_request w base_url token (field lost "id") resource_group)])%list).
Proof.
  intros Hs Hstopped Hl Hlost Hbase He.
  unfold ListDeploymentsMain.process_deployment, is_running in *.
  rewrite !progress_step. split.
  - rewrite !(get_of_dict _ _ Hs). cbn [lift bind]. rewrite Hstopped.
    cbn [negb ret app]. now rewrite app_nil_r.
  - rewrite !(get_of_dict _ _ Hl). cbn [lift bind]. rewrite Hlost. cbn [negb].
    rewrite (details_on_failure _ _ _ _ _ _ _ Hbase He).
    rewrite Hbase. cbn.
    change (ListConfigurations.is_claude_name "unknown") with false.
    cbn. reflexivity.
Qed.

Lemma unreported_deployments_witness :
  ListDeploymentsMain.process_deployment (Sample.answering Sample.listing_error)
      Sample.service_key Sample.token Sample.resource_group 2 (0, Cases.stopped_deployment)
    = (Returned [], progress 2 0)
  /\ ListDeploymentsMain.process_deployment (Sample.answering Sample.listing_error)
       Sample.service_key Sample.token Sample.resource_group 2 (1, Cases.running_deployment)
     = (Returned [],
        (progress 2 1
         ++ [Sent (details_request (Sample.answering Sample.listing_error) Sample.api_base
                     Sample.token (field Cases.running_deployment "id")
                     Sample.resource_group)])%list).
Proof.
  apply (unreported_deployments (Sample.answering Sample.listing_error)
           Sample.service_key Sample.token Sample.resource_group Sample.api_base 2 0 1
           Cases.stopped_deployment Cases.running_deployment
           (http_error_of Sample.listing_error)); reflexivity.
Defined.

Lemma process_deployment_entries (w : World)
    (service_key token resource_group base_url : json) (total : Z)
    (indexed : nat * json)
    (out : list (ListDeploymentsMain.DeploymentInfo + ListDeploymentsMain.DeploymentInfo))
    (evs : list event) :
  FindOpus.api_base_url service_key = Ok base_url ->
  ListDeploymentsMain.process_deployment w service_key token resource_group total indexed
    = (Returned out, evs) ->
  Forall (sorted_entry w base_url) out.
Proof.
  intros Hbase H. destruct indexed as [i d].
  unfold ListDeploymentsMain.process_deployment in H.
  rewrite progress_step in H.
  apply bind_returns in H as ([] & es0 & es1 & _ & H & _).
  apply bind_returns in H as (deployment_id & es2 & es3 & _ & H & _).
  apply bind_returns in H as (status & es4 & es5 & _ & H & _).
  destruct (py_eq status (JStr "RUNNING")) eqn:Hrun; cbn [negb] in H.
  2: { injection H as <- _. constructor. }
  apply bind_returns in H as (details & es6 & es7 & _ & H & _).
  apply bind_returns in H as (config_params & es8 & es9 & _ & H & _).
  apply bind_returns in H as (model_name & es10 & es11 & _ & H & _).
  rewrite Hbase in H. cbn [lift] in H. rewrite bind_returned in H.
  apply bind_returns in H as (lowered & es12 & es13 & Hlow & H & _).
  apply lift_returns in Hlow as [Hlow _].
  destruct model_name; try discriminate. injection Hlow as ->.
  destruct (ListConfigurations.is_claude_name lowered) eqn:Hclaude.
  - injection H as <- _. constructor; [|constructor].
    cbn. repeat split; try assumption. now exists lowered.
  - destruct (py_eq (JStr lowered) (JStr "unknown")) eqn:Hunk; cbn [negb] in H.
    + injection H as <- _. constructor.
    + injection H as <- _. constructor; [|constructor].
      cbn. repeat split; try assumption. exists lowered.
      repeat split; try assumption.
      intros ->. cbn in Hunk. discriminate.
Qed.

Lemma for_each_forall {A B : Type} (P : B -> Prop) (body : A -> prog (list B))
    (xs : list A) (out : list B) (evs : list event) :
  (forall x ys es, body x = (Returned ys, es) -> Forall P ys) ->
  for_each body xs = (Returned out, evs) ->
  Forall P out.
Proof.
  intros Hbody. revert out evs.
  induction xs as [|x rest IH]; simpl; intros out evs H.
  - injection H as <- _. constructor.
  - apply bind_returns in H as (here & es & es' & Hhere & H & _).
    apply bind_returns in H as (others & es2 & es3 & Hothers & H & _).
    injection H as <- _. apply Forall_app. split.
    + eapply Hbody; eassumption.
    + eapply IH; eassumption.
Qed.

(** Whenever the loop over the deployments returns, every entry of
    [claude_deployments] is RUNNING, carries the URL derived from its id
    and has a model name that passes the name test, and every entry of
    [other_deployments] is RUNNING, carries its derived URL and has a
    model name that fails the test and is not unknown. *)
Theorem sorted_deployments_invariant (w : World)
    (service_key token resource_group base_url deployments : json)
    (entries : list (ListDeploymentsMain.DeploymentInfo + ListDeploymentsMain.DeploymentInfo))
    (evs : list event) :
  FindOpus.api_base_url service_key = Ok base_url ->
  ListDeploymentsMain.sort_deployments w service_key token resource_group deployments
    = (Returned entries, evs) ->
  Forall (claude_entry w base_url) (ListDeploymentsMain.claude_of entries)
  /\ Forall (other_entry w base_url) (ListDeploymentsMain.other_of entries).
Proof.
  intros Hbase H. unfold ListDeploymentsMain.sort_deployments in H.
  apply bind_returns in H as ([] & es0 & es1 & _ & H & _).
  apply bind_returns in H as (elements & es2 & es3 & _ & H & _).
  apply bind_returns in H as (total & es4 & es5 & _ & H & _).
  apply bind_returns in H as (found & es6 & es7 & Hloop & H & _).
  apply bind_returns in H as ([] & es8 & es9 & _ & H & _).
  injection H as <- _.
  assert (Hall : Forall (sorted_entry w base_url) found).
  { eapply for_each_forall; [|exact Hloop].
    intros x ys es Hx. eapply process_deployment_entries; eassumption. }
  clear Hloop. induction Hall as [|[d|d] rest Hd _ IH]; simpl.
  - split; constructor.
  - destruct IH. split; [constructor|]; assumption.
  - destruct IH. split; [|constructor]; assumption.
Qed.

Lemma sorted_deployments_invariant_witness :
  Forall (claude_entry Cases.details_world Sample.api_base)
    (ListDeploymentsMain.claude_of
       match fst (ListDeploymentsMain.sort_deployments Cases.details_world
                    Sample.service_key Sample.token Sample.resource_group
                    Cases.two_deployments) with
       | Returned entries => entries
       | _ => []
       end)
  /\ Forall (other_entry Cases.details_world Sample.api_base)
       (ListDeploymentsMain.other_of
          match fst (ListDeploymentsMain.sort_deployments Cases.details_world
                       Sample.service_key Sample.token Sample.resource_group
                       Cases.two_deployments) with
          | Returned entries => entries
          | _ => []
          end).
Proof.
  apply (sorted_deployments_invariant Cases.details_world
           Sample.service_key Sample.token Sample.resource_group Sample.api_base
           Cases.two_deployments _
           (snd (ListDeploymentsMain.sort_deployments Cases.details_world
                   Sample.service_key Sample.token Sample.resource_group
                   Cases.two_deployments))); reflexivity.
Defined.

(** The run of the witness: the RUNNING deployment is reported as a
    Claude model, the stopped one is not looked up. *)
Example sort_two_deployments :
  ListDeploymentsMain.sort_deployments Cases.details_world
    Sample.service_key Sample.token Sample.resource_group Cases.two_deployments
  = (Returned [inl (ListDeploymentsMain.mk_info (JStr "d1")
                      "https://api.example.com/v2/inference/deployments/d1"
                      (JStr "RUNNING") (JStr "anthropic--claude-4.5-opus") (JStr "c1"))],
     [Printed "Fetching deployment details (this may take a moment)...";
      Printed "  Processed 0/2 deployments...";
      Sent (details_request Cases.details_world Sample.api_base Sample.token
              (JStr "d1") Sample.resource_group);
      Printed "  Completed processing 2 deployments."]).
Proof. reflexivity. Qed.

Lemma details_calls (w : World)
    (service_key token deployment_id resource_group base_url : json) :
  FindOpus.api_base_url service_key = Ok base_url ->
  network_calls (ListDeployments.get_deployment_details w service_key token
                   deployment_id resource_group)
  = [details_request w base_url token deployment_id resource_group].
Proof.
  intros Hbase. unfold ListDeployments.get_deployment_details.
  rewrite Hbase. cbn [lift]. rewrite bind_returned.
  fold (details_request w base_url token deployment_id resource_group).
  rewrite calls_try, calls_bind, calls_http.
  assert (Hq : forall r0 : response,
             network_calls (lift (raise_for_status r0) ;;;
                            lift (response_json r0))%prog = [])
    by (intros r0; quiet).
  unfold http at 1.
  destruct (send w _) as [r0|e0]; cbn [fst]; rewrite ?Hq; cbn [app];
    match goal with |- context [fst ?p] => destruct (fst p) as [a|e|c] end;
    try reflexivity; now destruct (is_request_exception e).
Qed.

Lemma process_deployment_calls (w : World)
    (service_key token resource_group base_url : json) (total : Z) (i : nat) (d : json)
    (out : list (ListDeploymentsMain.DeploymentInfo + ListDeploymentsMain.DeploymentInfo))
    (evs : list event) :
  FindOpus.api_base_url service_key = Ok base_url ->
  ListDeploymentsMain.process_deployment w service_key token resource_group total (i, d)
    = (Returned out, evs) ->
  requests_of evs
  = if is_running d
    then [details_request w base_url token (field d "id") resource_group]
    else [].
Proof.
  intros Hbase H.
  assert (Hd : is_dict d = true).
  { unfold ListDeploymentsMain.process_deployment in H. rewrite progress_step in H.
    apply bind_returns in H as ([] & es0 & es1 & _ & H & _).
    apply bind_returns in H as (deployment_id & es2 & es3 & Hid & _).
    apply lift_returns in Hid as [Hid _]. eapply get_returns_dict. exact Hid. }
  change evs with (snd (Returned out, evs)). rewrite <- H.
  change (requests_of (snd ?p)) with (network_calls p).
  unfold ListDeploymentsMain.process_deployment in *.
  rewrite progress_step, !(get_of_dict _ _ Hd) in *. cbn [lift] in *.
  apply bind_returns in H as ([] & es0 & es1 & _ & H & _).
  rewrite !bind_returned in H.
  rewrite calls_bind. cbn [fst]. rewrite !bind_returned.
  replace (network_calls (Returned tt, progress total i)) with (@nil request)
    by (unfold network_calls, progress; cbn [snd]; now destruct (i mod 20 =? 0)%nat).
  cbn [app]. unfold is_running.
  destruct (py_eq (field d "status") (JStr "RUNNING")); cbn [negb] in *;
    [|reflexivity].
  apply bind_returns in H as (details & es6 & es7 & Hdetails & H & _).
  rewrite calls_bind, (details_calls _ _ _ _ _ _ Hbase), Hdetails. cbn [fst].
  match goal with
  | |- ([_] ++ ?rest)%list = [_] => replace rest with (@nil request)
  end; [reflexivity|].
  symmetry. quiet.
Qed.

Lemma for_each_calls {A B : Type} (calls : A -> list request)
    (body : A -> prog (list B)) (xs : list A) (out : list B) (evs : list event) :
  (forall x ys es, body x = (Returned ys, es) -> requests_of es = calls x) ->
  for_each body xs = (Returned out, evs) ->
  requests_of evs = flat_map calls xs.
Proof.
  intros Hbody. revert out evs.
  induction xs as [|x rest IH]; simpl; intros out evs H.
  - now injection H as _ <-.
  - apply bind_returns in H as (here & es & es' & Hhere & H & ->).
    apply bind_returns in H as (others & es2 & es3 & Hothers & H & ->).
    injection H as _ <-.
    rewrite !requests_of_app. simpl. rewrite app_nil_r.
    now rewrite (Hbody _ _ _ Hhere), (IH _ _ Hothers).
Qed.

Lemma running_calls (calls : json -> request) (start : nat) (elements : list json) :
  flat_map (fun indexed : nat * json =>
              if is_running (snd indexed) then [calls (snd indexed)] else [])
    (combine (seq start (List.length elements)) elements)
  = map calls (filter is_running elements).
Proof.
  revert start.
  induction elements as [|d rest IH]; intros start; simpl; [reflexivity|].
  rewrite IH. now destruct (is_running d).
Qed.

(** Whenever the loop over the deployments returns, the requests it has
    sent are the details requests of the RUNNING deployments, one for
    each, in the order of the listing and each for the id of its own
    deployment: a GET of the deployment's URL under /v2/lm/deployments/
    with the token and the resource group.  Nothing is asked about the
    other deployments. *)
Theorem one_details_request_per_running_deployment (w : World)
    (service_key token resource_group deployments base_url : json)
    (elements : list json)
    (entries : list (ListDeploymentsMain.DeploymentInfo + ListDeploymentsMain.DeploymentInfo))
    (evs : list event) :
  FindOpus.api_base_url service_key = Ok base_url ->
  iterate deployments = Ok elements ->
  ListDeploymentsMain.sort_deployments w service_key token resource_group deployments
    = (Returned entries, evs) ->
  requests_of evs
  = map (fun d =>
           mk_request GET
             (fmt w base_url ++ "/v2/lm/deployments/" ++ fmt w (field d "id"))
             [("Authorization", JStr ("Bearer " ++ fmt w token));
              ("AI-Resource-Group", resource_group)]
             None None)
      (filter is_running elements)
  /\ List.length (requests_of evs) = running_count elements.
Proof.
  intros Hbase Hiter H. unfold ListDeploymentsMain.sort_deployments in H.
  rewrite Hiter in H. cbn [lift print] in H.
  apply bind_returns in H as ([] & es0 & es1 & [= <-] & H & ->).
  rewrite bind_returned in H.
  apply bind_returns in H as (total & es4 & es5 & Htotal & H & ->).
  apply lift_returns in Htotal as [_ ->].
  apply bind_returns in H as (found & es6 & es7 & Hloop & H & ->).
  apply bind_returns in H as ([] & es8 & es9 & [= <-] & H & ->).
  injection H as _ <-.
  rewrite !requests_of_app. cbn [requests_of app]. rewrite app_nil_r.
  assert (Hcalls : forall x ys es,
            ListDeploymentsMain.process_deployment w service_key token resource_group
              total x = (Returned ys, es) ->
            requests_of es
            = if is_running (snd x)
              then [details_request w base_url token (field (snd x) "id") resource_group]
              else []).
  { intros [i d] ys es Hx. cbn [snd]. eapply process_deployment_calls; eassumption. }
  rewrite (for_each_calls _ _ _ _ _ Hcalls Hloop).
  unfold enumerate.
  rewrite (running_calls
             (fun d => details_request w base_url token (field d "id") resource_group)).
  split; [reflexivity|]. unfold running_count. apply length_map.
Qed.

Lemma one_details_request_per_running_deployment_witness :
  requests_of
    (snd (ListDeploymentsMain.sort_deployments Cases.details_world
            Sample.service_key Sample.token Sample.resource_group
            Cases.two_deployments))
  = map (fun d =>
           mk_request GET
             (fmt Cases.details_world Sample.api_base ++ "/v2/lm/deployments/"
              ++ fmt Cases.details_world (field d "id"))
             [("Authorization", JStr ("Bearer " ++ fmt Cases.details_world Sample.token));
              ("AI-Resource-Group", Sample.resource_group)]
             None None)
      (filter is_running [Cases.running_deployment; Cases.stopped_deployment])
  /\ List.length (requests_of
        (snd (ListDeploymentsMain.sort_deployments Cases.details_world
                Sample.service_key Sample.token Sample.resource_group
                Cases.two_deployments)))
     = running_count [Cases.running_deployment; Cases.stopped_deployment].
Proof.
  apply (one_details_request_per_running_deployment Cases.details_world
           Sample.service_key Sample.token Sample.resource_group Cases.two_deployments
           Sample.api_base
           [Cases.running_deployment; Cases.stopped_deployment]
           (match fst (ListDeploymentsMain.sort_deployments Cases.details_world
                         Sample.service_key Sample.token Sample.resource_group
                         Cases.two_deployments) with
            | Returned entries => entries
            | _ => []
            end)); reflexivity.
Defined.

(** When the key file of the first subaccount is missing or is not JSON,
    [main] of [list_deployments.py] prints the subaccount header and the
    error and exits with status 1: no request is sent, and the
    subaccounts after it are not processed, whatever they are. *)
Theorem first_subaccount_failure_ends_the_run (w : World) (disk : Disk)
    (config subaccount_config key_file : json)
    (fields later : list (string * json)) (name line : string) :
  open_json disk (JStr "config.json") = Loaded (Parsed config) ->
  get config "subAccounts" (JObj []) = Ok (JObj fields) ->
  dict_items_from [] fields = (name, subaccount_config) :: later ->
  get subaccount_config "service_key_json" (JStr "key.json") = Ok key_file ->
  key_file_error w key_file (open_json disk key_file) = Some line ->
  ListDeploymentsMain.main w disk
    = (Exited 1,
       [Printed (newline ++ rule 80);
        Printed ("SubAccount: " ++ name);
        Printed (rule 80);
        Printed line])
  /\ network_calls (ListDeploymentsMain.main w disk) = [].
Proof.
  intros Hconfig Hsub Hitems Hkey Hline.
  assert (Hmain : ListDeploymentsMain.main w disk
                  = (Exited 1,
                     [Printed (newline ++ rule 80);
                      Printed ("SubAccount: " ++ name);
                      Printed (rule 80);
                      Printed line])).
  { unfold ListDeploymentsMain.main. rewrite Hconfig.
    unfold ret at 1. rewrite bind_returned, Hsub. cbn [lift]. rewrite bind_returned.
    assert (Htruthy : truthy (JObj fields) = true).
    { destruct fields; [discriminate|reflexivity]. }
    rewrite Htruthy. cbn [negb ret items lift]. rewrite !bind_returned, Hitems.
    cbn [for_each]. unfold ListDeploymentsMain.process_subaccount.
    pose proof (get_returns_dict _ _ _ _ Hkey) as Hd.
    rewrite Hkey.
    destruct (get subaccount_config "resource_group" (JStr "default"))
      as [resource_group|e] eqn:Hrg.
    2: { destruct subaccount_config; try discriminate Hd.
         simpl in Hrg. destruct (dict_get "resource_group" fields0); discriminate. }
    cbn [bind lift print ret app].
    unfold ListDeploymentsMain.load_service_key, key_file_error in *.
    destruct (open_json disk key_file) as [msg|e|[v|msg]]; try discriminate;
      injection Hline as <-; reflexivity. }
  split; [exact Hmain|]. now rewrite Hmain.
Qed.

Lemma first_subaccount_failure_ends_the_run_witness :
  ListDeploymentsMain.main Sample.offline Cases.disk_without_first_key
    = (Exited 1,
       [Printed (newline ++ rule 80);
        Printed ("SubAccount: " ++ "first");
        Printed (rule 80);
        Printed "Error: first.json not found"])
  /\ network_calls (ListDeploymentsMain.main Sample.offline Cases.disk_without_first_key)
     = [].
Proof.
  apply (first_subaccount_failure_ends_the_run Sample.offline Cases.disk_without_first_key
           Cases.two_subaccounts
           (JObj [("resource_group", JStr "default");
                  ("service_key_json", JStr "first.json")])
           (JStr "first.json")
           [("first", JObj [("resource_group", JStr "default");
                            ("service_key_json", JStr "first.json")]);
            ("second", JObj [("resource_group", JStr "default");
                             ("service_key_json", JStr "second.json")])]
           [("second", JObj [("resource_group", JStr "default");
                             ("service_key_json", JStr "second.json")])]
           "first" "Error: first.json not found"); reflexivity.
Defined.

(** The report lists the first ten other models only: two runs whose
    other models agree on the first ten and in number print the same
    report, whatever the models after the tenth are. *)
Theorem report_ignores_other_models_after_the_tenth (w : World)
    (claude shown hidden hidden' : list ListDeploymentsMain.DeploymentInfo) :
  List.length shown = 10 ->
  List.length hidden = List.length hidden' ->
  ListDeploymentsMain.report w claude (shown ++ hidden)
  = ListDeploymentsMain.report w claude (shown ++ hidden').
Proof.
  intros Hshown Hsame.
  unfold ListDeploymentsMain.report, ListDeploymentsMain.other_section. f_equal.
  assert (Hfirst : forall rest : list ListDeploymentsMain.DeploymentInfo,
             firstn 10 (shown ++ rest) = shown).
  { intros rest. rewrite firstn_app.
    replace (10 - List.length shown) with 0 by lia.
    rewrite firstn_all2 by lia. cbn [firstn]. apply app_nil_r. }
  rewrite !Hfirst, !length_app, Hsame.
  destruct shown as [|d shown]; [discriminate|]. reflexivity.
Qed.

Lemma report_ignores_other_models_after_the_tenth_witness :
  ListDeploymentsMain.report Sample.offline [] (Cases.ten_others ++ [Cases.other_info "d11"])
  = ListDeploymentsMain.report Sample.offline [] (Cases.ten_others ++ [Cases.other_info "d12"]).
Proof.
  apply (report_ignores_other_models_after_the_tenth Sample.offline []
           Cases.ten_others [Cases.other_info "d11"] [Cases.other_info "d12"]);
    reflexivity.
Defined.

(** ** The report of find_opus_deployment.py *)



(** A line that starts otherwise is not the heading. *)
Ltac other_line H := solve [cbv in H; discriminate H].

Ltac other_lines H :=
  repeat (destruct H as [H|H]; [other_line H|]); try exact H.



Example find_opus_report_of_the_scenario :
  last (FindOpusMain.report Sample.offline []
          [Cases.a_match "d0" "STOPPED"; Cases.a_match "d1" "RUNNING";
           Cases.a_match "d2" "RUNNING"]) ""
  = FindOpusMain.snippet (Cases.a_match "d1" "RUNNING").
Proof. reflexivity. Qed.

(** ** The calls of a run of find_opus_deployment.py *)

Lemma print_all_run (lines : list string) :
  Setup.print_all lines = (Returned tt, map Printed lines).
Proof.
  induction lines as [|line rest IH]; simpl; [reflexivity|].
  now rewrite IH.
Qed.

Lemma requests_of_prints (lines : list string) : requests_of (map Printed lines) = [].
Proof. induction lines; simpl; auto. Qed.



Lemma load_json_returns (disk : Disk) (p v : json) (evs : list event) :
  load_json disk p = (Returned v, evs) -> evs = [].
Proof.
  unfold load_json. destruct (open_json disk p) as [msg|e|[v'|msg]]; try discriminate.
  now intros [= _ <-].
Qed.

Lemma get_token_returns_dict (w : World) (service_key token : json) (evs : list event) :
  FindOpus.get_token w service_key = (Returned token, evs) ->
  is_dict service_key = true.
Proof.
  unfold FindOpus.get_token. intros H.
  apply bind_returns in H as (client_id & es & es' & H & _).
  apply lift_returns in H as [H _]. eapply get_returns_dict. exact H.
Qed.

(** What [setup] has sent when it returns. *)
Lemma setup_calls (w : World) (disk : Disk) (resource_group service_key token : json)
    (evs : list event) :
  Setup.setup w disk = (Returned (resource_group, service_key, token), evs) ->
  requests_of evs = [token_request w service_key].
Proof.
  unfold Setup.setup. intros H.
  apply bind_returns in H as (config & es0 & es1 & H0 & H & ->).
  apply load_json_returns in H0 as ->.
  apply bind_returns in H as (subaccounts & es2 & es3 & H2 & H & ->).
  apply lift_returns in H2 as [_ ->].
  apply bind_returns in H as (subaccount_config & es4 & es5 & H4 & H & ->).
  apply lift_returns in H4 as [_ ->].
  apply bind_returns in H as (rg & es6 & es7 & H6 & H & ->).
  apply lift_returns in H6 as [_ ->].
  apply bind_returns in H as (key_file & es8 & es9 & H8 & H & ->).
  apply lift_returns in H8 as [_ ->].
  apply bind_returns in H as (sk & es10 & es11 & H10 & H & ->).
  apply load_json_returns in H10 as ->.
  apply bind_returns in H as (tok & es12 & es13 & Htoken & H & ->).
  injection H as -> -> -> <-.
  cbn [app]. rewrite app_nil_r.
  pose proof (get_token_returns_dict _ _ _ _ Htoken) as Hd.
  pose proof (unchecked_get_token_sends w service_key Hd) as Hcalls.
  unfold network_calls in Hcalls. now rewrite Htoken in Hcalls.
Qed.




(** The run of the scenario of the specification ends with the snippet
    for d1. *)
Example find_opus_main_of_the_scenario :
  exists lines,
    snd (FindOpusMain.main Cases.scenario_world Cases.main_disk)
    = (lines ++ [Printed (FindOpusMain.snippet (Cases.a_match "d1" "RUNNING"))])%list
    /\ fst (FindOpusMain.main Cases.scenario_world Cases.main_disk) = Returned tt.
Proof.
  eexists. split; [|reflexivity].
  match goal with
  | |- ?l = _ =>
      let v := eval vm_compute in l in
      let n := eval vm_compute in (List.length v - 1) in
      rewrite <- (firstn_skipn n l)
  end.
  f_equal.
Qed.

(** ** The probe report and the sweep of test_deployment.py *)

(** Once the API URL is read, [test_deployment] always returns a dict with
    a success entry, which is True exactly when the probe was answered
    with status 200 and a JSON body: then the dict holds the model
    header, the status code and the parsed body; otherwise it holds an
    error text and no response. *)
Theorem probe_report_shape (w : World)
    (service_key token deployment_id resource_group base_url : json) :
  FindOpus.api_base_url service_key = Ok base_url ->
  let request :=
    TestDeployment.probe_request w base_url token deployment_id resource_group in
  exists report,
    fst (TestDeployment.test_deployment w service_key token deployment_id resource_group)
      = Returned report
    /\ getitem report "success" = Ok (JBool (accepted w request))
    /\ if accepted w request then
         getitem report "status_code" = Ok (JNum 200)
         /\ (exists header, getitem report "model_header" = Ok (JStr header))
         /\ (exists answer, getitem report "response" = Ok answer)
       else
         (exists message, getitem report "error" = Ok (JStr message))
         /\ key_in "response" report = Ok false.
Proof.
  intros Hbase request.
  rewrite (test_deployment_run _ _ _ _ _ _ Hbase). cbn [fst]. fold request.
  unfold accepted.
  destruct (send w request) as [r|e].
  - destruct (status_code r =? 200)%Z eqn:H200.
    + apply Z.eqb_eq in H200.
      destruct (body r) as [v|msg]; eexists; split; try reflexivity; cbn.
      * rewrite H200. repeat split; eauto.
      * repeat split; eauto.
    + eexists. split; [reflexivity|]. cbn. repeat split; eauto.
  - destruct (is_timeout e); eexists; (split; [reflexivity|]); cbn; repeat split; eauto.
Qed.

Lemma probe_report_shape_witness :
  exists report,
    fst (TestDeployment.test_deployment (Sample.answering Sample.ok_response)
           Sample.service_key Sample.token Sample.deployment_id Sample.resource_group)
      = Returned report
    /\ getitem report "success" = Ok (JBool true)
    /\ getitem report "status_code" = Ok (JNum 200)
       /\ (exists header, getitem report "model_header" = Ok (JStr header))
       /\ (exists answer, getitem report "response" = Ok answer).
Proof.
  apply (probe_report_shape (Sample.answering Sample.ok_response)
           Sample.service_key Sample.token Sample.deployment_id Sample.resource_group
           Sample.api_base); reflexivity.
Defined.

Section Outcomes.

Context {A B : Type}.

Lemma fst_bind (p : prog A) (f : A -> prog B) :
  fst (bind p f)
  = match fst p with
    | Returned a => fst (f a)
    | Raised e => Raised e
    | Exited c => Exited c
    end.
Proof.
  unfold bind. destruct p as [[a|e|c] es]; cbn [fst]; try reflexivity.
  now destruct (f a).
Qed.

End Outcomes.

Lemma for_each_runs {A B : Type} (body : A -> prog (list B)) (call : A -> request)
    (xs : list A) :
  (forall x, In x xs ->
             fst (body x) = Returned [] /\ network_calls (body x) = [call x]) ->
  fst (for_each body xs) = Returned [] /\ network_calls (for_each body xs) = map call xs.
Proof.
  induction xs as [|x rest IH]; intros Hbody.
  - split; reflexivity.
  - destruct (Hbody x (or_introl eq_refl)) as [Hfst Hcalls].
    destruct IH as [IHfst IHcalls]; [intros y Hy; apply Hbody; now right|].
    cbn [for_each map].
    rewrite fst_bind, calls_bind, Hfst, Hcalls, fst_bind, calls_bind, IHfst, IHcalls.
    cbn. now rewrite app_nil_r.
Qed.

Lemma quiet_print_all (lines : list string) : network_calls (Setup.print_all lines) = [].
Proof. rewrite print_all_run. apply requests_of_prints. Qed.

Lemma test_potential_runs (w : World) (service_key token resource_group base_url : json)
    (entry : string * string) :
  FindOpus.api_base_url service_key = Ok base_url ->
  fst (TestDeploymentMain.test_potential w service_key token resource_group entry)
    = Returned []
  /\ network_calls (TestDeploymentMain.test_potential w service_key token resource_group
                      entry)
     = [probe_of w base_url token resource_group entry].
Proof.
  intros Hbase. destruct entry as [name id].
  unfold TestDeploymentMain.test_potential, probe_of, network_calls. cbn [snd].
  rewrite (test_deployment_run _ _ _ _ _ _ Hbase), Hbase.
  destruct (send w _) as [r|e].
  - destruct (status_code r =? 200)%Z.
    + destruct (body r) as [v|msg]; split; reflexivity.
    + split; reflexivity.
  - destruct (is_timeout e); split; reflexivity.
Qed.

Lemma test_known_runs (w : World) (service_key token resource_group base_url : json)
    (entry : string * string) :
  FindOpus.api_base_url service_key = Ok base_url ->
  (forall report,
     fst (TestDeployment.test_deployment w service_key token (JStr (snd entry))
            resource_group) = Returned report ->
     exists text, TestDeployment.response_text report = Ok text) ->
  fst (TestDeploymentMain.test_known w service_key token resource_group entry)
    = Returned []
  /\ network_calls (TestDeploymentMain.test_known w service_key token resource_group entry)
     = [probe_of w base_url token resource_group entry].
Proof.
  intros Hbase Hread. destruct entry as [name id]. cbn [snd] in Hread.
  unfold TestDeploymentMain.test_known, probe_of, network_calls. cbn [snd].
  rewrite (test_deployment_run _ _ _ _ _ _ Hbase) in *. cbn [fst] in Hread.
  destruct (send w _) as [r|e].
  - destruct (status_code r =? 200)%Z.
    + destruct (body r) as [v|msg]; [|split; reflexivity].
      destruct (Hread _ eq_refl) as [text Htext].
      cbn [bind print app truthy getitem dict_get String.eqb Ascii.eqb Bool.eqb lift
             TestDeployment.success_result get ret].
      rewrite Htext. destruct text; split; reflexivity.
    + split; reflexivity.
  - destruct (is_timeout e); split; reflexivity.
Qed.

(** When the setup succeeds, failed probes never end the sweep of
    [test_deployment.py]: if the answers of the two known deployments can
    be read by the report, [main] returns after the token request and
    the seven probes, sent in the order of the two tables; a probe of a
    potential deployment cannot end it whatever its answer is. *)
Theorem sweep_probes_every_deployment (w : World) (disk : Disk)
    (resource_group service_key token base_url : json) (evs0 : list event) :
  Setup.setup w disk = (Returned (resource_group, service_key, token), evs0) ->
  FindOpus.api_base_url service_key = Ok base_url ->
  (forall entry report,
     In entry TestDeploymentMain.known_deployments ->
     fst (TestDeployment.test_deployment w service_key token (JStr (snd entry))
            resource_group) = Returned report ->
     exists text, TestDeployment.response_text report = Ok text) ->
  fst (TestDeploymentMain.main w disk) = Returned tt
  /\ network_calls (TestDeploymentMain.main w disk)
     = token_request w service_key
       :: map (probe_of w base_url token resource_group)
            (TestDeploymentMain.known_deployments
             ++ TestDeploymentMain.potential_opus_deployments).
Proof.
  intros Hsetup Hbase Hread.
  pose proof (setup_calls _ _ _ _ _ _ Hsetup) as Hcalls0.
  destruct (for_each_runs
              (TestDeploymentMain.test_known w service_key token resource_group)
              (probe_of w base_url token resource_group)
              TestDeploymentMain.known_deployments) as [Hk1 Hk2].
  { intros entry Hin. apply test_known_runs; [assumption|].
    intros report. now apply Hread. }
  destruct (for_each_runs
              (TestDeploymentMain.test_potential w service_key token resource_group)
              (probe_of w base_url token resource_group)
              TestDeploymentMain.potential_opus_deployments) as [Hp1 Hp2].
  { intros entry _. now apply test_potential_runs. }
  unfold TestDeploymentMain.main.
  rewrite fst_bind, calls_bind, Hsetup. cbn [fst snd network_calls] .
  fold (network_calls (Returned (resource_group, service_key, token), evs0)).
  unfold network_calls at 1. cbn [snd]. rewrite Hcalls0.
  repeat (rewrite ?fst_bind, ?calls_bind; cbn [print fst snd network_calls requests_of app]).
  fold (network_calls
          (for_each (TestDeploymentMain.test_known w service_key token resource_group)
             TestDeploymentMain.known_deployments)).
  fold (network_calls
          (for_each (TestDeploymentMain.test_potential w service_key token resource_group)
             TestDeploymentMain.potential_opus_deployments)).
  rewrite Hk1, Hk2, Hp1, Hp2.
  fold (network_calls (Setup.print_all TestDeploymentMain.advice)).
  rewrite quiet_print_all, print_all_run. cbn [fst].
  split; [reflexivity|]. now rewrite app_nil_r, map_app.
Qed.

Lemma sweep_probes_every_deployment_witness :
  fst (TestDeploymentMain.main Cases.token_only Cases.main_disk) = Returned tt
  /\ network_calls (TestDeploymentMain.main Cases.token_only Cases.main_disk)
     = token_request Cases.token_only Sample.service_key
       :: map (probe_of Cases.token_only Sample.api_base Sample.token Sample.resource_group)
            (TestDeploymentMain.known_deployments
             ++ TestDeploymentMain.potential_opus_deployments).
Proof.
  apply (sweep_probes_every_deployment Cases.token_only Cases.main_disk
           Sample.resource_group Sample.service_key Sample.token Sample.api_base
           (snd (Setup.setup Cases.token_only Cases.main_disk))).
  - reflexivity.
  - reflexivity.
  - intros entry report [<-|[<-|[]]] [= <-]; now exists None.
Defined.

(** ** The configurations report of list_configurations.py *)

Lemma sort_configurations_total (configurations : list json) :
  forallb is_configuration configurations = true ->
  ListConfigurationsMain.sort_configurations configurations
  = Ok (map (fun c => if ListConfigurations.is_claude_name (name_of c)
                      then inl (config_info_of c) else inr (config_info_of c))
            configurations).
Proof.
  induction configurations as [|c rest IH]; simpl; [reflexivity|].
  rewrite andb_true_iff. intros [Hc Hrest]. rewrite (IH Hrest). clear IH.
  destruct c as [ | | | | |fields]; simpl in Hc; try discriminate.
  unfold config_info_of, name_of, get.
  destruct (dict_get "id" fields), (dict_get "scenarioId" fields),
    (dict_get "inputArtifactBindings" fields);
    destruct (dict_get "name" fields) as [[ | | |s| | ]|]; try discriminate;
    reflexivity.
Qed.

Lemma sorted_lengths {A : Type} (entries : list (A + A)) (left right : list A) :
  (fix lefts (l : list (A + A)) : list A :=
     match l with
     | [] => []
     | inl a :: r => a :: lefts r
     | inr _ :: r => lefts r
     end) entries = left ->
  (fix rights (l : list (A + A)) : list A :=
     match l with
     | [] => []
     | inl _ :: r => rights r
     | inr a :: r => a :: rights r
     end) entries = right ->
  List.length left + List.length right = List.length entries.
Proof.
  intros <- <-. induction entries as [|[a|a] rest IH]; simpl; lia.
Qed.

(** On configurations that are objects with a text name (or none), the
    loop of [list_configurations.py] puts each configuration in exactly
    one of the two lists, in the order of the listing: those whose name
    passes the test in [claude_configs], the others in [other_configs];
    none is dropped. *)
Theorem configurations_are_partitioned (configurations : list json) :
  forallb is_configuration configurations = true ->
  exists entries,
    ListConfigurationsMain.sort_configurations configurations = Ok entries
    /\ ListConfigurationsMain.claude_of entries
       = map config_info_of
           (filter (fun c => ListConfigurations.is_claude_name (name_of c)) configurations)
    /\ ListConfigurationsMain.other_of entries
       = map config_info_of
           (filter (fun c => negb (ListConfigurations.is_claude_name (name_of c)))
              configurations)
    /\ List.length (ListConfigurationsMain.claude_of entries)
       + List.length (ListConfigurationsMain.other_of entries)
       = List.length configurations.
Proof.
  intros Hc. eexists. split; [now apply sort_configurations_total|].
  assert (Hclaude : forall cs,
    ListConfigurationsMain.claude_of
      (map (fun c => if ListConfigurations.is_claude_name (name_of c)
                     then inl (config_info_of c) else inr (config_info_of c)) cs)
    = map config_info_of
        (filter (fun c => ListConfigurations.is_claude_name (name_of c)) cs)).
  { induction cs as [|c cs IH]; simpl; [reflexivity|].
    destruct (ListConfigurations.is_claude_name (name_of c)); simpl; now rewrite IH. }
  assert (Hother : forall cs,
    ListConfigurationsMain.other_of
      (map (fun c => if ListConfigurations.is_claude_name (name_of c)
                     then inl (config_info_of c) else inr (config_info_of c)) cs)
    = map config_info_of
        (filter (fun c => negb (ListConfigurations.is_claude_name (name_of c))) cs)).
  { induction cs as [|c cs IH]; simpl; [reflexivity|].
    destruct (ListConfigurations.is_claude_name (name_of c)); simpl; now rewrite IH. }
  split; [apply Hclaude|]. split; [apply Hother|].
  rewrite <- (length_map
                (fun c => if ListConfigurations.is_claude_name (name_of c)
                          then inl (config_info_of c) else inr (config_info_of c))
                configurations).
  eapply sorted_lengths; reflexivity.
Qed.

Lemma configurations_are_partitioned_witness :
  exists entries,
    ListConfigurationsMain.sort_configurations Sample.configurations = Ok entries
    /\ ListConfigurationsMain.claude_of entries
       = map config_info_of
           (filter (fun c => ListConfigurations.is_claude_name (name_of c))
              Sample.configurations)
    /\ ListConfigurationsMain.other_of entries
       = map config_info_of
           (filter (fun c => negb (ListConfigurations.is_claude_name (name_of c)))
              Sample.configurations)
    /\ List.length (ListConfigurationsMain.claude_of entries)
       + List.length (ListConfigurationsMain.other_of entries)
       = List.length Sample.configurations.
Proof.
  apply (configurations_are_partitioned Sample.configurations). reflexivity.
Defined.

(** A configuration whose name is present and is not text, null for
    example, stops both name loops: after configurations that are
    well formed, the selection of [find_opus_deployment.py] and the
    partition of [list_configurations.py] raise [AttributeError], whatever
    follows in the listing. *)
Theorem non_text_name_stops_the_name_loops (namePredicate : string -> bool)
    (before after : list json) (bad name : json) :
  forallb is_configuration before = true ->
  is_dict bad = true ->
  has_bad_name bad = Some name ->
  FindOpus.select_configs namePredicate (before ++ bad :: after)
    = Err (no_attribute name "lower")
  /\ ListConfigurationsMain.sort_configurations (before ++ bad :: after)
    = Err (no_attribute name "lower").
Proof.
  intros Hbefore Hd Hbad.
  destruct bad as [ | | | | |fields]; try discriminate Hd.
  unfold has_bad_name in Hbad.
  split.
  - induction before as [|c rest IH]; simpl.
    + unfold get.
      destruct (dict_get "name" fields) as [[ | | |s| | ]|]; try discriminate;
        injection Hbad as <-; reflexivity.
    + simpl in Hbefore. apply andb_true_iff in Hbefore as [Hc Hrest].
      rewrite (IH Hrest).
      destruct c as [ | | | | |cf]; simpl in Hc; try discriminate.
      unfold get.
      destruct (dict_get "name" cf) as [[ | | |s| | ]|]; try discriminate; simpl.
      * destruct (namePredicate s); simpl; [|reflexivity].
        now destruct (dict_get "id" cf).
      * destruct (namePredicate ""); simpl; [|reflexivity].
        now destruct (dict_get "id" cf).
  - induction before as [|c rest IH]; simpl.
    + unfold get.
      destruct (dict_get "id" fields);
        destruct (dict_get "name" fields) as [[ | | |s| | ]|]; try discriminate;
        injection Hbad as <-;
        destruct (dict_get "scenarioId" fields),
          (dict_get "inputArtifactBindings" fields); reflexivity.
    + simpl in Hbefore. apply andb_true_iff in Hbefore as [Hc Hrest].
      rewrite (IH Hrest).
      destruct c as [ | | | | |cf]; simpl in Hc; try discriminate.
      unfold get.
      destruct (dict_get "id" cf);
        destruct (dict_get "name" cf) as [[ | | |s| | ]|]; try discriminate;
        destruct (dict_get "scenarioId" cf), (dict_get "inputArtifactBindings" cf);
        reflexivity.
Qed.

Lemma non_text_name_stops_the_name_loops_witness :
  FindOpus.select_configs FindOpus.is_opus_name
      (Sample.configurations ++ Cases.nameless :: [])
    = Err (no_attribute JNull "lower")
  /\ ListConfigurationsMain.sort_configurations
       (Sample.configurations ++ Cases.nameless :: [])
    = Err (no_attribute JNull "lower").
Proof.
  apply (non_text_name_stops_the_name_loops FindOpus.is_opus_name
           Sample.configurations [] Cases.nameless JNull); reflexivity.
Defined.

Lemma bind_after {A B : Type} (a : A) (es : list event) (f : A -> prog B) :
  bind (Returned a, es) f = (fst (f a), (es ++ snd (f a))%list).
Proof. unfold bind. now destruct (f a). Qed.

Lemma list_configurations_on_failure (w : World)
    (service_key token resource_group base_url : json) (e : exn) :
  FindOpus.api_base_url service_key = Ok base_url ->
  failure_of w (listing_request w "/v2/lm/configurations" base_url token resource_group)
    = Some e ->
  ListConfigurations.list_configurations w service_key token resource_group
  = (Returned (JArr []),
     (Sent (listing_request w "/v2/lm/configurations" base_url token resource_group)
      :: Printed ("Error listing configurations: " ++ exn_text e)
      :: match exn_response e with
         | Some r => [Printed ("Response: " ++ text r)]
         | None => []
         end)%list).
Proof.
  intros Hbase He.
  pose proof (failure_is_request_exception _ _ _ He) as Hreq.
  unfold ListConfigurations.list_configurations.
  rewrite Hbase. cbn [lift]. rewrite bind_returned.
  fold (listing_request w "/v2/lm/configurations" base_url token resource_group).
  rewrite (fetch_failure _ _ _ _ He). cbn [try_except]. rewrite Hreq.
  destruct (exn_response e); reflexivity.
Qed.

(** After a configurations listing that ends with a [requests]
    exception, [main] of [list_configurations.py] goes on as after an
    empty listing: it prints the error, then that 0 configurations were
    found and that there is no Claude configuration, then its advice, and
    returns. *)
Theorem failed_listing_reads_as_no_configuration (w : World) (disk : Disk)
    (dumps : json -> string)
    (resource_group service_key token base_url : json) (evs0 : list event) (e : exn) :
  Setup.setup w disk = (Returned (resource_group, service_key, token), evs0) ->
  FindOpus.api_base_url service_key = Ok base_url ->
  failure_of w (listing_request w "/v2/lm/configurations" base_url token resource_group)
    = Some e ->
  ListConfigurationsMain.main w disk dumps
  = (Returned tt,
     app evs0
       (Sent (listing_request w "/v2/lm/configurations" base_url token resource_group)
        :: Printed ("Error listing configurations: " ++ exn_text e)
        :: app match exn_response e with
               | Some r => [Printed ("Response: " ++ text r)]
               | None => []
               end
               (map Printed
                  (app [rule 80; "Found 0 configuration(s)"; rule 80;
                        newline ++ "No Claude/Anthropic configurations found."]
                       ListConfigurationsMain.advice)))).
Proof.
  intros Hsetup Hbase He. unfold ListConfigurationsMain.main.
  rewrite Hsetup, bind_after.
  rewrite (list_configurations_on_failure _ _ _ _ _ _ Hbase He).
  destruct (exn_response e); reflexivity.
Qed.

Lemma failed_listing_reads_as_no_configuration_witness :
  ListConfigurationsMain.main Cases.token_only Cases.main_disk (fun _ => "")
  = (Returned tt,
     app (snd (Setup.setup Cases.token_only Cases.main_disk))
       (Sent (listing_request Cases.token_only "/v2/lm/configurations" Sample.api_base
                Sample.token Sample.resource_group)
        :: Printed ("Error listing configurations: "
                    ++ exn_text (http_error_of Sample.listing_error))
        :: app match exn_response (http_error_of Sample.listing_error) with
               | Some r => [Printed ("Response: " ++ text r)]
               | None => []
               end
               (map Printed
                  (app [rule 80; "Found 0 configuration(s)"; rule 80;
                        newline ++ "No Claude/Anthropic configurations found."]
                       ListConfigurationsMain.advice)))).
Proof.
  apply (failed_listing_reads_as_no_configuration Cases.token_only Cases.main_disk
           (fun _ => "") Sample.resource_group Sample.service_key Sample.token
           Sample.api_base); reflexivity.
Defined.

(** * Properties of the integration driver *)

Import Shell Observed.

(** ** Scripts *)

Section Scripts.
Context {A B : Type}.

Lemma sbind_returns (p : script A) (f : A -> script B) (b : B) (acts : list action) :
  sbind p f = (Returned b, acts) ->
  exists a acts1 acts2,
    p = (Returned a, acts1) /\ f a = (Returned b, acts2) /\ acts = (acts1 ++ acts2)%list.
Proof.
  destruct p as [[a|e|c] acts1]; cbn [sbind]; try discriminate.
  destruct (f a) as [o acts2] eqn:Hf. intros H. injection H as -> <-.
  now exists a, acts1, acts2.
Qed.

Lemma sbind_returned (a : A) (f : A -> script B) :
  sbind (sret a) f = f a.
Proof. unfold sret. cbn [sbind]. now destruct (f a). Qed.

Lemma sbind_said (line : string) (f : unit -> script B) :
  sbind (say line) f = (fst (f tt), Out (Printed line) :: snd (f tt)).
Proof. unfold say. cbn [sbind]. now destruct (f tt). Qed.

End Scripts.

(** ** What a run does *)

Section Only.
Context (Q : action -> Prop).

Lemma only_sbind {A B : Type} (p : script A) (f : A -> script B) :
  does_only Q p -> (forall a, does_only Q (f a)) -> does_only Q (sbind p f).
Proof.
  unfold does_only. destruct p as [[a|e|c] acts]; cbn [sbind fst snd].
  - intros [Hp _] Hf. specialize (Hf a). destruct (f a) as [o acts'].
    cbn [fst snd] in *. destruct Hf as [Hf Ho]. split; [|exact Ho].
    apply Forall_app. now split.
  - intros [Hp _] _. split; [exact Hp|discriminate].
  - intros [_ Hc]. now contradiction (Hc c).
Qed.

Lemma only_guarded {A : Type} (p : script A) (handler : exn -> script A) :
  does_only Q p -> (forall e, does_only Q (handler e)) -> does_only Q (guarded p handler).
Proof.
  unfold does_only. destruct p as [[a|e|c] acts]; cbn [guarded fst snd]; auto.
  intros [Hp _] Hh. specialize (Hh e). destruct (handler e) as [o acts'].
  cbn [fst snd] in *. destruct Hh as [Hh Ho]. split; [|exact Ho].
  apply Forall_app. now split.
Qed.

Lemma only_sret {A : Type} (a : A) : does_only Q (sret a).
Proof. split; [constructor|discriminate]. Qed.

Lemma only_slift {A : Type} (r : result A) : does_only Q (slift r).
Proof. destruct r; (split; [constructor|discriminate]). Qed.

Lemma only_say (line : string) : Q (Out (Printed line)) -> does_only Q (say line).
Proof. intros H. split; [|discriminate]. constructor; [exact H|constructor]. Qed.

Lemma only_say_all (lines : list string) :
  (forall line, Q (Out (Printed line))) -> does_only Q (Driver.say_all lines).
Proof.
  intros H. induction lines as [|line rest IH]; cbn [Driver.say_all].
  - apply only_sret.
  - apply only_sbind; [now apply only_say|intros _; exact IH].
Qed.

Lemma only_more {A : Type} (Q' : action -> Prop) (p : script A) :
  (forall a, Q' a -> Q a) -> does_only Q' p -> does_only Q p.
Proof.
  unfold does_only. intros H [Hp Ho]. split; [|exact Ho].
  revert Hp. apply Forall_impl, H.
Qed.

End Only.

(** A script that is given with its actions, none of them a write. *)
Ltac given_script :=
  unfold does_only; cbn [fst snd map];
  split; [repeat (constructor; try exact I; try reflexivity)|discriminate].

Section Observing.
Context {X : Type} (pick : action -> list X).

Lemma observe_app (acts acts' : list action) :
  observe pick (acts ++ acts')%list = (observe pick acts ++ observe pick acts')%list.
Proof. apply flat_map_app. Qed.

Lemma observe_nothing (acts : list action) :
  Forall (fun a => pick a = []) acts -> observe pick acts = [].
Proof.
  induction 1 as [|a rest Ha _ IH]; [reflexivity|].
  unfold observe in *. cbn [flat_map]. now rewrite Ha, IH.
Qed.

Lemma observe_all (P : X -> Prop) (acts : list action) :
  Forall (fun a => Forall P (pick a)) acts -> Forall P (observe pick acts).
Proof.
  induction 1 as [|a rest Ha _ IH]; [constructor|].
  unfold observe in *. cbn [flat_map]. apply Forall_app. now split.
Qed.

(** The part [acts] of a run that does only [Q], when [Q] leaves out
    what [pick] looks at. *)
Lemma part_unobserved {A : Type} (Q : action -> Prop) (p : script A)
    (o : outcome A) (acts : list action) :
  does_only Q p -> (forall a, Q a -> pick a = []) -> p = (o, acts) ->
  observe pick acts = [].
Proof.
  unfold does_only. intros [Hp _] HQ ->. apply observe_nothing.
  now apply Forall_impl with (P := Q).
Qed.

End Observing.

(** ** The HTTP test *)



Ltac failure_reported e :=
  cbn [sbind guarded sret say slift fst snd app];
  destruct (Driver.is_connection_error e), (is_timeout e);
  eexists _, _; cbn; repeat split; reflexivity.

(** Once the token is found, [test_http_endpoint] sends one request and
    returns a report whatever happens to it: a transport failure, a body
    that is not JSON or has another shape, and a failure to save the
    output all end in a failure report, none is raised to the caller. *)
Theorem http_test_always_reports (w : World) (h : Host) (prompt : string)
    (save_output : bool) (token : json) :
  token_of h = Ok token ->
  exists report acts,
    Driver.test_http_endpoint w h prompt save_output = (Returned report, acts)
    /\ is_report report = true
    /\ sent acts = [Driver.messages_request token prompt].
Proof.
  unfold token_of. intros Htoken.
  unfold Driver.test_http_endpoint, Driver.get_auth_token.
  rewrite Htoken, sbind_said. cbn [slift]. fold (sret token). rewrite sbind_returned.
  unfold http.
  destruct (send w (Driver.messages_request token prompt)) as [r|e];
    cbn [embed fst snd map sbind]; [|failure_reported e].
  destruct (status_code r =? 200)%Z; [|eexists _, _; cbn; repeat split; reflexivity].
  destruct (response_json r) as [parsed|e]; cbn [slift sbind guarded];
    [|failure_reported e].
  destruct (Driver.answer_text parsed) as [content|e]; cbn [slift sbind guarded];
    [|failure_reported e].
  destruct (String.eqb content "") eqn:Hcontent; cbn [negb];
    [eexists _, _; cbn; repeat split; reflexivity|].
  destruct save_output;
    [|eexists _, _; cbn -[String.eqb]; split; [reflexivity|];
      split; [cbn -[String.eqb]; now rewrite Hcontent|reflexivity]].
  unfold Driver.save_test_output.
  destruct (mkdir h Driver.OUTPUT_DIR) as [e|]; [failure_reported e|].
  destruct (write_text h _ _) as [e|]; [failure_reported e|].
  eexists _, _. cbn -[String.eqb]. split; [reflexivity|].
  split; [cbn -[String.eqb]; now rewrite Hcontent|reflexivity].
Qed.

Lemma http_test_always_reports_witness :
  exists report acts,
    Driver.test_http_endpoint Hosts.proxy Hosts.workstation "review" true
    = (Returned report, acts)
    /\ is_report report = true
    /\ sent acts = [Driver.messages_request Hosts.default_token "review"].
Proof.
  apply (http_test_always_reports Hosts.proxy Hosts.workstation "review" true
           Hosts.default_token).
  reflexivity.
Defined.



Example http_answer_on_a_full_disk :
  fst (Driver.test_http_endpoint Hosts.proxy Hosts.full_disk "review" true)
  = Returned (false, "", Some "[Errno 28] No space left on device")
  /\ fst (Driver.test_http_endpoint Hosts.proxy Hosts.full_disk "review" false)
     = Returned (true, "test", None).
Proof. split; reflexivity. Qed.

(** ** The CLI test *)

(** [test_claude_cli] looks the token up only when the CLI is installed:
    without the CLI it reports that and starts nothing else, even on a
    host whose [config.json] cannot be read; with the CLI, a failing
    token lookup is raised to the caller. *)
Theorem cli_test_looks_for_the_cli_first (h : Host) (prompt : string)
    (save_output : bool) (returncode : Z) (stdout stderr : string) :
  run h (cli_lookup h) = Completed returncode stdout stderr ->
  (returncode <> 0%Z ->
   Driver.test_claude_cli h prompt save_output
   = (Returned (false, "", Some "Claude CLI not found in PATH"),
      [Out (Printed (newline ++ "🖥️  Testing Claude Code CLI..."));
       Ran (cli_lookup h)]))
  /\ (returncode = 0%Z ->
      forall e, token_of h = Err e ->
      Driver.test_claude_cli h prompt save_output
      = (Raised e,
         [Out (Printed (newline ++ "🖥️  Testing Claude Code CLI..."));
          Ran (cli_lookup h)])).
Proof.
  unfold cli_lookup, token_of. intros Hlookup.
  unfold Driver.test_claude_cli, Driver.run_plain, Driver.get_auth_token.
  rewrite sbind_said, Hlookup. cbn [sbind]. split.
  - intros Hcode. apply Z.eqb_neq in Hcode. rewrite Hcode. reflexivity.
  - intros -> e He. rewrite He. reflexivity.
Qed.

Lemma cli_test_looks_for_the_cli_first_witness :
  (1%Z <> 0%Z ->
   Driver.test_claude_cli Hosts.without_cli "review" false
   = (Returned (false, "", Some "Claude CLI not found in PATH"),
      [Out (Printed (newline ++ "🖥️  Testing Claude Code CLI..."));
       Ran (cli_lookup Hosts.without_cli)]))
  /\ (1%Z = 0%Z ->
      forall e, token_of Hosts.without_cli = Err e ->
      Driver.test_claude_cli Hosts.without_cli "review" false
      = (Raised e,
         [Out (Printed (newline ++ "🖥️  Testing Claude Code CLI..."));
          Ran (cli_lookup Hosts.without_cli)])).
Proof.
  apply (cli_test_looks_for_the_cli_first Hosts.without_cli "review" false 1 "" "").
  reflexivity.
Defined.

(** With the CLI installed and a token found, [test_claude_cli] starts
    the look-up and one call of the CLI with the proxy's address and the
    token in its environment, and always returns a report: a time-out, a
    failure to start and a failure to save the output become failure
    reports.  A pass means the CLI exited with 0 and the report carries
    its output without the surrounding white space. *)
Theorem cli_test_always_reports (h : Host) (prompt : string) (save_output : bool)
    (stdout stderr : string) (token : json) :
  run h (cli_lookup h) = Completed 0 stdout stderr ->
  token_of h = Ok token ->
  exists report acts,
    Driver.test_claude_cli h prompt save_output = (Returned report, acts)
    /\ is_report report = true
    /\ started acts = [cli_lookup h; cli_call token prompt]
    /\ (fst (fst report) = true ->
        exists out err,
          run h (cli_call token prompt) = Completed 0 out err
          /\ report = (true, strip out, None)).
Proof.
  unfold cli_lookup, token_of. intros Hlookup Htoken.
  unfold Driver.test_claude_cli, Driver.run_plain, Driver.get_auth_token.
  rewrite sbind_said, Hlookup, Htoken. cbn [sbind slift Z.eqb negb fst snd app].
  fold Driver.PROXY_URL. fold (cli_call token prompt).
  destruct (run h (cli_call token prompt)) as [code out err| |e] eqn:Hcall.
  - destruct (code =? 0)%Z eqn:Hcode; cbn [andb].
    + apply Z.eqb_eq in Hcode. subst code.
      destruct (String.eqb (strip out) "") eqn:Hout; cbn [negb].
      * eexists _, _. split; [reflexivity|].
        split; [now destruct (negb (String.eqb err ""))|].
        split; [reflexivity|]. cbn [fst]. discriminate.
      * destruct save_output.
        -- unfold Driver.save_test_output.
           destruct (mkdir h Driver.OUTPUT_DIR) as [e|].
           ++ eexists _, _. cbn -[String.eqb]. split; [reflexivity|].
              split; [reflexivity|]. split; [reflexivity|]. discriminate.
           ++ destruct (write_text h _ _) as [e|].
              ** eexists _, _. cbn -[String.eqb]. split; [reflexivity|].
                 split; [reflexivity|]. split; [reflexivity|]. discriminate.
              ** eexists _, _. cbn -[String.eqb]. split; [reflexivity|].
                 split; [cbn -[String.eqb]; now rewrite Hout|]. split; [reflexivity|].
                 intros _. now exists out, err.
        -- eexists _, _. cbn -[String.eqb]. split; [reflexivity|].
           split; [cbn -[String.eqb]; now rewrite Hout|]. split; [reflexivity|].
           intros _. now exists out, err.
    + eexists _, _. split; [reflexivity|].
      split; [now destruct (negb (String.eqb err ""))|].
      split; [reflexivity|]. cbn [fst]. discriminate.
  - eexists _, _. split; [reflexivity|]. split; [reflexivity|].
    split; [reflexivity|]. cbn [fst]. discriminate.
  - eexists _, _. split; [reflexivity|]. split; [reflexivity|].
    split; [reflexivity|]. cbn [fst]. discriminate.
Qed.

Lemma cli_test_always_reports_witness :
  exists report acts,
    Driver.test_claude_cli Hosts.workstation "review" true = (Returned report, acts)
    /\ is_report report = true
    /\ started acts
       = [cli_lookup Hosts.workstation; cli_call Hosts.default_token "review"]
    /\ (fst (fst report) = true ->
        exists out err,
          run Hosts.workstation (cli_call Hosts.default_token "review")
          = Completed 0 out err
          /\ report = (true, strip out, None)).
Proof.
  apply (cli_test_always_reports Hosts.workstation "review" true
           ("/usr/local/bin/claude" ++ newline) "" Hosts.default_token);
    reflexivity.
Defined.

(** ** The run *)

Lemma run_plain_prepares (h : Host) (args : list string) :
  does_only prepares (Driver.run_plain h ("git" :: args)).
Proof.
  unfold Driver.run_plain. destruct (run h _); given_script.
Qed.

Lemma git_fetch_prepares (h : Host) : does_only prepares (Driver.git_fetch h).
Proof.
  unfold Driver.git_fetch.
  apply only_sbind; [now apply only_say|intros _].
  apply only_sbind; [apply run_plain_prepares|intros [[returncode stdout] stderr]].
  apply only_sbind; [|intros _; apply only_sret].
  destruct (negb (returncode =? 0)%Z); [now apply only_say|apply only_sret].
Qed.

Lemma get_last_sync_hash_prepares (h : Host) :
  does_only prepares (Driver.get_last_sync_hash h).
Proof.
  unfold Driver.get_last_sync_hash.
  destruct (read_text h Driver.LAST_SYNC_FILE); given_script.
Qed.

Lemma rev_parse_prepares (h : Host) (revision : string) :
  does_only prepares (Driver.rev_parse h revision).
Proof.
  unfold Driver.rev_parse.
  apply only_sbind; [apply run_plain_prepares|intros [[returncode stdout] stderr]].
  apply only_sret.
Qed.

Lemma build_review_prompt_prepares (h : Host) (since_hash : option string) :
  does_only prepares (Driver.build_review_prompt h since_hash).
Proof.
  unfold Driver.build_review_prompt, Driver.get_recent_commits,
    Driver.get_changed_files.
  apply only_sbind.
  - apply only_sbind; [|intros [[returncode stdout] stderr]; apply only_sret].
    destruct (Driver.given since_hash); apply run_plain_prepares.
  - intros commits. apply only_sbind; [|intros changed; apply only_sret].
    apply only_sbind; [|intros [[returncode stdout] stderr]; apply only_sret].
    destruct (Driver.given since_hash); apply run_plain_prepares.
Qed.

Lemma save_test_output_tests (h : Host) (test_type content : string) :
  does_only (tests h) (Driver.save_test_output h test_type content).
Proof.
  unfold Driver.save_test_output, does_only.
  destruct (mkdir h Driver.OUTPUT_DIR); cbn [fst snd].
  - split; [repeat constructor|discriminate].
  - destruct (write_text h _ _); cbn [fst snd];
      (split; [|discriminate]);
      repeat (constructor; [try exact I; now eexists|]); constructor.
Qed.

Lemma test_http_endpoint_tests (w : World) (h : Host) (prompt : string)
    (save_output : bool) :
  does_only (tests h) (Driver.test_http_endpoint w h prompt save_output).
Proof.
  unfold Driver.test_http_endpoint, Driver.get_auth_token.
  apply only_sbind; [now apply only_say|intros _].
  apply only_sbind; [apply only_slift|intros token].
  apply only_guarded.
  - apply only_sbind.
    + unfold http, embed. destruct (send w _); given_script.
    + intros response. destruct (status_code response =? 200)%Z; [|apply only_sret].
      apply only_sbind; [apply only_slift|intros parsed].
      apply only_sbind; [apply only_slift|intros content].
      destruct (negb (String.eqb content "")); [|apply only_sret].
      apply only_sbind; [now apply only_say|intros _].
      apply only_sbind; [|intros _; apply only_sret].
      destruct save_output; [apply save_test_output_tests|apply only_sret].
  - intros e. destruct (Driver.is_connection_error e); [apply only_sret|].
    destruct (is_timeout e); apply only_sret.
Qed.

Lemma test_claude_cli_tests (h : Host) (prompt : string) (save_output : bool) :
  does_only (tests h) (Driver.test_claude_cli h prompt save_output).
Proof.
  unfold Driver.test_claude_cli, Driver.get_auth_token.
  apply only_sbind; [now apply only_say|intros _].
  apply only_sbind.
  - unfold Driver.run_plain. destruct (run h _); given_script.
  - intros [[which_code which_out] which_err].
    destruct (negb (which_code =? 0)%Z); [apply only_sret|].
    apply only_sbind; [apply only_slift|intros token].
    destruct (run h _) as [returncode stdout stderr| |e];
      try given_script.
    destruct ((returncode =? 0)%Z && negb (String.eqb (strip stdout) ""));
      [|given_script].
    apply only_guarded; [|intros e; apply only_sret].
    apply only_sbind; [given_script|intros _].
    apply only_sbind; [|intros _; apply only_sret].
    destruct save_output; [apply save_test_output_tests|apply only_sret].
Qed.

Lemma prepares_unmarked (a : action) :
  prepares a ->
  match a with
  | Wrote path content =>
      if String.eqb path Driver.LAST_SYNC_FILE then [content] else []
  | _ => []
  end = [].
Proof. destruct a; [reflexivity|reflexivity|reflexivity|contradiction]. Qed.

Lemma tests_unmarked (h : Host) (a : action) :
  outputs_apart h -> tests h a ->
  match a with
  | Wrote path content =>
      if String.eqb path Driver.LAST_SYNC_FILE then [content] else []
  | _ => []
  end = [].
Proof.
  intros Hapart. destruct a as [ev|c|path|path content]; try reflexivity.
  intros [name ->]. specialize (Hapart name). apply String.eqb_neq in Hapart.
  now rewrite Hapart.
Qed.

Lemma get_current_hash_value (h : Host) (current : option string)
    (acts : list action) :
  Driver.get_current_hash h = (Returned current, acts) ->
  current = current_hash_of h.
Proof.
  unfold Driver.get_current_hash, Driver.rev_parse, Driver.run_plain,
    current_hash_of.
  destruct (run h _) as [returncode stdout stderr| |e]; cbn [sbind sret];
    try discriminate.
  intros H. now injection H as <- _.
Qed.

Ltac script_step H x acts Hx :=
  apply sbind_returns in H; destruct H as (x & acts & ? & Hx & H & ->);
  cbv beta in H.

Ltac said H :=
  let u := fresh "u" in
  let acts := fresh "acts" in
  let Hu := fresh "Hu" in
  script_step H u acts Hu; apply (f_equal snd) in Hu; cbn [snd say] in Hu; subst.

(** The steps of a run of [run_integration_test] that returned. *)
Ltac run_steps Hrun :=
  unfold Driver.run_integration_test in Hrun;
  said Hrun; said Hrun; said Hrun;
  let fetched := fresh "fetched" in
  let fetching := fresh "fetching" in
  let Hfetch := fresh "Hfetch" in
  script_step Hrun fetched fetching Hfetch;
  let last_sync := fresh "last_sync" in
  let reading := fresh "reading" in
  let Hlast := fresh "Hlast" in
  script_step Hrun last_sync reading Hlast;
  let current := fresh "current" in
  let parsing := fresh "parsing" in
  let Hcurrent := fresh "Hcurrent" in
  script_step Hrun current parsing Hcurrent;
  let origin := fresh "origin" in
  let parsing' := fresh "parsing'" in
  let Horigin := fresh "Horigin" in
  script_step Hrun origin parsing' Horigin;
  said Hrun; said Hrun; said Hrun; said Hrun;
  let prompt := fresh "prompt" in
  let prompting := fresh "prompting" in
  let Hprompt := fresh "Hprompt" in
  script_step Hrun prompt prompting Hprompt;
  let http_results := fresh "http_results" in
  let http_test := fresh "http_test" in
  let Hhttp := fresh "Hhttp" in
  script_step Hrun http_results http_test Hhttp;
  let cli_results := fresh "cli_results" in
  let cli_test := fresh "cli_test" in
  let Hcli := fresh "Hcli" in
  script_step Hrun cli_results cli_test Hcli;
  said Hrun; said Hrun; said Hrun;
  let summarised := fresh "summarised" in
  let summary := fresh "summary" in
  let Hsummary := fresh "Hsummary" in
  script_step Hrun summarised summary Hsummary;
  let updated := fresh "updated" in
  let update := fresh "update" in
  let Hmarker := fresh "Hmarker" in
  script_step Hrun updated update Hmarker;
  said Hrun;
  let announced := fresh "announced" in
  let verdict := fresh "verdict" in
  let Hverdict := fresh "Hverdict" in
  script_step Hrun announced verdict Hverdict;
  said Hrun;
  let Hresult := fresh "Hresult" in
  apply (f_equal fst) in Hrun as Hresult; cbn [fst sret] in Hresult;
  injection Hresult as Hresult;
  apply (f_equal snd) in Hrun; cbn [snd sret] in Hrun; subst.

(** A run of [run_integration_test] that returns has written the sync
    marker exactly when every test it ran passed and [git rev-parse HEAD]
    gave a commit: it then wrote that commit, once.  Saved test outputs
    are assumed not to be written over the marker. *)
Theorem sync_marker_follows_the_result (w : World) (h : Host)
    (http_only cli_only save_output result : bool) (acts : list action) :
  outputs_apart h ->
  Driver.run_integration_test w h http_only cli_only save_output
  = (Returned result, acts) ->
  marked acts
  = match Driver.given (current_hash_of h) with
    | Some hash => if result then [hash] else []
    | None => []
    end.
Proof.
  intros Hapart Hrun. run_steps Hrun.
  pose proof (get_current_hash_value _ _ _ Hcurrent) as ->.
  pose proof (part_unobserved _ _ _ _ _ (git_fetch_prepares h)
                prepares_unmarked Hfetch) as Mfetch.
  pose proof (part_unobserved _ _ _ _ _ (get_last_sync_hash_prepares h)
                prepares_unmarked Hlast) as Mlast.
  pose proof (part_unobserved _ _ _ _ _ (rev_parse_prepares h "HEAD")
                prepares_unmarked Hcurrent) as Mcurrent.
  pose proof (part_unobserved _ _ _ _ _ (rev_parse_prepares h "origin/main")
                prepares_unmarked Horigin) as Morigin.
  pose proof (part_unobserved _ _ _ _ _ (build_review_prompt_prepares h last_sync)
                prepares_unmarked Hprompt) as Mprompt.
  pose proof (part_unobserved _ _ _ _ _
                (only_say_all prepares _ (fun _ => I))
                prepares_unmarked Hsummary) as Msummary.
  assert (Mhttp : marked http_test = []).
  { eapply part_unobserved with (Q := tests h);
      [|exact (fun a => tests_unmarked h a Hapart)|exact Hhttp].
    destruct (negb cli_only); [|apply only_sret].
    apply only_sbind; [apply test_http_endpoint_tests|intros [[passed text] error]].
    apply only_sbind; [|intros _; apply only_sret].
    destruct (negb passed); [now apply only_say|apply only_sret]. }
  assert (Mcli : marked cli_test = []).
  { eapply part_unobserved with (Q := tests h);
      [|exact (fun a => tests_unmarked h a Hapart)|exact Hcli].
    destruct (negb http_only); [|apply only_sret].
    apply only_sbind; [apply test_claude_cli_tests|intros [[passed text] error]].
    apply only_sbind; [|intros _; apply only_sret].
    destruct (negb passed); [now apply only_say|apply only_sret]. }
  assert (Mverdict : marked verdict = []).
  { eapply part_unobserved with (Q := prepares);
      [|apply prepares_unmarked|exact Hverdict].
    destruct (forallb _ _); now apply only_say. }
  unfold marked in *. rewrite !observe_app.
  rewrite Mfetch, Mlast, Mcurrent, Morigin, Mprompt, Msummary, Mhttp, Mcli, Mverdict.
  cbn [observe flat_map app]. rewrite !app_nil_r.
  destruct (Driver.given (current_hash_of h)) as [hash|].
  - destruct (forallb _ _).
    + unfold Driver.save_last_sync_hash in Hmarker.
      destruct (write_text h Driver.LAST_SYNC_FILE hash); [discriminate Hmarker|].
      apply (f_equal snd) in Hmarker. cbn [snd sbind say app] in Hmarker. subst.
      reflexivity.
    + apply (f_equal snd) in Hmarker. cbn [snd sret] in Hmarker. now subst.
  - apply (f_equal snd) in Hmarker. cbn [snd sret] in Hmarker. now subst.
Qed.

Lemma sync_marker_follows_the_result_witness :
  marked (snd (Driver.run_integration_test Hosts.proxy Hosts.workstation
                 false false false))
  = ["0123456789abcdef"].
Proof.
  apply (sync_marker_follows_the_result Hosts.proxy Hosts.workstation
           false false false true).
  - intros name H. cbn in H. discriminate H.
  - vm_compute. reflexivity.
Defined.

(** What a run does, whatever its flags: the preparation, the update of
    the marker and, unless both [--http-only] and [--cli-only] are
    given, the tests. *)
Lemma run_integration_test_only (Q : action -> Prop) (w : World) (h : Host)
    (http_only cli_only save_output : bool) :
  (forall a, prepares a -> Q a) ->
  (forall hash, Q (Wrote Driver.LAST_SYNC_FILE hash)) ->
  (http_only && cli_only = false -> forall a, tests h a -> Q a) ->
  does_only Q (Driver.run_integration_test w h http_only cli_only save_output).
Proof.
  intros Hprep Hmark Htests.
  pose proof (fun line => Hprep (Out (Printed line)) I) as Hsay.
  unfold Driver.run_integration_test.
  do 3 (apply only_sbind; [now apply only_say|intros _]).
  apply only_sbind;
    [apply (only_more _ prepares _ Hprep), git_fetch_prepares|intros _].
  apply only_sbind;
    [apply (only_more _ prepares _ Hprep), get_last_sync_hash_prepares
    |intros last_sync].
  apply only_sbind;
    [apply (only_more _ prepares _ Hprep), rev_parse_prepares|intros current].
  apply only_sbind;
    [apply (only_more _ prepares _ Hprep), rev_parse_prepares|intros origin].
  do 4 (apply only_sbind; [now apply only_say|intros _]).
  apply only_sbind;
    [apply (only_more _ prepares _ Hprep), build_review_prompt_prepares
    |intros prompt].
  apply only_sbind; [|intros http_results].
  { destruct cli_only; cbn [negb]; [apply only_sret|].
    rewrite andb_false_r in Htests. specialize (Htests eq_refl).
    apply only_sbind;
      [apply (only_more _ (tests h) _ Htests), test_http_endpoint_tests
      |intros [[passed text] error]].
    apply only_sbind; [|intros _; apply only_sret].
    destruct (negb passed); [now apply only_say|apply only_sret]. }
  apply only_sbind; [|intros cli_results].
  { destruct http_only; cbn [negb]; [apply only_sret|].
    specialize (Htests eq_refl).
    apply only_sbind;
      [apply (only_more _ (tests h) _ Htests), test_claude_cli_tests
      |intros [[passed text] error]].
    apply only_sbind; [|intros _; apply only_sret].
    destruct (negb passed); [now apply only_say|apply only_sret]. }
  do 3 (apply only_sbind; [now apply only_say|intros _]).
  apply only_sbind; [now apply only_say_all|intros _].
  apply only_sbind; [|intros _].
  { destruct (Driver.given current) as [hash|]; [|apply only_sret].
    destruct (forallb _ _); [|apply only_sret].
    apply only_sbind; [|intros _; now apply only_say].
    unfold Driver.save_last_sync_hash, does_only.
    destruct (write_text h _ _); cbn [fst snd];
      (split; [constructor; [apply Hmark|constructor]|discriminate]). }
  apply only_sbind; [now apply only_say|intros _].
  apply only_sbind; [|intros _].
  { destruct (forallb _ _); now apply only_say. }
  apply only_sbind; [now apply only_say|intros _]. apply only_sret.
Qed.

(** With [--http-only] and [--cli-only] together no test is run:
    whatever the proxy and the host are, the run sends no request and
    starts no process but [git], and when it returns it reports that
    all tests passed. *)
Theorem both_only_flags_run_no_test (w : World) (h : Host) (save_output : bool) :
  sent (snd (Driver.run_integration_test w h true true save_output)) = []
  /\ Forall (fun c => program c = "git")
       (started (snd (Driver.run_integration_test w h true true save_output)))
  /\ forall result acts,
       Driver.run_integration_test w h true true save_output = (Returned result, acts) ->
       result = true.
Proof.
  assert (Hidle : does_only idles
                    (Driver.run_integration_test w h true true save_output)).
  { apply run_integration_test_only.
    - intros [[line|r]|c|path|path content]; cbn; auto; contradiction.
    - reflexivity.
    - discriminate. }
  destruct Hidle as [Hidle _]. split; [|split].
  - apply observe_nothing. revert Hidle. apply Forall_impl.
    intros [[line|r]|c|path|path content]; cbn; auto; contradiction.
  - apply observe_all. revert Hidle. apply Forall_impl.
    intros [[line|r]|c|path|path content]; cbn; auto.
  - intros result acts Hrun. run_steps Hrun.
    cbn [negb] in Hhttp, Hcli.
    apply (f_equal fst) in Hhttp, Hcli. cbn [fst sret] in Hhttp, Hcli.
    injection Hhttp as <-. injection Hcli as <-. reflexivity.
Qed.

Ltac not_a_pass H e :=
  cbn [sbind guarded sret say slift fst snd app] in H;
  destruct (Driver.is_connection_error e), (is_timeout e); discriminate H.

(** What a pass of the HTTP test stands for. *)
Lemma http_pass (w : World) (h : Host) (prompt : string) (save_output : bool)
    (content : string) (error : option string) (acts : list action) :
  Driver.test_http_endpoint w h prompt save_output
  = (Returned (true, content, error), acts) ->
  exists token r parsed,
    token_of h = Ok token
    /\ send w (Driver.messages_request token prompt) = Responded r
    /\ status_code r = 200%Z
    /\ response_json r = Ok parsed
    /\ Driver.answer_text parsed = Ok content
    /\ content <> ""
    /\ sent acts = [Driver.messages_request token prompt].
Proof.
  unfold Driver.test_http_endpoint, Driver.get_auth_token. fold (token_of h).
  rewrite sbind_said. destruct (token_of h) as [token|e]; [|discriminate].
  cbn [slift]. fold (sret token). rewrite sbind_returned. unfold http.
  destruct (send w (Driver.messages_request token prompt)) as [r|e] eqn:Hsend;
    cbn [embed fst snd map sbind]; [|intros H; not_a_pass H e].
  destruct (status_code r =? 200)%Z eqn:Hstatus; [|discriminate].
  apply Z.eqb_eq in Hstatus.
  destruct (response_json r) as [parsed|e] eqn:Hjson; cbn [slift sbind guarded];
    [|intros H; not_a_pass H e].
  destruct (Driver.answer_text parsed) as [text|e] eqn:Htext;
    cbn [slift sbind guarded]; [|intros H; not_a_pass H e].
  destruct (String.eqb text "") eqn:Hempty; cbn [negb]; [discriminate|].
  apply String.eqb_neq in Hempty.
  assert (Hpass : forall acts',
             (Returned (true, text, @None string), acts')
             = (Returned (true, content, error), acts) ->
             text = content /\ acts' = acts).
  { intros acts' H. injection H as -> _ ->. now split. }
  destruct save_output.
  - unfold Driver.save_test_output.
    destruct (mkdir h Driver.OUTPUT_DIR) as [e|]; [intros H; not_a_pass H e|].
    destruct (write_text h _ _) as [e|]; [intros H; not_a_pass H e|].
    cbn [sbind guarded sret say fst snd app]. intros H.
    apply Hpass in H as [<- <-]. now exists token, r, parsed.
  - cbn [sbind guarded sret say fst snd app]. intros H.
    apply Hpass in H as [<- <-]. now exists token, r, parsed.
Qed.

(** When the parser refuses the command line or prints its help, [main]
    ends the process with the parser's status and nothing is run.  Once
    the flags are read, [main] ends the process with status 0 or 1, and
    when the HTTP test is not skipped status 0 means that the run has
    posted the prompt to the messages endpoint of the proxy with the
    token of the host, and that the proxy answered that request with
    status 200 and a body whose text blocks are not all empty. *)
Theorem exit_status_zero_means_the_proxy_answered (w : World) (h : Host)
    (args : arguments) (code : Z) (acts : list action) :
  Driver.main w h args = (Exited code, acts) ->
  match args with
  | Refused status => code = status /\ acts = []
  | Flags http_only cli_only save_output =>
      (code = 0 \/ code = 1)%Z
      /\ (cli_only = false -> code = 0%Z ->
          exists token prompt r parsed content,
            let request :=
              mk_request POST "http://127.0.0.1:4337/v1/messages"
                [("Content-Type", JStr "application/json");
                 ("x-api-key", token);
                 ("anthropic-version", JStr "2023-06-01")]
                (Some (JObj [("model", JStr "anthropic--claude-4-sonnet");
                             ("max_tokens", JNum 2000);
                             ("messages", JArr [JObj [("role", JStr "user");
                                                      ("content", JStr prompt)]])]))
                (Some 120%Z) in
            token_of h = Ok token
            /\ In request (sent acts)
            /\ send w request = Responded r
            /\ status_code r = 200%Z
            /\ response_json r = Ok parsed
            /\ Driver.answer_text parsed = Ok content
            /\ content <> "")
  end.
Proof.
  unfold Driver.main. intros Hmain.
  destruct args as [status|http_only cli_only save_output].
  { injection Hmain as <- <-. now split. }
  destruct (Driver.run_integration_test w h http_only cli_only save_output)
    as [[result|e|c] racts] eqn:Hrun; cbn [sbind] in Hmain.
  - injection Hmain as <- <-. rewrite app_nil_r. split.
    + destruct result; [now left|now right].
    + intros -> Hcode. destruct result; [clear Hcode|discriminate Hcode].
      run_steps Hrun. cbn [negb] in Hhttp.
      script_step Hhttp tested testing Htest.
      destruct tested as [[passed text] error].
      script_step Hhttp noted noting Hnote.
      apply (f_equal fst) in Hhttp. cbn [fst sret] in Hhttp.
      injection Hhttp as <-.
      cbn [app forallb fst snd] in Hresult.
      apply andb_prop in Hresult as [-> _].
      apply http_pass in Htest
        as (token & r & parsed & Htoken & Hsend & Hstatus & Hjson & Htext & Hfull & Hsent).
      exists token, prompt, r, parsed, text. cbv zeta.
      change (mk_request POST "http://127.0.0.1:4337/v1/messages" _ _ _)
        with (Driver.messages_request token prompt).
      repeat split; try assumption.
      unfold sent in *. rewrite !observe_app, Hsent.
      repeat first [apply in_or_app; left; now left | apply in_or_app; right].
  - discriminate Hmain.
  - pose proof (run_integration_test_only (fun _ => True) w h http_only cli_only
                  save_output (fun _ _ => I) (fun _ => I) (fun _ _ _ => I))
      as [_ Hstay].
    rewrite Hrun in Hstay. injection Hmain as -> _. now contradiction (Hstay code).
Qed.

Lemma exit_status_zero_means_the_proxy_answered_witness :
  (0 = 0 \/ 0 = 1)%Z
  /\ (false = false -> 0%Z = 0%Z ->
      exists token prompt r parsed content,
        let request :=
          mk_request POST "http://127.0.0.1:4337/v1/messages"
            [("Content-Type", JStr "application/json");
             ("x-api-key", token);
             ("anthropic-version", JStr "2023-06-01")]
            (Some (JObj [("model", JStr "anthropic--claude-4-sonnet");
                         ("max_tokens", JNum 2000);
                         ("messages", JArr [JObj [("role", JStr "user");
                                                  ("content", JStr prompt)]])]))
            (Some 120%Z) in
        token_of Hosts.workstation = Ok token
        /\ In request
             (sent (snd (Driver.main Hosts.proxy Hosts.workstation
                           (Flags true false false))))
        /\ send Hosts.proxy request = Responded r
        /\ status_code r = 200%Z
        /\ response_json r = Ok parsed
        /\ Driver.answer_text parsed = Ok content
        /\ content <> "").
Proof.
  apply (exit_status_zero_means_the_proxy_answered Hosts.proxy Hosts.workstation
           (Flags true false false) 0).
  vm_compute. reflexivity.
Defined.

Example main_on_a_refused_command_line :
  Driver.main Hosts.proxy Hosts.workstation (Refused 2) = (Exited 2%Z, []).
Proof. reflexivity. Qed.

(** A sync marker that holds only white space reads as no marker: the
    run is the one of a host without the marker file, so the review
    covers the last ten commits and the files changed since [HEAD~5]. *)
Theorem blank_marker_reads_as_never_synced (w : World) (h : Host)
    (http_only cli_only save_output : bool) (content : string) :
  read_text h Driver.LAST_SYNC_FILE = Holds content ->
  strip content = "" ->
  Driver.run_integration_test w h http_only cli_only save_output
  = Driver.run_integration_test w (with_marker h Absent) http_only cli_only save_output.
Proof.
  intros Hread Hblank.
  unfold Driver.run_integration_test, Driver.get_last_sync_hash.
  rewrite Hread, Hblank.
  change (read_text (with_marker h Absent) Driver.LAST_SYNC_FILE) with Absent.
  reflexivity.
Qed.

Lemma blank_marker_reads_as_never_synced_witness :
  Driver.run_integration_test Hosts.proxy
    (with_marker Hosts.workstation (Holds (" " ++ newline))) false false false
  = Driver.run_integration_test Hosts.proxy
      (with_marker (with_marker Hosts.workstation (Holds (" " ++ newline))) Absent)
      false false false.
Proof.
  apply (blank_marker_reads_as_never_synced Hosts.proxy
           (with_marker Hosts.workstation (Holds (" " ++ newline)))
           false false false (" " ++ newline));
    reflexivity.
Defined.
